(** * S3 bucket enumerator: region detection, listing, folder grouping
      and permission probes

    A shallow embedding of [S3-Bucket-Enumerator.py].  Python [str] values
    are Rocq strings whose characters are the code points below 256; a
    Python [int] is a [Z]; a [dict] is an association list in insertion
    order, which is the order [dict.keys()] iterates in.  Everything the
    script does outside the interpreter (the [aws] command line, the
    random canary name, the temporary file, the clock, the prompts) goes
    through a [host] record acting on an abstract world, and every shell
    command and every printed line is appended to a trace.

    The operations on the local files (the temporary file, the report
    page) are taken to succeed, and the interpreter to run with its
    default limit of 4300 digits on integers read or written.  The text of
    the HTML page is not modelled: building it is followed for what it
    can raise, and writing it appears in the trace as one event. *)

From Stdlib Require Import String Ascii List ZArith NArith Bool Lia Permutation.
From Stdlib Require Import DecimalString Sorted OrderedTypeEx.
Import ListNotations.
Open Scope string_scope.

(** ** Python string operations *)

Module PyStr.

Definition code (c : ascii) : N := N_of_ascii c.

(** [str.isspace] on one character: TAB..CR, FS..US, space, NEL, NBSP. *)
Definition isspace (c : ascii) : bool :=
  let n := code c in
  ((9 <=? n) && (n <=? 13) || (28 <=? n) && (n <=? 31)
   || (n =? 32) || (n =? 133) || (n =? 160))%N.

(** The line boundaries of [str.splitlines]: LF, VT, FF, CR, FS, GS, RS,
    NEL (and CR LF taken as one boundary, see [splitlines_from]). *)
Definition islinebreak (c : ascii) : bool :=
  let n := code c in
  ((10 <=? n) && (n <=? 13) || (28 <=? n) && (n <=? 30) || (n =? 133))%N.

Definition nonempty (s : string) : bool :=
  match s with EmptyString => false | String _ _ => true end.

Definition snoc (s : string) (c : ascii) : string := s ++ String c "".

Fixpoint lstrip (s : string) : string :=
  match s with
  | EmptyString => ""
  | String c r => if isspace c then lstrip r else s
  end.

Fixpoint rstrip (s : string) : string :=
  match s with
  | EmptyString => ""
  | String c r =>
      match rstrip r with
      | EmptyString => if isspace c then "" else String c ""
      | r' => String c r'
      end
  end.

(** [s.strip()] *)
Definition strip (s : string) : string := rstrip (lstrip s).

(** [needle in hay] *)
Fixpoint contains (needle hay : string) : bool :=
  prefix needle hay
  || match hay with
     | EmptyString => false
     | String _ r => contains needle r
     end.

(** [s.split()]: the maximal runs of non-whitespace characters. *)
Fixpoint split_from (cur s : string) : list string :=
  match s with
  | EmptyString => if nonempty cur then [cur] else []
  | String c r =>
      if isspace c
      then (if nonempty cur then cur :: split_from "" r else split_from "" r)
      else split_from (snoc cur c) r
  end.

Definition split (s : string) : list string := split_from "" s.

(** [s.split(sep)] for a one-character separator: never empty. *)
Fixpoint split_on_from (sep : ascii) (cur s : string) : list string :=
  match s with
  | EmptyString => [cur]
  | String c r =>
      if Ascii.eqb c sep
      then cur :: split_on_from sep "" r
      else split_on_from sep (snoc cur c) r
  end.

Definition split_on (sep : ascii) (s : string) : list string :=
  split_on_from sep "" s.

(** [s.splitlines()]: a boundary closes the current line, also an empty
    one; what follows the last boundary is a line only when non-empty. *)
Fixpoint splitlines_from (cur s : string) : list string :=
  match s with
  | EmptyString => if nonempty cur then [cur] else []
  | String c r =>
      if islinebreak c
      then match r with
           | String d r' =>
               if Ascii.eqb c "013" && Ascii.eqb d "010"
               then cur :: splitlines_from "" r'
               else cur :: splitlines_from "" r
           | EmptyString => [cur]
           end
      else splitlines_from (snoc cur c) r
  end.

Definition splitlines (s : string) : list string := splitlines_from "" s.

Definition digit (c : ascii) : option Z :=
  let n := code c in
  if ((48 <=? n) && (n <=? 57))%N then Some (Z.of_N n - 48)%Z else None.

(** The digits of an integer literal after its sign: a digit, then
    digits each preceded by at most one underscore.  [acc] is the value
    read so far and [sep] tells that the previous character was an
    underscore. *)
Fixpoint int_digits (acc : Z) (sep : bool) (s : string) : option Z :=
  match s with
  | EmptyString => if sep then None else Some acc
  | String c r =>
      match digit c with
      | Some d => int_digits (10 * acc + d) false r
      | None =>
          if Ascii.eqb c "_" && negb sep then int_digits acc true r else None
      end
  end.

Definition int_unsigned (s : string) : option Z :=
  match s with
  | EmptyString => None
  | String c _ => match digit c with
                  | Some _ => int_digits 0 false s
                  | None => None
                  end
  end.

(** The interpreter's default limit on the number of digits of an
    integer that is read from or written to a string. *)
Definition max_str_digits : nat := 4300.

Fixpoint count_digits (s : string) : nat :=
  match s with
  | EmptyString => O
  | String c r =>
      match digit c with
      | Some _ => S (count_digits r)
      | None => count_digits r
      end
  end.

(** A signed integer literal, whatever its length. *)
Definition int_literal (s : string) : option Z :=
  match s with
  | String "+" r => int_unsigned r
  | String "-" r => option_map Z.opp (int_unsigned r)
  | _ => int_unsigned s
  end.

(** [int(s)] on a string without surrounding whitespace; [None] stands
    for [ValueError], raised for what is no integer literal and for a
    literal of more than [max_str_digits] digits, leading zeros counted. *)
Definition int (s : string) : option Z :=
  if (max_str_digits <? count_digits s)%nat then None else int_literal s.

End PyStr.

(** ** Data model *)

(** One listed object: the dictionary built at each accepted line. *)
Record Obj : Type := mkObj {
  date : string;
  time : string;
  size : Z;
  key : string
}.

(** The value stored per folder in [folder_permissions]. *)
Record Perm : Type := mkPerm {
  read : bool;
  write : bool
}.

(** A Python [dict] with string keys, in insertion order. *)
Definition dict (V : Type) : Type := list (string * V).

Definition keys {V : Type} (d : dict V) : list string := map fst d.

Fixpoint dict_get {V : Type} (k : string) (d : dict V) : option V :=
  match d with
  | [] => None
  | (k', v) :: rest => if String.eqb k' k then Some v else dict_get k rest
  end.

(** [d[k] = v]: replaces in place, or inserts at the end. *)
Fixpoint dict_set {V : Type} (k : string) (v : V) (d : dict V) : dict V :=
  match d with
  | [] => [(k, v)]
  | (k', v') :: rest =>
      if String.eqb k' k then (k', v) :: rest else (k', v') :: dict_set k v rest
  end.

(** [d.setdefault(k, []).append(x)] *)
Fixpoint setdefault_append {A : Type} (k : string) (x : A) (d : dict (list A))
  : dict (list A) :=
  match d with
  | [] => [(k, [x])]
  | (k', xs) :: rest =>
      if String.eqb k' k then (k', (xs ++ [x])%list) :: rest
      else (k', xs) :: setdefault_append k x rest
  end.

(** The arguments [main] hands to [generate_html_report]. *)
Record Report : Type := mkReport {
  report_bucket : string;
  report_region : string;
  report_timestamp : string;
  total_files : nat;
  total_size : Z;
  folder_permissions : dict Perm;
  groups : dict (list Obj)
}.

Definition nl : string := String "010" "".

(** ** The console rendering *)

Module Render.

Definition COLOR_GREEN : string := String "027" "[92m".
Definition COLOR_RED : string := String "027" "[91m".
Definition COLOR_YELLOW : string := String "027" "[93m".
Definition COLOR_BLUE : string := String "027" "[94m".
Definition COLOR_RESET : string := String "027" "[0m".

(** [str(n)] for an integer. *)
Definition str_int (n : Z) : string := NilZero.string_of_int (Z.to_int n).

(** [s * n] *)
Fixpoint times (n : nat) (s : string) : string :=
  match n with
  | O => ""
  | S m => s ++ times m s
  end.

(** The format specifications [:<w] and [:>w] on a string. *)
Definition ljust (width : nat) (s : string) : string :=
  s ++ times (width - String.length s) " ".

Definition rjust (width : nat) (s : string) : string :=
  times (width - String.length s) " " ++ s.

(** The integer nearest to [n / d], a tie going to the even one ([d > 0]). *)
Definition div_half_even (n d : Z) : Z :=
  let q := (n / d)%Z in
  match (2 * (n mod d) ?= d)%Z with
  | Lt => q
  | Gt => (q + 1)%Z
  | Eq => if Z.even q then q else (q + 1)%Z
  end.

(** The double nearest to the positive integer [n], as an integer: [n]
    itself up to 53 significant bits, beyond that rounded to 53 bits,
    ties to even. *)
Definition nearest_double (n : Z) : Z :=
  let excess := (Z.log2 n - 52)%Z in
  if (excess <=? 0)%Z then n
  else (div_half_even n (2 ^ excess) * 2 ^ excess)%Z.

(** A number of hundredths written with two decimals. *)
Definition two_decimals (h : Z) : string :=
  let cents := (h mod 100)%Z in
  str_int (h / 100) ++ "."
  ++ (if (cents <? 10)%Z then "0" ++ str_int cents else str_int cents).

(** What the rendering functions can raise: a missing key, a division
    too large for a float, an integer with too many digits to write. *)
Inductive render_error : Type :=
| KeyError (k : string)
| OverflowError
| DigitLimitError.

(** The first integer with more digits than the interpreter writes. *)
Definition digit_limit : Z := (10 ^ Z.of_nat PyStr.max_str_digits)%Z.

(** [f"{n}"] for an integer: [ValueError] beyond the digit limit. *)
Definition str (n : Z) : render_error + string :=
  if (digit_limit <=? Z.abs n)%Z then inl DigitLimitError else inr (str_int n).

(** [f"{size/(1<<k):.2f}"] for [size >= 1 << k]: the true division of
    two integers gives the double nearest to the quotient, and raises
    [OverflowError] when that is 2^1024 or more; [.2f] then writes the
    hundredth nearest to the double, a tie going to the even one. *)
Definition ratio_text (size k : Z) : render_error + string :=
  let m := nearest_double size in
  if (2 ^ (1024 + k) <=? m)%Z then inl OverflowError
  else inr (two_decimals (div_half_even (100 * m) (2 ^ k))).

Definition with_unit (text : render_error + string) (unit : string)
  : render_error + string :=
  match text with
  | inl e => inl e
  | inr t => inr (t ++ " " ++ unit)
  end.

Definition format_size (size : Z) : render_error + string :=
  if (2 ^ 40 <=? size)%Z then with_unit (ratio_text size 40) "TB"
  else if (2 ^ 30 <=? size)%Z then with_unit (ratio_text size 30) "GB"
  else if (2 ^ 20 <=? size)%Z then with_unit (ratio_text size 20) "MB"
  else if (2 ^ 10 <=? size)%Z then with_unit (ratio_text size 10) "KB"
  else with_unit (str size) "bytes".

(** [sorted(l)] on strings: ascending by code points.  The result of a
    sort is fixed by its being ordered, a rearrangement of the input and
    stable, so an insertion sort stands for the interpreter's. *)
Fixpoint insert (k : string) (l : list string) : list string :=
  match l with
  | [] => [k]
  | x :: rest => if String.leb k x then k :: l else x :: insert k rest
  end.

Definition sorted (l : list string) : list string := fold_right insert [] l.

(** [sorted(files, key=lambda x: x["size"], reverse=True)]: largest
    first, files of equal size in their order in [files]. *)
Fixpoint insert_by_size (obj : Obj) (l : list Obj) : list Obj :=
  match l with
  | [] => [obj]
  | x :: rest =>
      if (size x <=? size obj)%Z then obj :: l else x :: insert_by_size obj rest
  end.

Definition sorted_by_size (files : list Obj) : list Obj :=
  fold_right insert_by_size [] files.

(** Printing: the lines printed so far, and how the function ended. *)
Definition Out (A : Type) : Type := list string * (render_error + A).

Definition done {A : Type} (a : A) : Out A := ([], inr a).

Definition say (line : string) : Out unit := ([line], inr tt).

Definition lift {A : Type} (r : render_error + A) : Out A := ([], r).

Definition and_then {A B : Type} (m : Out A) (k : A -> Out B) : Out B :=
  match m with
  | (lines, inl e) => (lines, inl e)
  | (lines, inr a) => let (more, r) := k a in ((lines ++ more)%list, r)
  end.

Fixpoint for_each {A : Type} (l : list A) (body : A -> Out unit) : Out unit :=
  match l with
  | [] => done tt
  | x :: rest => and_then (body x) (fun _ => for_each rest body)
  end.

(** [d[k]] *)
Definition lookup {V : Type} (k : string) (d : dict V) : Out V :=
  match dict_get k d with
  | Some v => done v
  | None => lift (inl (KeyError k))
  end.

Declare Scope out_scope.
Notation "x <~ m ;; k" := (and_then m (fun x => k))
  (at level 61, m at next level, right associativity) : out_scope.
Notation "m ;;; k" := (and_then m (fun _ => k))
  (at level 61, right associativity) : out_scope.
Open Scope out_scope.

(** The row of one folder (line 122). *)
Definition permission_row (folder : string) (perm : Perm) : string :=
  let permission_str := if write perm then "Read/Write" else "Read" in
  let color := if write perm then COLOR_RED else COLOR_GREEN in
  ljust 40 folder ++ " " ++ color ++ ljust 15 permission_str ++ COLOR_RESET.

Definition print_folder_permissions (perms : dict Perm) : Out unit :=
  say (nl ++ "Permissions on bucket") ;;;
  say "---------------------" ;;;
  say (ljust 40 "Folder" ++ " " ++ ljust 15 "Permission") ;;;
  say (times 60 "-") ;;;
  for_each (sorted (keys perms))
           (fun folder =>
              perm <~ lookup folder perms ;;
              say (permission_row folder perm)).

(** The colour of a file by its size (lines 134-141). *)
Definition size_color (size : Z) : string :=
  if (size =? 0)%Z then COLOR_BLUE
  else if (100 * 2 ^ 20 <? size)%Z then COLOR_RED
  else if (10 * 2 ^ 20 <? size)%Z then COLOR_YELLOW
  else COLOR_GREEN.

Definition print_file (file : Obj) : Out unit :=
  let col := size_color (size file) in
  text <~ lift (format_size (size file)) ;;
  say ("    " ++ col ++ rjust 12 text ++ " - " ++ key file ++ COLOR_RESET).

Definition print_folder (grouped : dict (list Obj)) (folder : string) : Out unit :=
  say (nl ++ COLOR_YELLOW ++ folder ++ COLOR_RESET) ;;;
  say (times 35 "-") ;;;
  files <~ lookup folder grouped ;;
  for_each (sorted_by_size files) print_file.

Definition print_grouped_files (grouped : dict (list Obj)) : Out unit :=
  say (nl ++ "Available Bucket files") ;;;
  say "-------------------------------" ;;;
  for_each (sorted (keys grouped)) (print_folder grouped).

(** What building the page of [generate_html_report] evaluates (lines
    146-258), in order: the total size, the permissions of each folder,
    the size of each file.  The text of the page is not modelled; nothing
    is printed. *)
Definition html_content (total_size : Z) (perms : dict Perm)
           (grouped : dict (list Obj)) : Out unit :=
  lift (format_size total_size) ;;;
  for_each (sorted (keys perms)) (fun folder => lookup folder perms ;;; done tt) ;;;
  for_each (sorted (keys grouped))
           (fun folder =>
              files <~ lookup folder grouped ;;
              for_each (sorted_by_size files)
                       (fun file => lift (format_size (size file)) ;;; done tt)).

Close Scope out_scope.

End Render.

(** ** The world outside the interpreter *)

(** What [subprocess.run(..., capture_output=True, text=True)] does: it
    completes with the two captured streams, or raises. *)
Inductive proc_result : Type :=
| Completed (stdout stderr : string)
| Raised (message : string).

Record host (World : Type) : Type := mkHost {
  subprocess_run : string -> World -> proc_result * World;
  (** [''.join(random.choices(ascii_letters + digits, k=8))] *)
  random_choices : World -> string * World;
  (** creates the temporary file, writes the payload, returns its name *)
  NamedTemporaryFile : World -> string * World;
  os_remove : string -> World -> World;
  (** the local time, formatted by [strftime] *)
  now : World -> string * World;
  (** [input(prompt)] *)
  input : string -> World -> string * World
}.

Arguments subprocess_run {World}.
Arguments random_choices {World}.
Arguments NamedTemporaryFile {World}.
Arguments os_remove {World}.
Arguments now {World}.
Arguments input {World}.

(** What an observer of a run sees, in order: a shell command with what
    [run_command] returned for it, a printed text, the page written by
    [generate_html_report], recorded by the report it is made from. *)
Inductive event : Type :=
| Ran (cmd stdout stderr : string)
| Printed (text : string)
| Html_report (r : Report).

Record state (World : Type) : Type := mkState {
  world : World;
  trace : list event
}.

Arguments mkState {World}.
Arguments world {World}.
Arguments trace {World}.

(** The exceptions the modelled code can raise: that of [int] on a
    string it does not accept, and those of the rendering. *)
Inductive exn : Type :=
| ValueError (literal : string)
| Rendering (e : Render.render_error).

Inductive res (A : Type) : Type :=
| Return (a : A)
| Raise (e : exn).

Arguments Return {A}.
Arguments Raise {A}.

(** ** A state and exception monad *)

Definition M (World A : Type) : Type := state World -> res A * state World.

Definition ret {World A : Type} (a : A) : M World A := fun s => (Return a, s).

Definition raise {World A : Type} (e : exn) : M World A := fun s => (Raise e, s).

Definition bind {World A B : Type} (m : M World A) (k : A -> M World B)
  : M World B :=
  fun s =>
    match m s with
    | (Return a, s') => k a s'
    | (Raise e, s') => (Raise e, s')
    end.

Definition lift {World A : Type} (r : res A) : M World A := fun s => (r, s).

(** An operation of the host on the world; the trace is untouched. *)
Definition call {World A : Type} (f : World -> A * World) : M World A :=
  fun s => let (a, w) := f (world s) in (Return a, mkState w (trace s)).

Definition emit {World : Type} (e : event) : M World unit :=
  fun s => (Return tt, mkState (world s) (trace s ++ [e])%list).

Definition print {World : Type} (text : string) : M World unit :=
  emit (Printed text).

Declare Scope py_scope.
Delimit Scope py_scope with py.
Notation "x <- m ;; k" := (bind m (fun x => k))
  (at level 61, m at next level, right associativity) : py_scope.
Notation "' p <- m ;; k" := (bind m (fun x => match x with p => k end))
  (at level 61, p pattern, m at next level, right associativity) : py_scope.
Notation "m ;; k" := (bind m (fun _ => k))
  (at level 61, right associativity) : py_scope.
Open Scope py_scope.

(** ** The script *)

Definition CANDIDATE_REGIONS : list string :=
  [ "us-east-1"; "us-east-2"; "us-west-1"; "us-west-2"; "af-south-1";
    "ap-east-1"; "ap-south-1"; "ap-south-2"; "ap-northeast-1"; "ap-northeast-2";
    "ap-northeast-3"; "ap-southeast-1"; "ap-southeast-2"; "ap-southeast-3";
    "ap-southeast-4"; "ap-southeast-5"; "ap-southeast-7"; "ca-central-1";
    "ca-west-1"; "eu-central-1"; "eu-central-2"; "eu-west-1"; "eu-west-2";
    "eu-west-3"; "eu-south-1"; "eu-north-1"; "il-central-1"; "me-south-1";
    "mx-central-1"; "sa-east-1" ].

(** The command lines, as the f-strings build them. *)
Definition detect_cmd (bucket_name region : string) : string :=
  "aws s3 ls s3://" ++ bucket_name ++ "/ --region " ++ region
  ++ " --no-sign-request".

Definition list_cmd (bucket_name region : string) : string :=
  "aws s3 ls s3://" ++ bucket_name ++ "/ --recursive --region " ++ region
  ++ " --no-sign-request".

Definition read_cmd (bucket_name folder region : string) : string :=
  "aws s3 ls s3://" ++ bucket_name ++ "/" ++ folder ++ " --region " ++ region
  ++ " --no-sign-request".

Definition upload_cmd (local_test_file bucket_name folder test_file region : string)
  : string :=
  "aws s3 cp " ++ local_test_file ++ " s3://" ++ bucket_name ++ "/" ++ folder
  ++ test_file ++ " --region " ++ region ++ " --no-sign-request".

Definition delete_cmd (bucket_name folder test_file region : string) : string :=
  "aws s3 rm s3://" ++ bucket_name ++ "/" ++ folder ++ test_file
  ++ " --region " ++ region ++ " --no-sign-request".

(** [obj["key"].split('/')[0]] *)
Definition folder_of_key (k : string) : string :=
  nth 0 (PyStr.split_on "/" k) "".

Definition folder_of (obj : Obj) : string := folder_of_key (key obj).

(** The test of line 39, on the pair [run_command] returned. *)
Definition region_accepted (stdout stderr : string) : bool :=
  negb (PyStr.contains "An error occurred" stderr) && PyStr.nonempty stdout.

(** The test of lines 69 and 83. *)
Definition denied (stderr : string) : bool :=
  PyStr.contains "AccessDenied" stderr
  || PyStr.contains "An error occurred" stderr.

(** The body of the loop of [list_s3_objects] on one line: an object to
    append, nothing, or the exception of [int]. *)
Definition parse_line (line : string) : res (option Obj) :=
  let parts := PyStr.split line in
  if (4 <=? length parts)%nat then
    match PyStr.int (nth 2 parts "") with
    | Some n => Return (Some (mkObj (nth 0 parts "") (nth 1 parts "") n
                                    (nth 3 parts "")))
    | None => Raise (ValueError (nth 2 parts ""))
    end
  else Return None.

Fixpoint parse_lines (lines : list string) (objects : list Obj)
  : res (list Obj) :=
  match lines with
  | [] => Return objects
  | line :: rest =>
      match parse_line line with
      | Return (Some obj) => parse_lines rest (objects ++ [obj])%list
      | Return None => parse_lines rest objects
      | Raise e => Raise e
      end
  end.

(** [[line for line in stdout.splitlines() if line.strip()]] *)
Definition listing_lines (stdout : string) : list string :=
  filter (fun line => PyStr.nonempty (PyStr.strip line)) (PyStr.splitlines stdout).

Definition group_objects_by_folder (objects : list Obj) : dict (list Obj) :=
  fold_left (fun grouped obj => setdefault_append (folder_of obj) obj grouped)
            objects [].

(** [sum(obj["size"] for obj in objects)]: a left fold from 0. *)
Definition sum_sizes (objects : list Obj) : Z :=
  fold_left (fun acc obj => (acc + size obj)%Z) objects 0%Z.

Section Script.

Context {World : Type} (H : host World).

Local Abbreviation M := (M World).

Definition run_command (command : string) : M (string * string) :=
  fun s =>
    let (r, w) := subprocess_run H command (world s) in
    let out := match r with
               | Completed stdout stderr =>
                   (PyStr.strip stdout, PyStr.strip stderr)
               | Raised message => ("", message)
               end in
    (Return out, mkState w (trace s ++ [Ran command (fst out) (snd out)])%list).

(** The [for] loop of [auto_detect_region] over the regions left. *)
Fixpoint detect_in (regions : list string) (bucket_name : string)
  : M (option string) :=
  match regions with
  | [] => ret None
  | region :: rest =>
      '(stdout, stderr) <- run_command (detect_cmd bucket_name region) ;;
      if region_accepted stdout stderr
      then print ("Detected Region: " ++ region) ;; ret (Some region)
      else detect_in rest bucket_name
  end.

Definition auto_detect_region (bucket_name : string) : M (option string) :=
  detect_in CANDIDATE_REGIONS bucket_name.

Definition list_s3_objects (bucket_name region : string) : M (list Obj) :=
  '(stdout, stderr) <- run_command (list_cmd bucket_name region) ;;
  if PyStr.nonempty stderr
  then print ("Error listing objects: " ++ stderr) ;; ret []
  else lift (parse_lines (listing_lines stdout) []).

Definition check_read_access (bucket_name folder region : string) : M bool :=
  '(stdout, stderr) <- run_command (read_cmd bucket_name folder region) ;;
  if denied stderr then ret false else ret true.

Definition check_write_access (bucket_name folder region : string) : M bool :=
  name <- call (random_choices H) ;;
  let test_file := name ++ ".txt" in
  local_test_file <- call (NamedTemporaryFile H) ;;
  '(stdout, stderr) <-
    run_command (upload_cmd local_test_file bucket_name folder test_file region) ;;
  call (fun w => (tt, os_remove H local_test_file w)) ;;
  if denied stderr then ret false
  else
    run_command (delete_cmd bucket_name folder test_file region) ;;
    ret true.

(** The loop of lines 292-296 over [groups.keys()]. *)
Fixpoint probe_folders (bucket_name region : string) (folders : list string)
         (perms : dict Perm) : M (dict Perm) :=
  match folders with
  | [] => ret perms
  | folder :: rest =>
      let folder_path := folder ++ "/" in
      read_access <- check_read_access bucket_name folder_path region ;;
      write_access <- check_write_access bucket_name folder_path region ;;
      probe_folders bucket_name region rest
                    (dict_set folder (mkPerm read_access write_access) perms)
  end.

(** Runs a printing function: what it printed goes to the trace, what
    it raised is raised. *)
Definition shown {A : Type} (o : Render.Out A) : M A :=
  fun s =>
    (match snd o with
     | inl e => Raise (Rendering e)
     | inr a => Return a
     end,
     mkState (world s) (trace s ++ map Printed (fst o))%list).

(** [generate_html_report]: the page is built, which can raise, then
    written and announced. *)
Definition generate_html_report (report : Report) : M unit :=
  shown (Render.html_content (total_size report) (folder_permissions report)
                             (groups report)) ;;
  emit (Html_report report) ;;
  print "HTML report saved as s3_bucket_report.html".

(** [main] from the timestamp on (lines 276-311), once the bucket name
    and the region are known.  The result is the report handed to
    [generate_html_report], or [None] when [main] returns before. *)
Definition main_with_region (bucket_name region : string) : M (option Report) :=
  timestamp <- call (now H) ;;
  print (nl ++ "Timestamp: " ++ timestamp) ;;
  objects <- list_s3_objects bucket_name region ;;
  match objects with
  | [] => print "No objects found in bucket." ;; ret None
  | _ :: _ =>
      let grouped := group_objects_by_folder objects in
      perms <- probe_folders bucket_name region (keys grouped) [] ;;
      shown (Render.print_folder_permissions perms) ;;
      let size_total := sum_sizes objects in
      let files_total := length objects in
      print (nl ++ "Total Files: " ++ Render.str_int (Z.of_nat files_total)) ;;
      text <- shown (Render.lift (Render.format_size size_total)) ;;
      print ("Total Size: " ++ text) ;;
      shown (Render.print_grouped_files grouped) ;;
      let report := mkReport bucket_name region timestamp files_total
                             size_total perms grouped in
      generate_html_report report ;;
      ret (Some report)
  end.

Definition main : M (option Report) :=
  bucket_line <- call (input H "Enter the S3 bucket name: ") ;;
  let bucket_name := PyStr.strip bucket_line in
  region_line <-
    call (input H "Enter the AWS region (or leave blank to auto-detect): ") ;;
  let region := PyStr.strip region_line in
  if PyStr.nonempty region then main_with_region bucket_name region
  else
    print "Auto-detecting region..." ;;
    detected <- auto_detect_region bucket_name ;;
    match detected with
    | Some region' =>
        if PyStr.nonempty region' then main_with_region bucket_name region'
        else print "Failed to detect region. Exiting." ;; ret None
    | None => print "Failed to detect region. Exiting." ;; ret None
    end.

(** The first two steps of [main_with_region]: the timestamp read from
    the clock and the state once it is printed. *)
Definition after_timestamp (s : state World) : string * state World :=
  let (timestamp, w) := now H (world s) in
  (timestamp, mkState w (trace s ++ [Printed (nl ++ "Timestamp: " ++ timestamp)])%list).

(** The state in which [check_write_access] issues its upload: the
    canary name, the temporary file and the state after both draws. *)
Definition before_upload (s : state World) : string * string * state World :=
  let (name, w1) := random_choices H (world s) in
  let (local_test_file, w2) := NamedTemporaryFile H w1 in
  (name ++ ".txt", local_test_file, mkState w2 (trace s)).

Definition removed (local_test_file : string) (s : state World) : state World :=
  mkState (os_remove H local_test_file (world s)) (trace s).

End Script.

(** The trace of region probes: one command per region tried, with what
    [run_command] returned for it. *)
Definition probe_events (bucket_name : string) (regions : list string)
           (outs : list (string * string)) : list event :=
  map (fun p => Ran (detect_cmd bucket_name (fst p)) (fst (snd p)) (snd (snd p)))
      (combine regions outs).

Definition rejected (out : string * string) : Prop :=
  region_accepted (fst out) (snd out) = false.

(** The commands of a trace, in order. *)
Fixpoint commands (t : list event) : list string :=
  match t with
  | [] => []
  | Ran cmd _ _ :: rest => cmd :: commands rest
  | _ :: rest => commands rest
  end.

Definition in_folder (k : string) (obj : Obj) : bool :=
  String.eqb (folder_of obj) k.

(** What [group_objects_by_folder] has built once [objects] are read:
    distinct keys, under each key the objects of that folder in reading
    order, no key without objects, and every object once. *)
Definition grouping_of (objects : list Obj) (g : dict (list Obj)) : Prop :=
  NoDup (keys g)
  /\ (forall k, dict_get k g
                = match filter (in_folder k) objects with
                  | [] => None
                  | xs => Some xs
                  end)
  /\ Permutation (concat (map snd g)) objects.

(** ** The behaviour the specification words describe, for comparison *)

Module AsSpecified.

(** A storage call is an error when it wrote to the error stream (the
    test [list_s3_objects] makes) or could not be run at all. *)
Definition call_failed (stderr : string) : bool := PyStr.nonempty stderr.

Section Spec.

Context {World : Type} (H : host World).

(** Region resolution accepting the first non-error result, an empty
    successful listing included. *)
Fixpoint resolve_in (regions : list string) (bucket_name : string)
  : M World (option string) :=
  match regions with
  | [] => ret None
  | region :: rest =>
      '(stdout, stderr) <- run_command H (detect_cmd bucket_name region) ;;
      if negb (call_failed stderr) then ret (Some region)
      else resolve_in rest bucket_name
  end.

Definition resolve (bucket_name : string) : M World (option string) :=
  resolve_in CANDIDATE_REGIONS bucket_name.

(** The read probe: true exactly when the list call succeeds. *)
Definition read_probe (bucket_name folder region : string) : M World bool :=
  '(stdout, stderr) <- run_command H (read_cmd bucket_name folder region) ;;
  ret (negb (call_failed stderr)).

(** Enumeration with a failure outcome of its own. *)
Inductive enumeration : Type :=
| Inventory (objects : list Obj)
| EnumerationFailed.

(** Per-record parsing that skips what it cannot parse. *)
Fixpoint parse_skipping (lines : list string) : list Obj :=
  match lines with
  | [] => []
  | line :: rest =>
      match parse_line line with
      | Return (Some obj) => obj :: parse_skipping rest
      | _ => parse_skipping rest
      end
  end.

Definition enumerate (bucket_name region : string) : M World enumeration :=
  '(stdout, stderr) <- run_command H (list_cmd bucket_name region) ;;
  if call_failed stderr then ret EnumerationFailed
  else ret (Inventory (parse_skipping (listing_lines stdout))).

End Spec.

End AsSpecified.

(** ** A scripted host, for running the script on concrete inputs *)

Module Stub.

(** The world is the list of results the next shell commands will
    get; when it runs out, commands complete with empty streams. *)
Definition World : Type := list proc_result.

Definition run (cmd : string) (w : World) : proc_result * World :=
  match w with
  | [] => (Completed "" "", [])
  | r :: rest => (r, rest)
  end.

Definition host : host World :=
  mkHost World run
         (fun w => ("k3Xp09Qz", w))
         (fun w => ("/tmp/tmpq1w2e3r4", w))
         (fun _ w => w)
         (fun w => ("2025-03-27 15:48:38 UTC", w))
         (fun _ w => ("", w)).

Definition start (script : list proc_result) : state World :=
  mkState script [].

Definition denied_msg : string :=
  "An error occurred (AccessDenied) when calling the PutObject operation: Access Denied".

Definition no_bucket_msg : string :=
  "An error occurred (NoSuchBucket) when calling the ListObjectsV2 operation: The specified bucket does not exist".

Definition unreachable_msg : string :=
  "Could not connect to the endpoint URL: https://b.s3.xx-nowhere-1.amazonaws.com/".

Definition one_line : string := "2025-03-27 15:48:38      12345 docs/a.txt".

(** The three objects of the spec's scenario, as [aws s3 ls] prints them. *)
Definition three_lines : string :=
  "2025-03-27 15:48:38        500 docs/a.txt" ++ nl ++
  "2025-03-27 15:48:39          0 public/readme.md" ++ nl ++
  "2025-03-27 15:48:40    5000000 logs/2024/x.log" ++ nl.

(** The first candidate region lists an empty bucket without error,
    the second lists one object. *)
Definition empty_then_listing : state World :=
  start [Completed "" ""; Completed one_line ""].

(** A listing whose second record has no integer in the size column. *)
Definition bad_size_lines : string :=
  "2025-03-27 15:48:38        500 docs/a.txt" ++ nl ++
  "2025-03-27 15:48:39        n/a docs/b.txt" ++ nl ++
  "2025-03-27 15:48:40          7 docs/c.txt" ++ nl.

Definition bad_size_listing : state World := start [Completed bad_size_lines ""].

(** A record with only three columns between two good ones. *)
Definition short_lines : string :=
  "2025-03-27 15:48:38        500 docs/a.txt" ++ nl ++
  "2025-03-27 15:48:39        600" ++ nl ++
  "2025-03-27 15:48:40          7 docs/c.txt" ++ nl.

Definition unreachable : state World := start [Completed "" unreachable_msg].

Definition cannot_spawn : state World :=
  start [Raised "[Errno 12] Cannot allocate memory"].

Definition empty_bucket : state World := start [Completed "" ""].

Definition uploaded_msg : string :=
  "upload: ../tmp/tmpq1w2e3r4 to s3://b/logs/k3Xp09Qz.txt".

(** The upload goes through and the delete that follows is refused. *)
Definition upload_ok_delete_refused : state World :=
  start [Completed uploaded_msg ""; Completed "" denied_msg].

(** The next command is refused. *)
Definition refused : state World := start [Completed "" denied_msg].

Definition docs_a : Obj := mkObj "2025-03-27" "15:48:38" 500 "docs/a.txt".
Definition public_readme : Obj := mkObj "2025-03-27" "15:48:39" 0 "public/readme.md".
Definition logs_x : Obj := mkObj "2025-03-27" "15:48:40" 5000000 "logs/2024/x.log".

(** The spec's scenario: three objects in three folders, every folder
    readable, only [logs] writable.  After the listing come, per folder,
    the read probe, the upload, and the delete when the upload passed. *)
Definition scenario : state World :=
  start [ Completed three_lines "";
          Completed "2025-03-27 15:48:38        500 a.txt" "";
          Completed "" denied_msg;
          Completed "2025-03-27 15:48:39          0 readme.md" "";
          Completed "" denied_msg;
          Completed "                           PRE 2024/" "";
          Completed "upload: ../tmp/tmpq1w2e3r4 to s3://b/logs/k3Xp09Qz.txt" "";
          Completed "delete: s3://b/logs/k3Xp09Qz.txt" "" ].

Definition stamp : string := "2025-03-27 15:48:38 UTC".

(** A grouping with two files of the same size in one folder. *)
Definition docs_z : Obj := mkObj "2025-03-27" "15:48:41" 500 "docs/z.txt".
Definition docs_b : Obj := mkObj "2025-03-27" "15:48:42" 900 "docs/b.txt".

Definition grouped_scenario : dict (list Obj) :=
  group_objects_by_folder [docs_a; public_readme; logs_x; docs_z; docs_b].

(** Every one of the thirty candidate regions answers that the bucket
    does not exist. *)
Definition nowhere : state World :=
  start (repeat (Completed "" no_bucket_msg) 30).

End Stub.

(** ** Vocabulary for further properties of the script *)

(** No whitespace character occurs in [s]. *)
Fixpoint no_space (s : string) : bool :=
  match s with
  | EmptyString => true
  | String c r => negb (PyStr.isspace c) && no_space r
  end.

(** Only whitespace characters occur in [s]. *)
Fixpoint all_space (s : string) : bool :=
  match s with
  | EmptyString => true
  | String c r => PyStr.isspace c && all_space r
  end.

(** A field of a listing line: not empty, no whitespace inside. *)
Definition is_field (s : string) : Prop := s <> "" /\ no_space s = true.

(** The third field of a line, where [list_s3_objects] looks for the size. *)
Definition size_field (line : string) : string := nth 2 (PyStr.split line) "".

(** A line the loop of [list_s3_objects] gets past: fewer than four
    fields, or an integer literal in the third. *)
Definition well_sized (line : string) : bool :=
  (length (PyStr.split line) <? 4)%nat
  || match PyStr.int (size_field line) with Some _ => true | None => false end.

(** The objects of the lines that have four fields or more, in order. *)
Definition objects_of (lines : list string) : list Obj :=
  flat_map (fun line => match parse_line line with
                        | Return (Some obj) => [obj]
                        | _ => []
                        end) lines.

(** A line of four fields or more: one the loop builds an object from. *)
Definition long_line (line : string) : bool :=
  (4 <=? length (PyStr.split line))%nat.

(** [obj] is what the line says: its date, time and key are the first,
    second and fourth field of the line, and its size is the integer the
    third field is a literal of. *)
Definition line_object (line : string) (obj : Obj) : Prop :=
  match PyStr.split line with
  | d :: t :: sz :: k :: _ =>
      date obj = d /\ time obj = t /\ PyStr.int sz = Some (size obj) /\ key obj = k
  | _ => False
  end.

(** The distinct elements of a list, each at its first occurrence. *)
Fixpoint first_occurrences (l : list string) : list string :=
  match l with
  | [] => []
  | k :: rest =>
      k :: filter (fun k' => negb (String.eqb k' k)) (first_occurrences rest)
  end.

(** One folder's probes as they went: what the listing of the folder
    and the upload of the canary returned, the names drawn for the
    temporary file and the canary, and what the delete returned when there
    was one. *)
Record probe_row : Type := mkRow {
  row_read_out : string;
  row_read_err : string;
  row_local : string;
  row_test_file : string;
  row_upload_out : string;
  row_upload_err : string;
  row_delete : string * string
}.

(** The answers of the two probes, by the tests of lines 69 and 83. *)
Definition row_readable (row : probe_row) : bool := negb (denied (row_read_err row)).

Definition row_writable (row : probe_row) : bool := negb (denied (row_upload_err row)).

(** The commands of one folder's probes with what they returned: the
    listing of the folder, the upload of the canary, and its removal when
    the folder is found writable. *)
Definition row_events (bucket_name region : string)
           (probe : string * probe_row) : list event :=
  let folder_path := fst probe ++ "/" in
  let row := snd probe in
  Ran (read_cmd bucket_name folder_path region) (row_read_out row) (row_read_err row)
  :: Ran (upload_cmd (row_local row) bucket_name folder_path (row_test_file row) region)
         (row_upload_out row) (row_upload_err row)
  :: (if row_writable row
      then [Ran (delete_cmd bucket_name folder_path (row_test_file row) region)
                (fst (row_delete row)) (snd (row_delete row))]
      else []).

Definition row_entry (probe : string * probe_row) : string * Perm :=
  (fst probe, mkPerm (row_readable (snd probe)) (row_writable (snd probe))).

(** What [main] prints and does once the folders are probed (lines
    299-311), for the report it is about to make: the events, and how it
    ends. *)
Definition after_probes (report : Report) : list event * res (option Report) :=
  let table := Render.print_folder_permissions (folder_permissions report) in
  let count := Printed (nl ++ "Total Files: "
                        ++ Render.str_int (Z.of_nat (total_files report))) in
  match snd table with
  | inl e => (map Printed (fst table), Raise (Rendering e))
  | inr _ =>
      match Render.format_size (total_size report) with
      | inl e => ((map Printed (fst table) ++ [count])%list, Raise (Rendering e))
      | inr text =>
          let files := Render.print_grouped_files (groups report) in
          let printed := (map Printed (fst table)
                          ++ count :: Printed ("Total Size: " ++ text)
                             :: map Printed (fst files))%list in
          match snd files with
          | inl e => (printed, Raise (Rendering e))
          | inr _ =>
              let page := Render.html_content (total_size report)
                                              (folder_permissions report)
                                              (groups report) in
              match snd page with
              | inl e => ((printed ++ map Printed (fst page))%list,
                          Raise (Rendering e))
              | inr _ =>
                  ((printed ++ map Printed (fst page)
                    ++ [Html_report report;
                        Printed "HTML report saved as s3_bucket_report.html"])%list,
                   Return (Some report))
              end
          end
      end
  end.

(** The first character, the last character of [s] is whitespace. *)
Definition first_is_space (s : string) : bool :=
  match s with
  | EmptyString => false
  | String c _ => PyStr.isspace c
  end.

Fixpoint last_is_space (s : string) : bool :=
  match s with
  | EmptyString => false
  | String c EmptyString => PyStr.isspace c
  | String _ r => last_is_space r
  end.

Section Prompts.

Context {World : Type} (H : host World).

(** The two prompts of [main]: the answers, stripped, and the state
    after both. *)
Definition after_prompts (s : state World) : string * string * state World :=
  let (bucket_line, w1) := input H "Enter the S3 bucket name: " (world s) in
  let (region_line, w2) :=
    input H "Enter the AWS region (or leave blank to auto-detect): " w1 in
  (PyStr.strip bucket_line, PyStr.strip region_line, mkState w2 (trace s)).

(** The state once [main] has announced the detection. *)
Definition announced (s : state World) : state World :=
  mkState (world s) (trace s ++ [Printed "Auto-detecting region..."])%list.

End Prompts.

Module Typed.

(** A scripted host whose user types a bucket name and a region. *)
Definition host (bucket_line region_line : string) : host Stub.World :=
  mkHost Stub.World Stub.run
         (fun w => ("k3Xp09Qz", w))
         (fun w => ("/tmp/tmpq1w2e3r4", w))
         (fun _ w => w)
         (fun w => ("2025-03-27 15:48:38 UTC", w))
         (fun prompt w =>
            (if String.eqb prompt "Enter the S3 bucket name: "
             then bucket_line else region_line, w)).

End Typed.

(** The line [print_grouped_files] prints for a file (line 142), given
    the text [format_size] returned for its size. *)
Definition file_line (file : Obj) (line : string) : Prop :=
  exists text,
    Render.format_size (size file) = inr text
    /\ line = ("    " ++ Render.size_color (size file) ++ Render.rjust 12 text
               ++ " - " ++ key file ++ Render.COLOR_RESET)%string.

(** The two lines that open the section of a folder, then its files. *)
Definition section_lines (section : string * list string) : list string :=
  ((nl ++ Render.COLOR_YELLOW ++ fst section ++ Render.COLOR_RESET)%string
   :: "-----------------------------------"
   :: snd section)%list.

(** The sizes [format_size] has a text for: above the digit limit of
    negative integers, below the overflow of the division. *)
Definition displayable (size : Z) : Prop :=
  (- Render.digit_limit < size < 2 ^ 1064 - 2 ^ 1010)%Z.

(** * Properties *)

Open Scope list_scope.

(** ** Running the string operations *)

Example strip_ex : PyStr.strip ("  a b" ++ nl ++ " ") = "a b".
Proof. reflexivity. Qed.

Example split_ex :
  PyStr.split "2025-03-27 15:48:38       12345 path/to/object.ext"
  = ["2025-03-27"; "15:48:38"; "12345"; "path/to/object.ext"].
Proof. reflexivity. Qed.

Example splitlines_ex :
  PyStr.splitlines ("a" ++ nl ++ nl ++ "b" ++ String "013" nl ++ "c" ++ nl)
  = ["a"; ""; "b"; "c"].
Proof. reflexivity. Qed.

Example int_ex :
  PyStr.int "12345" = Some 12345%Z /\ PyStr.int "-7" = Some (-7)%Z
  /\ PyStr.int "1_000" = Some 1000%Z /\ PyStr.int "PRE" = None
  /\ PyStr.int "1__0" = None /\ PyStr.int "_1" = None /\ PyStr.int "1_" = None
  /\ PyStr.int "+" = None.
Proof. repeat split; reflexivity. Qed.

Example folder_of_key_ex :
  folder_of_key "logs/2024/x.log" = "logs" /\ folder_of_key "readme" = "readme"
  /\ folder_of_key "/x" = "" /\ folder_of_key "" = "".
Proof. repeat split; reflexivity. Qed.

(** ** Region detection *)

Section RegionDetection.

Context {World : Type} (H : host World).

Lemma run_command_returns (command : string) (s : state World) :
  exists stdout stderr w,
    run_command H command s
    = (Return (stdout, stderr),
       mkState w (trace s ++ [Ran command stdout stderr])).
Proof.
  unfold run_command.
  destruct (subprocess_run H command (world s)) as [r w].
  destruct r as [o e | m]; cbn; eauto.
Qed.

Lemma probe_events_cons bucket_name region regions out outs :
  probe_events bucket_name (region :: regions) (out :: outs)
  = Ran (detect_cmd bucket_name region) (fst out) (snd out)
    :: probe_events bucket_name regions outs.
Proof. reflexivity. Qed.

(** The loop stops at the first region whose probe is accepted, having
    run one command per earlier region and none for a later one. *)
Lemma detect_in_first (regions : list string) (bucket_name : string) :
  forall s : state World,
    (exists region pre post outs stdout stderr w,
        detect_in H regions bucket_name s
        = (Return (Some region),
           mkState w (trace s ++ probe_events bucket_name pre outs
                      ++ [Ran (detect_cmd bucket_name region) stdout stderr;
                          Printed ("Detected Region: " ++ region)]))
        /\ regions = pre ++ region :: post
        /\ length outs = length pre
        /\ Forall rejected outs
        /\ region_accepted stdout stderr = true)
    \/ (exists outs w,
           detect_in H regions bucket_name s
           = (Return None,
              mkState w (trace s ++ probe_events bucket_name regions outs))
           /\ length outs = length regions
           /\ Forall rejected outs).
Proof.
  induction regions as [| region rest IH]; intros s.
  - right. exists [], (world s). unfold probe_events. cbn [detect_in combine map].
    rewrite app_nil_r. destruct s; repeat split; auto.
  - cbn [detect_in]. unfold bind.
    destruct (run_command_returns (detect_cmd bucket_name region) s)
      as (o & e & w & Hrun).
    rewrite Hrun.
    destruct (region_accepted o e) eqn:Hacc.
    + left. exists region, [], rest, [], o, e, w.
      unfold print, emit, ret. cbn [world trace probe_events combine map app].
      rewrite <- app_assoc. repeat split; auto.
    + destruct (IH (mkState w (trace s ++ [Ran (detect_cmd bucket_name region) o e])))
        as [(r & pre & post & outs & o' & e' & w' & Hdet & Hsplit & Hlen & Hrej & Hok)
           | (outs & w' & Hdet & Hlen & Hrej)].
      * left. exists r, (region :: pre), post, ((o, e) :: outs), o', e', w'.
        rewrite Hdet. cbn [trace]. rewrite probe_events_cons. cbn [fst snd].
        rewrite <- app_assoc. cbn [app].
        repeat split; auto.
        all: try (now rewrite Hsplit); try (cbn [length]; now rewrite Hlen);
          try (constructor; assumption).
      * right. exists ((o, e) :: outs), w'.
        rewrite Hdet. cbn [trace]. rewrite probe_events_cons. cbn [fst snd].
        rewrite <- app_assoc. cbn [app].
        repeat split; auto.
        all: try (cbn [length]; now rewrite Hlen); try (constructor; assumption).
Qed.

(** C1 (as amended): for every bucket name, [auto_detect_region] returns
    the first region of [CANDIDATE_REGIONS] whose probe left no
    "An error occurred" on the error stream and printed a non-empty
    listing; every earlier region was probed and rejected, no later one is
    probed; and it returns [None], after probing all of them, when none is
    accepted. *)
Theorem auto_detect_region_first_accepted (bucket_name : string) (s : state World) :
  (exists region pre post outs stdout stderr w,
      auto_detect_region H bucket_name s
      = (Return (Some region),
         mkState w (trace s ++ probe_events bucket_name pre outs
                    ++ [Ran (detect_cmd bucket_name region) stdout stderr;
                        Printed ("Detected Region: " ++ region)]))
      /\ CANDIDATE_REGIONS = pre ++ region :: post
      /\ length outs = length pre
      /\ Forall rejected outs
      /\ negb (PyStr.contains "An error occurred" stderr)
         && PyStr.nonempty stdout = true)
  \/ (exists outs w,
         auto_detect_region H bucket_name s
         = (Return None,
            mkState w (trace s ++ probe_events bucket_name CANDIDATE_REGIONS outs))
         /\ length outs = length CANDIDATE_REGIONS
         /\ Forall rejected outs).
Proof. exact (detect_in_first CANDIDATE_REGIONS bucket_name s). Qed.

End RegionDetection.

(** C1 (as stated) fails: the first candidate answers with an empty but
    successful listing, the second with one object; the script passes
    over the first and returns the second. *)
Lemma auto_detect_region_skips_empty_listing :
  fst (AsSpecified.resolve Stub.host "b" Stub.empty_then_listing)
  = Return (Some "us-east-1")
  /\ fst (auto_detect_region Stub.host "b" Stub.empty_then_listing)
     = Return (Some "us-east-2")
  /\ fst (auto_detect_region Stub.host "b" Stub.empty_then_listing)
     <> fst (AsSpecified.resolve Stub.host "b" Stub.empty_then_listing).
Proof.
  split; [reflexivity |]. split; [reflexivity |].
  vm_compute. discriminate.
Qed.

(** ** Parsing the listing *)

Lemma parse_line_short (line : string) :
  (length (PyStr.split line) < 4)%nat -> parse_line line = Return None.
Proof.
  intros Hlen. unfold parse_line.
  destruct (4 <=? length (PyStr.split line))%nat eqn:E; [| reflexivity].
  apply Nat.leb_le in E. lia.
Qed.

Lemma parse_line_bad_size (line d t sz k : string) (more : list string) :
  PyStr.split line = d :: t :: sz :: k :: more ->
  PyStr.int sz = None ->
  parse_line line = Raise (ValueError sz).
Proof.
  intros Hsplit Hint. unfold parse_line. rewrite Hsplit.
  cbn [length Nat.leb nth]. now rewrite Hint.
Qed.

(** A line with fewer than four fields is passed over and the rest of
    the listing is still read. *)
Lemma parse_lines_skips_short (line : string) (rest : list string)
      (objects : list Obj) :
  (length (PyStr.split line) < 4)%nat ->
  parse_lines (line :: rest) objects = parse_lines rest objects.
Proof.
  intros Hlen. cbn [parse_lines]. now rewrite (parse_line_short line Hlen).
Qed.

(** A line with four fields or more whose third is no integer literal
    stops the loop with the exception, whatever follows it. *)
Lemma parse_lines_raises (line d t sz k : string) (more rest : list string)
      (objects : list Obj) :
  PyStr.split line = d :: t :: sz :: k :: more ->
  PyStr.int sz = None ->
  parse_lines (line :: rest) objects = Raise (ValueError sz).
Proof.
  intros Hsplit Hint. cbn [parse_lines].
  now rewrite (parse_line_bad_size line d t sz k more Hsplit Hint).
Qed.

Example list_s3_objects_skips_short_line :
  fst (list_s3_objects Stub.host "b" "us-east-1"
         (Stub.start [Completed Stub.short_lines ""]))
  = Return [ mkObj "2025-03-27" "15:48:38" 500 "docs/a.txt";
             mkObj "2025-03-27" "15:48:40" 7 "docs/c.txt" ].
Proof. reflexivity. Qed.

(** C2: the listing below has three records, the second with [n/a] in
    the size column.  Skipping it would return the first and the third;
    [list_s3_objects] raises [ValueError] instead, and so does the run. *)
Theorem list_s3_objects_raises_on_malformed_size :
  fst (list_s3_objects Stub.host "b" "us-east-1" Stub.bad_size_listing)
  = Raise (ValueError "n/a")
  /\ fst (main_with_region Stub.host "b" "us-east-1" Stub.bad_size_listing)
     = Raise (ValueError "n/a")
  /\ fst (AsSpecified.enumerate Stub.host "b" "us-east-1" Stub.bad_size_listing)
     = Return (AsSpecified.Inventory
                 [ mkObj "2025-03-27" "15:48:38" 500 "docs/a.txt";
                   mkObj "2025-03-27" "15:48:40" 7 "docs/c.txt" ]).
Proof. repeat split; reflexivity. Qed.

Example list_s3_objects_truncates_key :
  fst (list_s3_objects Stub.host "b" "us-east-1"
         (Stub.start
            [Completed "2025-03-27 15:48:38     12 my holiday photo.jpg" ""]))
  = Return [ mkObj "2025-03-27" "15:48:38" 12 "my" ].
Proof. reflexivity. Qed.

(** ** Permission probes *)

Section Probes.

Context {World : Type} (H : host World).

Lemma check_read_access_unfold (bucket_name folder region : string)
      (s s' : state World) (stdout stderr : string) :
  run_command H (read_cmd bucket_name folder region) s
  = (Return (stdout, stderr), s') ->
  check_read_access H bucket_name folder region s
  = (Return (negb (denied stderr)), s').
Proof.
  intros Hrun. unfold check_read_access, bind. rewrite Hrun.
  destruct (denied stderr); reflexivity.
Qed.

Lemma check_write_access_unfold (bucket_name folder region : string)
      (s s1 s2 : state World) (test_file local_test_file stdout stderr : string) :
  before_upload H s = (test_file, local_test_file, s1) ->
  run_command H (upload_cmd local_test_file bucket_name folder test_file region) s1
  = (Return (stdout, stderr), s2) ->
  check_write_access H bucket_name folder region s
  = if denied stderr then (Return false, removed H local_test_file s2)
    else (run_command H (delete_cmd bucket_name folder test_file region) ;;
          ret true) (removed H local_test_file s2).
Proof.
  unfold before_upload, check_write_access, bind, call.
  destruct (random_choices H (world s)) as [name w1]. cbn [world trace].
  destruct (NamedTemporaryFile H w1) as [local w2].
  intros Hbefore Hrun. injection Hbefore as <- <- <-.
  rewrite Hrun. cbn [world trace].
  destruct (denied stderr); reflexivity.
Qed.

(** The read probe answers by the text of the error stream alone: false
    exactly when it contains "AccessDenied" or "An error occurred", true
    for every other outcome of the list command, an empty stream and any
    other failure text alike. *)
Lemma check_read_access_by_error_text
        (bucket_name folder region : string) (s : state World) :
  exists stdout stderr w,
    run_command H (read_cmd bucket_name folder region) s
    = (Return (stdout, stderr),
       mkState w (trace s ++ [Ran (read_cmd bucket_name folder region) stdout stderr]))
    /\ check_read_access H bucket_name folder region s
       = (Return (negb (PyStr.contains "AccessDenied" stderr
                        || PyStr.contains "An error occurred" stderr)),
          mkState w (trace s ++ [Ran (read_cmd bucket_name folder region) stdout stderr])).
Proof.
  destruct (run_command_returns H (read_cmd bucket_name folder region) s)
    as (o & e & w & Hrun).
  exists o, e, w. split; [exact Hrun |].
  now rewrite (check_read_access_unfold _ _ _ _ _ _ _ Hrun).
Qed.

(** C4: when the upload of the canary is not refused, the write probe
    deletes the canary next and returns true, whatever the delete
    command answers; the trace gains the upload and then the delete of
    the same object, and nothing is raised. *)
Theorem check_write_access_success_then_delete
        (bucket_name folder region : string) (s s1 s2 : state World)
        (test_file local_test_file stdout stderr : string) :
  before_upload H s = (test_file, local_test_file, s1) ->
  run_command H (upload_cmd local_test_file bucket_name folder test_file region) s1
  = (Return (stdout, stderr), s2) ->
  denied stderr = false ->
  exists dout derr w,
    check_write_access H bucket_name folder region s
    = (Return true,
       mkState w
         (trace s
          ++ [Ran (upload_cmd local_test_file bucket_name folder test_file region)
                  stdout stderr;
              Ran (delete_cmd bucket_name folder test_file region) dout derr])).
Proof.
  intros Hbefore Hrun Hok.
  rewrite (check_write_access_unfold bucket_name folder region _ _ _ _ _ _ _ Hbefore Hrun), Hok.
  destruct (run_command_returns H
              (upload_cmd local_test_file bucket_name folder test_file region) s1)
    as (o & e & w1 & Hrun1).
  rewrite Hrun in Hrun1. injection Hrun1 as <- <- ->.
  assert (Htr : trace s1 = trace s).
  { unfold before_upload in Hbefore.
    destruct (random_choices H (world s)) as [name w']; cbn [world] in Hbefore.
    destruct (NamedTemporaryFile H w') as [local w'']. now injection Hbefore as _ _ <-. }
  unfold bind.
  destruct (run_command_returns H (delete_cmd bucket_name folder test_file region)
              (removed H local_test_file
                 (mkState w1 (trace s1 ++ [Ran (upload_cmd local_test_file bucket_name
                                                  folder test_file region) stdout stderr]))))
    as (dout & derr & w & Hdel).
  rewrite Hdel. exists dout, derr, w. unfold ret, removed. cbn [trace world].
  rewrite Htr, <- app_assoc. reflexivity.
Qed.

(** C5: the two probes refuse separately.  Whenever the error stream of
    the read probe's list command contains "AccessDenied", the read probe
    returns false; and, with nothing assumed of any read probe, whenever
    the error stream of the write probe's upload contains "AccessDenied",
    the write probe returns false having run the upload and no other
    command: no delete is issued. *)
Theorem access_denied_probes_false (bucket_name folder region : string) :
  (forall (r r' : state World) (rout rerr : string),
      run_command H (read_cmd bucket_name folder region) r
      = (Return (rout, rerr), r') ->
      PyStr.contains "AccessDenied" rerr = true ->
      check_read_access H bucket_name folder region r = (Return false, r'))
  /\ (forall (s s1 s2 : state World)
             (test_file local_test_file stdout stderr : string),
         before_upload H s = (test_file, local_test_file, s1) ->
         run_command H (upload_cmd local_test_file bucket_name folder test_file region) s1
         = (Return (stdout, stderr), s2) ->
         PyStr.contains "AccessDenied" stderr = true ->
         exists w,
           check_write_access H bucket_name folder region s
           = (Return false,
              mkState w
                (trace s
                 ++ [Ran (upload_cmd local_test_file bucket_name folder test_file region)
                         stdout stderr]))).
Proof.
  split.
  - intros r r' rout rerr Hread Hrd.
    rewrite (check_read_access_unfold _ _ _ _ _ _ _ Hread).
    unfold denied. now rewrite Hrd.
  - intros s s1 s2 test_file local_test_file stdout stderr Hbefore Hrun Hwd.
    rewrite (check_write_access_unfold bucket_name folder region _ _ _ _ _ _ _ Hbefore Hrun).
    unfold denied. rewrite Hwd. cbn [orb].
    destruct (run_command_returns H
              (upload_cmd local_test_file bucket_name folder test_file region) s1)
    as (o & e & w1 & Hrun1).
    rewrite Hrun in Hrun1. injection Hrun1 as <- <- ->.
    assert (Htr : trace s1 = trace s).
    { unfold before_upload in Hbefore.
      destruct (random_choices H (world s)) as [name w']; cbn [world] in Hbefore.
      destruct (NamedTemporaryFile H w') as [local w'']. now injection Hbefore as _ _ <-. }
    exists (os_remove H local_test_file w1). unfold removed. cbn [trace world].
    now rewrite Htr.
Qed.

(** Both probes always return, with a Boolean. *)
Lemma check_read_access_total (bucket_name folder region : string) (s : state World) :
  exists b s', check_read_access H bucket_name folder region s = (Return b, s').
Proof.
  destruct (run_command_returns H (read_cmd bucket_name folder region) s)
    as (o & e & w & Hrun).
  rewrite (check_read_access_unfold _ _ _ _ _ _ _ Hrun). eauto.
Qed.

Lemma check_write_access_total (bucket_name folder region : string) (s : state World) :
  exists b s', check_write_access H bucket_name folder region s = (Return b, s').
Proof.
  destruct (before_upload H s) as [[test_file local] s1] eqn:Hbefore.
  destruct (run_command_returns H
              (upload_cmd local bucket_name folder test_file region) s1)
    as (o & e & w & Hrun).
  rewrite (check_write_access_unfold bucket_name folder region _ _ _ _ _ _ _ Hbefore Hrun).
  destruct (denied e); [eauto |].
  unfold bind.
  destruct (run_command_returns H (delete_cmd bucket_name folder test_file region)
              (removed H local
                 (mkState w (trace s1 ++ [Ran (upload_cmd local bucket_name folder
                                                 test_file region) o e]))))
    as (dout & derr & w' & Hdel).
  rewrite Hdel. unfold ret. eauto.
Qed.

End Probes.

(** C3: the read probe is to return false on every error of its list
    command, an access-denied error or any other failure, and never true.
    It does not: when the command cannot reach the endpoint, or cannot be
    started at all, the failure is on the error stream without the two
    phrases line 69 looks for, and [check_read_access] returns true, where
    the probe as specified returns false.  The sibling tests do not make
    this slip: line 39 also asks for a listing, and line 48 takes any text
    on the error stream as a failure. *)
Theorem check_read_access_true_on_transport_failure :
  fst (run_command Stub.host (read_cmd "b" "docs/" "xx-nowhere-1") Stub.unreachable)
  = Return ("", Stub.unreachable_msg)
  /\ fst (AsSpecified.read_probe Stub.host "b" "docs/" "xx-nowhere-1" Stub.unreachable)
     = Return false
  /\ fst (check_read_access Stub.host "b" "docs/" "xx-nowhere-1" Stub.unreachable)
     = Return true
  /\ fst (run_command Stub.host (read_cmd "b" "docs/" "us-east-1") Stub.cannot_spawn)
     = Return ("", "[Errno 12] Cannot allocate memory")
  /\ fst (check_read_access Stub.host "b" "docs/" "us-east-1" Stub.cannot_spawn)
     = Return true.
Proof. repeat split; reflexivity. Qed.

Lemma check_write_access_success_then_delete_witness :
  denied "" = false
  /\ exists dout derr w,
      check_write_access Stub.host "b" "logs/" "us-east-1"
                         Stub.upload_ok_delete_refused
      = (Return true,
         mkState w
           (trace Stub.upload_ok_delete_refused
            ++ [Ran (upload_cmd "/tmp/tmpq1w2e3r4" "b" "logs/" "k3Xp09Qz.txt" "us-east-1")
                    Stub.uploaded_msg "";
                Ran (delete_cmd "b" "logs/" "k3Xp09Qz.txt" "us-east-1") dout derr])).
Proof.
  split; [reflexivity |].
  apply (check_write_access_success_then_delete
           Stub.host "b" "logs/" "us-east-1" Stub.upload_ok_delete_refused
           (Stub.start [Completed Stub.uploaded_msg ""; Completed "" Stub.denied_msg])
           (mkState [Completed "" Stub.denied_msg]
              [Ran (upload_cmd "/tmp/tmpq1w2e3r4" "b" "logs/" "k3Xp09Qz.txt" "us-east-1")
                   Stub.uploaded_msg ""])
           "k3Xp09Qz.txt" "/tmp/tmpq1w2e3r4" Stub.uploaded_msg "");
    reflexivity.
Defined.

Example delete_refusal_is_not_reported :
  check_write_access Stub.host "b" "logs/" "us-east-1" Stub.upload_ok_delete_refused
  = (Return true,
     mkState []
       [Ran (upload_cmd "/tmp/tmpq1w2e3r4" "b" "logs/" "k3Xp09Qz.txt" "us-east-1")
            Stub.uploaded_msg "";
        Ran (delete_cmd "b" "logs/" "k3Xp09Qz.txt" "us-east-1") "" Stub.denied_msg]).
Proof. reflexivity. Qed.

Lemma access_denied_probes_false_witness :
  PyStr.contains "AccessDenied" Stub.denied_msg = true
  /\ check_read_access Stub.host "b" "docs/" "us-east-1" Stub.refused
     = (Return false,
        mkState [] [Ran (read_cmd "b" "docs/" "us-east-1") "" Stub.denied_msg])
  /\ exists w,
      check_write_access Stub.host "b" "docs/" "us-east-1" Stub.refused
      = (Return false,
         mkState w
           (trace Stub.refused
            ++ [Ran (upload_cmd "/tmp/tmpq1w2e3r4" "b" "docs/" "k3Xp09Qz.txt" "us-east-1")
                    "" Stub.denied_msg])).
Proof.
  split; [reflexivity |]. split.
  - apply (proj1 (access_denied_probes_false Stub.host "b" "docs/" "us-east-1")
             Stub.refused
             (mkState [] [Ran (read_cmd "b" "docs/" "us-east-1") "" Stub.denied_msg])
             "" Stub.denied_msg);
      reflexivity.
  - apply (proj2 (access_denied_probes_false Stub.host "b" "docs/" "us-east-1")
             Stub.refused Stub.refused
             (mkState []
                [Ran (upload_cmd "/tmp/tmpq1w2e3r4" "b" "docs/" "k3Xp09Qz.txt" "us-east-1")
                     "" Stub.denied_msg])
             "k3Xp09Qz.txt" "/tmp/tmpq1w2e3r4" "" Stub.denied_msg);
      reflexivity.
Defined.

(** ** Folder classification *)

Lemma append_empty_r (s : string) : (s ++ "")%string = s.
Proof. induction s as [| c s IH]; cbn; [reflexivity | now rewrite IH]. Qed.

Lemma snoc_append (s t : string) (c : ascii) :
  (PyStr.snoc s c ++ t)%string = (s ++ String c t)%string.
Proof.
  unfold PyStr.snoc. induction s as [| a s IH]; cbn; [reflexivity | now rewrite IH].
Qed.

(** The first piece of [s.split(sep)] is what precedes the first [sep]. *)
Lemma split_on_from_head (sep : ascii) (s : string) :
  forall cur : string,
  exists head rest : string,
    nth 0 (PyStr.split_on_from sep cur s) "" = (cur ++ head)%string
    /\ s = (head ++ rest)%string
    /\ (rest = "" \/ exists r, rest = String sep r)
    /\ (forall pre post : string, head <> (pre ++ String sep post)%string).
Proof.
  induction s as [| c s IH]; intros cur.
  - exists "", "". cbn. rewrite append_empty_r. repeat split; auto.
    intros [| a pre] post; discriminate.
  - cbn [PyStr.split_on_from]. destruct (Ascii.eqb_spec c sep) as [-> | Hne].
    + exists "", (String sep s). cbn. rewrite append_empty_r.
      repeat split; eauto.
      intros [| a pre] post; discriminate.
    + destruct (IH (PyStr.snoc cur c)) as (head & rest & Hnth & Hs & Hrest & Hno).
      exists (String c head), rest. rewrite Hnth, snoc_append.
      repeat split; auto.
      * cbn. now rewrite <- Hs.
      * intros [| a pre] post Heq; cbn in Heq.
        -- injection Heq as Hc _. contradiction.
        -- injection Heq as _ Hh. exact (Hno pre post Hh).
Qed.

Section Dict.

Context {A : Type}.

Lemma dict_get_None (k : string) (d : dict A) :
  dict_get k d = None <-> ~ In k (keys d).
Proof.
  induction d as [| [k' v] d IH]; cbn.
  - tauto.
  - destruct (String.eqb_spec k' k) as [-> | Hne].
    + split; [discriminate | intros Hn; exfalso; apply Hn; now left].
    + rewrite IH. tauto.
Qed.

Lemma dict_get_In (k : string) (v : A) (d : dict A) :
  dict_get k d = Some v -> In (k, v) d.
Proof.
  induction d as [| [k' v'] d IH]; cbn; [discriminate |].
  destruct (String.eqb_spec k' k) as [-> | Hne].
  - intros [= ->]. now left.
  - intros Hget. right. now apply IH.
Qed.

Lemma In_dict_get (k : string) (v : A) (d : dict A) :
  NoDup (keys d) -> In (k, v) d -> dict_get k d = Some v.
Proof.
  induction d as [| [k' v'] d IH]; cbn; intros Hnd Hin; [contradiction |].
  inversion Hnd as [| ? ? Hnotin Hnd']; subst.
  destruct Hin as [[= -> ->] | Hin].
  - now rewrite String.eqb_refl.
  - destruct (String.eqb_spec k' k) as [-> | Hne]; [| now apply IH].
    exfalso. apply Hnotin. change k with (fst (k, v)). now apply in_map.
Qed.

Lemma keys_dict_set (k : string) (v : A) (d : dict A) :
  keys (dict_set k v d)
  = match dict_get k d with Some _ => keys d | None => keys d ++ [k] end.
Proof.
  unfold keys.
  induction d as [| [k' v'] d IH]; cbn; [reflexivity |].
  destruct (String.eqb k' k); cbn; [reflexivity |].
  rewrite IH. now destruct (dict_get k d).
Qed.

End Dict.

Section DictOfLists.

Context {A : Type}.

Lemma keys_setdefault_append (k : string) (x : A) (d : dict (list A)) :
  keys (setdefault_append k x d)
  = match dict_get k d with Some _ => keys d | None => keys d ++ [k] end.
Proof.
  unfold keys.
  induction d as [| [k' xs] d IH]; cbn; [reflexivity |].
  destruct (String.eqb k' k); cbn; [reflexivity |].
  rewrite IH. now destruct (dict_get k d).
Qed.

Lemma dict_get_setdefault_append (q k : string) (x : A) (d : dict (list A)) :
  dict_get q (setdefault_append k x d)
  = if String.eqb k q
    then Some (match dict_get k d with Some xs => xs ++ [x] | None => [x] end)
    else dict_get q d.
Proof.
  induction d as [| [k' xs] d IH]; cbn.
  - destruct (String.eqb k q); reflexivity.
  - destruct (String.eqb_spec k' k) as [-> | Hne]; cbn.
    + destruct (String.eqb k q); reflexivity.
    + rewrite IH. destruct (String.eqb_spec k q) as [<- | Hkq].
      * destruct (String.eqb_spec k' k); [contradiction | reflexivity].
      * reflexivity.
Qed.

Lemma NoDup_keys_setdefault_append (k : string) (x : A) (d : dict (list A)) :
  NoDup (keys d) -> NoDup (keys (setdefault_append k x d)).
Proof.
  intros Hnd. rewrite keys_setdefault_append.
  destruct (dict_get k d) eqn:Hget; [exact Hnd |].
  apply dict_get_None in Hget.
  apply NoDup_rev in Hnd. rewrite <- (rev_involutive (keys d ++ [k])).
  apply NoDup_rev. rewrite rev_app_distr. cbn. constructor; [| exact Hnd].
  now rewrite <- in_rev.
Qed.

Lemma concat_setdefault_append (k : string) (x : A) (d : dict (list A)) :
  Permutation (concat (map snd (setdefault_append k x d)))
              (concat (map snd d) ++ [x]).
Proof.
  induction d as [| [k' xs] d IH]; cbn; [reflexivity |].
  destruct (String.eqb k' k); cbn.
  - rewrite <- !app_assoc. apply Permutation_app_head, Permutation_app_comm.
  - rewrite <- app_assoc. now apply Permutation_app_head.
Qed.

End DictOfLists.

Lemma grouping_of_step (objects : list Obj) (g : dict (list Obj)) (obj : Obj) :
  grouping_of objects g ->
  grouping_of (objects ++ [obj]) (setdefault_append (folder_of obj) obj g).
Proof.
  intros (Hnd & Hget & Hperm). split; [| split].
  - now apply NoDup_keys_setdefault_append.
  - intros k. rewrite dict_get_setdefault_append, filter_app. cbn [filter].
    unfold in_folder at 2. destruct (String.eqb_spec (folder_of obj) k) as [Heq | Hne].
    + rewrite Heq, Hget. destruct (filter (in_folder k) objects); reflexivity.
    + rewrite app_nil_r. apply Hget.
  - rewrite concat_setdefault_append. now apply Permutation_app_tail.
Qed.

Lemma grouping_of_fold (objects : list Obj) :
  forall (seen : list Obj) (g : dict (list Obj)),
    grouping_of seen g ->
    grouping_of (seen ++ objects)
      (fold_left (fun grouped obj => setdefault_append (folder_of obj) obj grouped)
                 objects g).
Proof.
  induction objects as [| obj objects IH]; intros seen g Hg; cbn [fold_left].
  - now rewrite app_nil_r.
  - replace (seen ++ obj :: objects) with ((seen ++ [obj]) ++ objects)
      by now rewrite <- app_assoc.
    apply IH. now apply grouping_of_step.
Qed.

Lemma group_objects_by_folder_grouping (objects : list Obj) :
  grouping_of objects (group_objects_by_folder objects).
Proof.
  apply (grouping_of_fold objects [] []).
  split; [constructor | split; [reflexivity | constructor]].
Qed.

Lemma keys_group_objects_by_folder (objects : list Obj) (f : string) :
  In f (keys (group_objects_by_folder objects)) <-> In f (map folder_of objects).
Proof.
  destruct (group_objects_by_folder_grouping objects) as (_ & Hget & _).
  split.
  - intros Hin. destruct (dict_get f (group_objects_by_folder objects)) eqn:E.
    + rewrite Hget in E.
      destruct (filter (in_folder f) objects) as [| o os] eqn:Hf; [discriminate |].
      assert (Ho : In o (filter (in_folder f) objects)) by (rewrite Hf; now left).
      apply filter_In in Ho. destruct Ho as [Ho Hfo].
      apply String.eqb_eq in Hfo. rewrite <- Hfo. now apply in_map.
    + apply dict_get_None in E. contradiction.
  - intros Hin. apply in_map_iff in Hin. destruct Hin as (o & <- & Ho).
    destruct (dict_get (folder_of o) (group_objects_by_folder objects)) eqn:E.
    + apply dict_get_In in E. change (folder_of o) with (fst (folder_of o, l)).
      now apply in_map.
    + rewrite Hget in E.
      assert (Hof : In o (filter (in_folder (folder_of o)) objects)).
      { apply filter_In. split; [exact Ho | apply String.eqb_refl]. }
      destruct (filter (in_folder (folder_of o)) objects); [contradiction | discriminate].
Qed.

(** C8: [group_objects_by_folder] partitions its input.  The keys are
    distinct; the group under a key is the input filtered by "top-level
    folder equals that key", so it is non-empty and in input order; every
    object is in the group of its own folder; the groups together are a
    rearrangement of the input and their sizes add up to its length; and
    the folder of a key is the key up to its first '/', the whole key
    when it has none. *)
Theorem group_objects_by_folder_partitions (objects : list Obj) :
  let g := group_objects_by_folder objects in
  NoDup (keys g)
  /\ (forall k xs, In (k, xs) g ->
                   xs = filter (fun obj => String.eqb (folder_of obj) k) objects
                   /\ xs <> [])
  /\ (forall obj, In obj objects ->
                  exists xs, In (folder_of obj, xs) g /\ In obj xs)
  /\ Permutation (concat (map snd g)) objects
  /\ list_sum (map (fun p => length (snd p)) g) = length objects
  /\ (forall obj, exists rest : string,
         key obj = (folder_of obj ++ rest)%string
         /\ (rest = "" \/ exists r, rest = String "/" r)
         /\ forall pre post : string,
             folder_of obj <> (pre ++ String "/" post)%string).
Proof.
  cbv zeta.
  destruct (group_objects_by_folder_grouping objects) as (Hnd & Hget & Hperm).
  split; [exact Hnd |]. split; [| split; [| split; [exact Hperm | split]]].
  - intros k xs Hin. apply (In_dict_get k xs _ Hnd) in Hin.
    rewrite Hget in Hin. fold (in_folder k).
    destruct (filter (in_folder k) objects); [discriminate |].
    injection Hin as <-. split; [reflexivity | discriminate].
  - intros obj Hobj.
    assert (Hof : In obj (filter (in_folder (folder_of obj)) objects)).
    { apply filter_In. split; [exact Hobj | apply String.eqb_refl]. }
    exists (filter (in_folder (folder_of obj)) objects). split; [| exact Hof].
    apply dict_get_In. rewrite Hget.
    destruct (filter (in_folder (folder_of obj)) objects); [contradiction | reflexivity].
  - rewrite <- (Permutation_length Hperm), length_concat, map_map. reflexivity.
  - intros obj. unfold folder_of, folder_of_key, PyStr.split_on.
    destruct (split_on_from_head "/" (key obj) "") as (head & rest & Hnth & Hs & Hrest & Hno).
    cbn [append] in Hnth. rewrite Hnth. exists rest. repeat split; auto.
Qed.

Example group_objects_by_folder_ex :
  group_objects_by_folder
    [ mkObj "d" "t" 1 "logs/b"; mkObj "d" "t" 2 "readme";
      mkObj "d" "t" 3 "logs/a"; mkObj "d" "t" 4 "logs/2024/x" ]
  = [ ("logs", [ mkObj "d" "t" 1 "logs/b"; mkObj "d" "t" 3 "logs/a";
                 mkObj "d" "t" 4 "logs/2024/x" ]);
      ("readme", [ mkObj "d" "t" 2 "readme" ]) ].
Proof. reflexivity. Qed.

(** ** The run: totals, folder views, empty and failed listings *)

Lemma sum_sizes_from (objects : list Obj) (acc : Z) :
  fold_left (fun a obj => (a + size obj)%Z) objects acc
  = (acc + fold_right Z.add 0%Z (map size objects))%Z.
Proof.
  revert acc. induction objects as [| obj objects IH]; intros acc; cbn.
  - lia.
  - rewrite IH. lia.
Qed.

Lemma sum_sizes_is_sum (objects : list Obj) :
  sum_sizes objects = fold_right Z.add 0%Z (map size objects).
Proof. unfold sum_sizes. rewrite sum_sizes_from. lia. Qed.

Section Run.

Context {World : Type} (H : host World).

(** The probing loop returns a dictionary with one more key per folder,
    in the order of the folders, when these are new and distinct. *)
Lemma probe_folders_keys (bucket_name region : string) (folders : list string) :
  forall (perms : dict Perm) (s : state World),
    NoDup (keys perms ++ folders) ->
    exists perms' s',
      probe_folders H bucket_name region folders perms s = (Return perms', s')
      /\ keys perms' = keys perms ++ folders.
Proof.
  induction folders as [| folder rest IH]; intros perms s Hnd.
  - exists perms, s. cbn. now rewrite app_nil_r.
  - cbn [probe_folders]. unfold bind.
    destruct (check_read_access_total H bucket_name (folder ++ "/") region s)
      as (rd & s1 & ->).
    destruct (check_write_access_total H bucket_name (folder ++ "/") region s1)
      as (wr & s2 & ->).
    assert (Hnew : dict_get folder perms = None).
    { apply dict_get_None. intros Hin.
      apply NoDup_remove_2 in Hnd. apply Hnd, in_or_app. now left. }
    assert (Hkeys : keys (dict_set folder (mkPerm rd wr) perms) = keys perms ++ [folder]).
    { now rewrite keys_dict_set, Hnew. }
    destruct (IH (dict_set folder (mkPerm rd wr) perms) s2)
      as (perms' & s' & Hrun & Hk).
    { rewrite Hkeys, <- app_assoc. exact Hnd. }
    exists perms', s'. split; [exact Hrun |].
    now rewrite Hk, Hkeys, <- app_assoc.
Qed.

(** [main_with_region] after its first two steps. *)
Lemma main_with_region_unfold (bucket_name region : string) (s : state World) :
  main_with_region H bucket_name region s
  = let (timestamp, s1) := after_timestamp H s in
    (objects <- list_s3_objects H bucket_name region ;;
     match objects with
     | [] => print "No objects found in bucket." ;; ret None
     | _ :: _ =>
         let grouped := group_objects_by_folder objects in
         perms <- probe_folders H bucket_name region (keys grouped) [] ;;
         shown (Render.print_folder_permissions perms) ;;
         print (nl ++ "Total Files: "
                ++ Render.str_int (Z.of_nat (length objects))) ;;
         text <- shown (Render.lift (Render.format_size (sum_sizes objects))) ;;
         print ("Total Size: " ++ text) ;;
         shown (Render.print_grouped_files grouped) ;;
         generate_html_report
           (mkReport bucket_name region timestamp (length objects)
                     (sum_sizes objects) perms grouped) ;;
         ret (Some (mkReport bucket_name region timestamp (length objects)
                             (sum_sizes objects) perms grouped))
     end) s1.
Proof.
  unfold main_with_region, after_timestamp, call, print.
  unfold bind at 1 2. unfold emit at 1. cbn [world trace].
  destruct (now H (world s)) as [ts w]. reflexivity.
Qed.

(** [main_with_region] on a listing that returned no object. *)
Lemma main_with_region_empty
      (bucket_name region timestamp : string) (s s1 s2 : state World) :
  after_timestamp H s = (timestamp, s1) ->
  list_s3_objects H bucket_name region s1 = (Return [], s2) ->
  main_with_region H bucket_name region s
  = (Return None,
     mkState (world s2) (trace s2 ++ [Printed "No objects found in bucket."])).
Proof.
  intros Hts Hlist. rewrite main_with_region_unfold, Hts.
  unfold bind at 1. rewrite Hlist. reflexivity.
Qed.

(** C6 (as amended): when the listing command leaves anything on the
    error stream, or leaves nothing on either stream, [list_s3_objects]
    returns the empty list, after printing the error in the first case;
    [main] then prints "No objects found in bucket." and returns without
    a report, having run the listing and no other command.  The caller
    gets the same value in both cases; only the printed error line tells
    them apart. *)
Theorem failed_and_empty_listing_end_the_run_alike
        (bucket_name region timestamp : string) (s s1 : state World)
        (stdout stderr : string) (w : World) :
  after_timestamp H s = (timestamp, s1) ->
  run_command H (list_cmd bucket_name region) s1
  = (Return (stdout, stderr),
     mkState w (trace s1 ++ [Ran (list_cmd bucket_name region) stdout stderr])) ->
  stderr <> "" \/ stdout = "" ->
  let complaint := if PyStr.nonempty stderr
                   then [Printed ("Error listing objects: " ++ stderr)]
                   else [] in
  list_s3_objects H bucket_name region s1
  = (Return [],
     mkState w (trace s1 ++ [Ran (list_cmd bucket_name region) stdout stderr]
                ++ complaint))
  /\ main_with_region H bucket_name region s
     = (Return None,
        mkState w (trace s
                   ++ [Printed (nl ++ "Timestamp: " ++ timestamp);
                       Ran (list_cmd bucket_name region) stdout stderr]
                   ++ complaint
                   ++ [Printed "No objects found in bucket."])).
Proof.
  intros Hts Hrun Hcase. cbv zeta.
  assert (Hlist :
    list_s3_objects H bucket_name region s1
    = (Return [],
       mkState w (trace s1 ++ [Ran (list_cmd bucket_name region) stdout stderr]
                  ++ (if PyStr.nonempty stderr
                      then [Printed ("Error listing objects: " ++ stderr)]
                      else [])))).
  { unfold list_s3_objects, bind. rewrite Hrun.
    destruct stderr as [| c stderr]; cbn [PyStr.nonempty].
    - destruct Hcase as [Hc | ->]; [contradiction |].
      rewrite app_nil_r. reflexivity.
    - unfold print, emit, ret. cbn [world trace]. now rewrite <- app_assoc. }
  split; [exact Hlist |].
  assert (Htr : trace s1 = trace s ++ [Printed (nl ++ "Timestamp: " ++ timestamp)]).
  { unfold after_timestamp in Hts. destruct (now H (world s)) as [ts w0].
    now inversion Hts. }
  rewrite main_with_region_unfold, Hts. unfold bind at 1. rewrite Hlist.
  unfold bind, print, emit, ret. cbn [world trace].
  rewrite Htr, <- !app_assoc. reflexivity.
Qed.

End Run.

(** The scenario of the spec, run. *)
Example scenario_report :
  fst (main_with_region Stub.host "b" "us-east-1" Stub.scenario)
  = Return (Some (mkReport "b" "us-east-1" Stub.stamp 3 5000500
                    [ ("docs", mkPerm true false);
                      ("public", mkPerm true false);
                      ("logs", mkPerm true true) ]
                    [ ("docs", [Stub.docs_a]);
                      ("public", [Stub.public_readme]);
                      ("logs", [Stub.logs_x]) ])).
Proof. vm_compute. reflexivity. Qed.

Example scenario_commands :
  commands (trace (snd (main_with_region Stub.host "b" "us-east-1" Stub.scenario)))
  = [ list_cmd "b" "us-east-1";
      read_cmd "b" "docs/" "us-east-1";
      upload_cmd "/tmp/tmpq1w2e3r4" "b" "docs/" "k3Xp09Qz.txt" "us-east-1";
      read_cmd "b" "public/" "us-east-1";
      upload_cmd "/tmp/tmpq1w2e3r4" "b" "public/" "k3Xp09Qz.txt" "us-east-1";
      read_cmd "b" "logs/" "us-east-1";
      upload_cmd "/tmp/tmpq1w2e3r4" "b" "logs/" "k3Xp09Qz.txt" "us-east-1";
      delete_cmd "b" "logs/" "k3Xp09Qz.txt" "us-east-1" ].
Proof. vm_compute. reflexivity. Qed.

(** C6 (as stated) fails: a listing that could not reach the endpoint
    and the listing of an empty bucket give the caller the same value,
    where the specified enumeration tells them apart. *)
Lemma enumeration_failure_returns_empty_list :
  fst (AsSpecified.enumerate Stub.host "b" "xx-nowhere-1" Stub.unreachable)
  = Return AsSpecified.EnumerationFailed
  /\ fst (AsSpecified.enumerate Stub.host "b" "xx-nowhere-1" Stub.empty_bucket)
     = Return (AsSpecified.Inventory [])
  /\ fst (list_s3_objects Stub.host "b" "xx-nowhere-1" Stub.unreachable) = Return []
  /\ fst (list_s3_objects Stub.host "b" "xx-nowhere-1" Stub.empty_bucket) = Return []
  /\ fst (main_with_region Stub.host "b" "xx-nowhere-1" Stub.unreachable)
     = fst (main_with_region Stub.host "b" "xx-nowhere-1" Stub.empty_bucket).
Proof. repeat split; reflexivity. Qed.

Lemma failed_and_empty_listing_end_the_run_alike_witness :
  (Stub.unreachable_msg <> "" \/ "" = "")
  /\ list_s3_objects Stub.host "b" "xx-nowhere-1"
       (snd (after_timestamp Stub.host Stub.unreachable))
     = (Return [],
        mkState []
          [ Printed (nl ++ "Timestamp: " ++ Stub.stamp);
            Ran (list_cmd "b" "xx-nowhere-1") "" Stub.unreachable_msg;
            Printed ("Error listing objects: " ++ Stub.unreachable_msg) ])
  /\ main_with_region Stub.host "b" "xx-nowhere-1" Stub.unreachable
     = (Return None,
        mkState []
          [ Printed (nl ++ "Timestamp: " ++ Stub.stamp);
            Ran (list_cmd "b" "xx-nowhere-1") "" Stub.unreachable_msg;
            Printed ("Error listing objects: " ++ Stub.unreachable_msg);
            Printed "No objects found in bucket." ]).
Proof.
  split; [left; discriminate |].
  apply (failed_and_empty_listing_end_the_run_alike
           Stub.host "b" "xx-nowhere-1" Stub.stamp Stub.unreachable
           (snd (after_timestamp Stub.host Stub.unreachable))
           "" Stub.unreachable_msg []);
    [reflexivity | reflexivity | left; discriminate].
Defined.

(** ** The whole of [main] *)

(** With both prompts answered by an empty line and every candidate
    region refusing, [main] gives up after the thirty probes: no listing
    command is run. *)
Example main_gives_up_without_region :
  fst (main Stub.host Stub.nowhere) = Return None
  /\ commands (trace (snd (main Stub.host Stub.nowhere)))
     = map (detect_cmd "") CANDIDATE_REGIONS
  /\ last (trace (snd (main Stub.host Stub.nowhere))) (Printed "")
     = Printed "Failed to detect region. Exiting.".
Proof. repeat split; vm_compute; reflexivity. Qed.

(** * Further properties of the script *)

(** ** What the listing returns *)

Lemma split_from_fields (s : string) :
  forall cur : string,
    no_space cur = true -> Forall is_field (PyStr.split_from cur s).
Proof.
  assert (Hsnoc : forall cur c, no_space cur = true -> PyStr.isspace c = false ->
                                no_space (PyStr.snoc cur c) = true).
  { intros cur c. unfold PyStr.snoc. induction cur as [| a cur IH]; cbn.
    - intros _ ->. reflexivity.
    - intros Ha Hc. apply andb_true_iff in Ha. destruct Ha as [Ha Hcur].
      rewrite Ha. cbn. now apply IH. }
  induction s as [| c s IH]; intros cur Hcur; cbn [PyStr.split_from].
  - destruct cur; cbn; constructor; [| constructor].
    split; [discriminate | exact Hcur].
  - destruct (PyStr.isspace c) eqn:Hc.
    + destruct cur; cbn [PyStr.nonempty].
      * now apply IH.
      * constructor; [split; [discriminate | exact Hcur] | now apply IH].
    + apply IH. now apply Hsnoc.
Qed.

Lemma split_fields (s : string) : Forall is_field (PyStr.split s).
Proof. now apply split_from_fields. Qed.

Lemma parse_line_well_sized (line : string) :
  well_sized line = true -> forall e, parse_line line <> Raise e.
Proof.
  unfold well_sized, parse_line, size_field. intros Hok e.
  destruct (4 <=? length (PyStr.split line))%nat eqn:Hlen; [| discriminate].
  destruct (PyStr.int (nth 2 (PyStr.split line) "")); [discriminate |].
  apply Nat.leb_le in Hlen. rewrite orb_false_r in Hok.
  apply Nat.ltb_lt in Hok. exfalso. lia.
Qed.

Lemma parse_line_not_well_sized (line : string) :
  well_sized line = false ->
  parse_line line = Raise (ValueError (size_field line)).
Proof.
  unfold well_sized, parse_line, size_field. intros Hbad.
  apply orb_false_iff in Hbad. destruct Hbad as [Hlen Hint].
  apply Nat.ltb_ge in Hlen. apply Nat.leb_le in Hlen. rewrite Hlen.
  now destruct (PyStr.int (nth 2 (PyStr.split line) "")).
Qed.

(** The loop, from any list of objects already read. *)
Lemma parse_lines_outcome (lines : list string) :
  forall acc : list Obj,
    parse_lines lines acc
    = match find (fun line => negb (well_sized line)) lines with
      | None => Return (acc ++ objects_of lines)
      | Some line => Raise (ValueError (size_field line))
      end.
Proof.
  induction lines as [| line lines IH]; intros acc; cbn [parse_lines find objects_of flat_map].
  - now rewrite app_nil_r.
  - destruct (well_sized line) eqn:Hok; cbn [negb].
    + pose proof (parse_line_well_sized line Hok) as Hnr.
      destruct (parse_line line) as [[obj |] | e].
      * rewrite IH. destruct (find _ lines); [reflexivity |].
        fold (objects_of lines). now rewrite <- app_assoc.
      * rewrite IH. destruct (find _ lines); reflexivity.
      * now destruct (Hnr e).
    + now rewrite (parse_line_not_well_sized line Hok).
Qed.

Lemma parse_line_fields (line : string) (obj : Obj) :
  parse_line line = Return (Some obj) ->
  is_field (date obj) /\ is_field (time obj) /\ is_field (key obj).
Proof.
  unfold parse_line. intros Hp.
  destruct (4 <=? length (PyStr.split line))%nat eqn:Hlen; [| discriminate].
  apply Nat.leb_le in Hlen.
  destruct (PyStr.int (nth 2 (PyStr.split line) "")); [| discriminate].
  injection Hp as <-. cbn [date time key].
  pose proof (split_fields line) as Hf. rewrite Forall_forall in Hf.
  repeat split; apply Hf, nth_In; lia.
Qed.

Lemma objects_of_fields (lines : list string) :
  Forall (fun obj => is_field (date obj) /\ is_field (time obj) /\ is_field (key obj))
         (objects_of lines).
Proof.
  unfold objects_of. apply Forall_forall. intros obj Hin.
  apply in_flat_map in Hin. destruct Hin as (line & _ & Hobj).
  destruct (parse_line line) as [[o |] | e] eqn:Hp; try contradiction.
  destruct Hobj as [<- | []]. now apply (parse_line_fields line).
Qed.

Lemma objects_of_length (lines : list string) :
  (length (objects_of lines) <= length lines)%nat.
Proof.
  unfold objects_of. induction lines as [| line lines IH]; cbn; [lia |].
  rewrite length_app. destruct (parse_line line) as [[o |] | e]; cbn; lia.
Qed.

(** The loop body against the line it reads. *)
Lemma parse_line_object (line : string) (obj : Obj) :
  parse_line line = Return (Some obj) ->
  long_line line = true /\ line_object line obj.
Proof.
  unfold parse_line, long_line, line_object. intros Hp.
  destruct (4 <=? length (PyStr.split line))%nat eqn:Hlen; [| discriminate].
  split; [reflexivity |].
  destruct (PyStr.split line) as [| d [| t [| sz [| k more]]]];
    try discriminate Hlen.
  cbn [nth] in Hp.
  destruct (PyStr.int sz) as [n |]; [| discriminate].
  injection Hp as <-. cbn [date time size key]. repeat split.
Qed.

Lemma parse_line_none_short (line : string) :
  parse_line line = Return None -> long_line line = false.
Proof.
  unfold parse_line, long_line. intros Hp.
  destruct (4 <=? length (PyStr.split line))%nat; [| reflexivity].
  destruct (PyStr.int (nth 2 (PyStr.split line) "")); discriminate.
Qed.

(** When every line gets past the loop, the objects are those of the
    lines of four fields or more, one for one and in order. *)
Lemma objects_of_lines (lines : list string) :
  find (fun line => negb (well_sized line)) lines = None ->
  Forall2 line_object (filter long_line lines) (objects_of lines).
Proof.
  unfold objects_of.
  induction lines as [| line lines IH]; cbn [find filter flat_map].
  - constructor.
  - destruct (well_sized line) eqn:Hok; cbn [negb]; [| discriminate].
    intros Hfind. pose proof (parse_line_well_sized line Hok) as Hnr.
    destruct (parse_line line) as [[obj |] | e] eqn:Hp.
    + destruct (parse_line_object line obj Hp) as [-> Hobj].
      cbn [app]. constructor; [exact Hobj | now apply IH].
    + rewrite (parse_line_none_short line Hp). cbn [app]. now apply IH.
    + now destruct (Hnr e).
Qed.

(** The line the loop stops at is the first with four fields or more
    and no integer literal in the third. *)
Lemma find_first_not_well_sized (lines : list string) (bad : string) :
  find (fun line => negb (well_sized line)) lines = Some bad ->
  exists before after,
    lines = before ++ bad :: after
    /\ forallb well_sized before = true
    /\ long_line bad = true
    /\ PyStr.int (size_field bad) = None.
Proof.
  induction lines as [| line lines IH]; cbn [find]; [discriminate |].
  destruct (well_sized line) eqn:Hok; cbn [negb].
  - intros Hfind. destruct (IH Hfind) as (before & after & -> & Hb & Hl & Hi).
    exists (line :: before), after. cbn [app forallb]. rewrite Hok, Hb.
    repeat split; assumption.
  - intros [= <-]. exists [], lines. cbn [app forallb].
    unfold well_sized in Hok. apply orb_false_iff in Hok.
    destruct Hok as [Hlen Hint]. repeat split.
    + unfold long_line. apply Nat.leb_le. apply Nat.ltb_ge in Hlen. exact Hlen.
    + now destruct (PyStr.int (size_field line)).
Qed.

Lemma Forall2_in_left {A B : Type} (R : A -> B -> Prop)
      (l : list A) (l' : list B) (x : A) :
  Forall2 R l l' -> In x l -> exists y, In y l' /\ R x y.
Proof.
  induction 1 as [| a b l l' Hab _ IH]; cbn [In]; [contradiction |].
  intros [<- | Hin].
  - exists b. split; [now left | exact Hab].
  - destruct (IH Hin) as (y & Hy & Hxy). exists y. split; [now right | exact Hxy].
Qed.

(** The digit limit of [int]: what it reads is below 10^4300 in
    absolute value. *)
Lemma digit_range (c : ascii) (d : Z) :
  PyStr.digit c = Some d -> (0 <= d <= 9)%Z.
Proof.
  unfold PyStr.digit.
  destruct ((48 <=? PyStr.code c) && (PyStr.code c <=? 57))%N eqn:Hc; [| discriminate].
  intros [= <-]. apply andb_true_iff in Hc. destruct Hc as [Hlo Hhi].
  apply N.leb_le in Hlo, Hhi. lia.
Qed.

Lemma int_digits_bound (s : string) :
  forall (acc : Z) (sep : bool) (k : nat) (n : Z),
    (0 <= acc < 10 ^ Z.of_nat k)%Z ->
    PyStr.int_digits acc sep s = Some n ->
    (0 <= n < 10 ^ Z.of_nat (k + PyStr.count_digits s))%Z.
Proof.
  induction s as [| c r IH]; intros acc sep k n Hacc;
    cbn [PyStr.int_digits PyStr.count_digits].
  - destruct sep; [discriminate |]. intros [= <-]. now rewrite Nat.add_0_r.
  - destruct (PyStr.digit c) as [d |] eqn:Hd.
    + intros Hn. pose proof (digit_range c d Hd) as Hr.
      rewrite Nat.add_succ_r. apply (IH _ _ (S k) _) in Hn; [exact Hn |].
      rewrite Nat2Z.inj_succ, Z.pow_succ_r by lia. lia.
    + destruct (Ascii.eqb c "_" && negb sep); [| discriminate].
      now apply IH.
Qed.

Lemma int_unsigned_bound (s : string) (n : Z) :
  PyStr.int_unsigned s = Some n ->
  (0 <= n < 10 ^ Z.of_nat (PyStr.count_digits s))%Z.
Proof.
  unfold PyStr.int_unsigned. destruct s as [| c r]; [discriminate |].
  destruct (PyStr.digit c); [| discriminate].
  intros Hn. apply (int_digits_bound _ 0 false 0) in Hn; [exact Hn | cbn; lia].
Qed.

Lemma int_literal_bound (s : string) (n : Z) :
  PyStr.int_literal s = Some n ->
  (Z.abs n < 10 ^ Z.of_nat (PyStr.count_digits s))%Z.
Proof.
  assert (Hu : forall t m, PyStr.int_unsigned t = Some m ->
                           (Z.abs m < 10 ^ Z.of_nat (PyStr.count_digits t))%Z).
  { intros t m Hm. apply int_unsigned_bound in Hm. lia. }
  destruct s as [| c r]; [discriminate |].
  destruct (Ascii.eqb c "+") eqn:Hplus; [| destruct (Ascii.eqb c "-") eqn:Hminus].
  - apply Ascii.eqb_eq in Hplus. subst c. cbn - [PyStr.int_unsigned Z.pow Z.of_nat].
    apply Hu.
  - apply Ascii.eqb_eq in Hminus. subst c. cbn - [PyStr.int_unsigned Z.pow Z.of_nat].
    destruct (PyStr.int_unsigned r) as [m |] eqn:Hm; [| discriminate].
    intros [= <-]. rewrite Z.abs_opp. now apply Hu.
  - intros Hn. apply Hu.
    destruct c as [[] [] [] [] [] [] [] []];
      first [discriminate Hplus | discriminate Hminus | exact Hn].
Qed.

Lemma int_within_digit_limit (s : string) (n : Z) :
  PyStr.int s = Some n -> (- 10 ^ 4300 < n < 10 ^ 4300)%Z.
Proof.
  unfold PyStr.int.
  destruct (PyStr.max_str_digits <? PyStr.count_digits s)%nat eqn:Hlen; [discriminate |].
  intros Hn. apply int_literal_bound in Hn. apply Nat.ltb_ge in Hlen.
  assert (Hpow : (10 ^ Z.of_nat (PyStr.count_digits s) <= 10 ^ 4300)%Z).
  { apply Z.pow_le_mono_r; [lia |]. unfold PyStr.max_str_digits in Hlen. lia. }
  set (L := (10 ^ 4300)%Z) in *. lia.
Qed.

Lemma objects_of_sizes (lines : list string) :
  Forall (fun obj => (- 10 ^ 4300 < size obj < 10 ^ 4300)%Z) (objects_of lines).
Proof.
  unfold objects_of. apply Forall_forall. intros obj Hin.
  apply in_flat_map in Hin. destruct Hin as (line & _ & Hobj).
  destruct (parse_line line) as [[o |] | e] eqn:Hp; try contradiction.
  destruct Hobj as [<- | []].
  destruct (parse_line_object line o Hp) as [_ Hline].
  unfold line_object in Hline.
  destruct (PyStr.split line) as [| d [| t [| sz [| k more]]]]; try contradiction.
  destruct Hline as (_ & _ & Hsz & _). exact (int_within_digit_limit sz _ Hsz).
Qed.

Section Listing.

Context {World : Type} (H : host World).

(** What [list_s3_objects] does after its command has answered. *)
Lemma list_s3_objects_unfold
      (bucket_name region stdout stderr : string) (s s1 : state World) :
  run_command H (list_cmd bucket_name region) s = (Return (stdout, stderr), s1) ->
  list_s3_objects H bucket_name region s
  = if PyStr.nonempty stderr
    then (Return [],
          mkState (world s1)
                  (trace s1 ++ [Printed ("Error listing objects: " ++ stderr)%string]))
    else (match find (fun line => negb (well_sized line)) (listing_lines stdout) with
          | None => Return (objects_of (listing_lines stdout))
          | Some line => Raise (ValueError (size_field line))
          end, s1).
Proof.
  intros Hrun. unfold list_s3_objects, bind. rewrite Hrun.
  destruct (PyStr.nonempty stderr); [reflexivity |].
  unfold lift. now rewrite parse_lines_outcome.
Qed.

(** X1: with nothing on the error stream, [list_s3_objects] returns one
    object per non-blank line that has four fields or more, in listing
    order, each made of the first, second and fourth field of its line
    and of the integer its third field denotes, when each of these lines
    has an integer literal as third field; otherwise it raises
    [ValueError] with the third field of the first line that has none,
    and returns no object at all. *)
Theorem list_s3_objects_outcome
        (bucket_name region stdout : string) (s s1 : state World) :
  run_command H (list_cmd bucket_name region) s = (Return (stdout, ""), s1) ->
  match find (fun line => negb (well_sized line)) (listing_lines stdout) with
  | None =>
      exists objects,
        list_s3_objects H bucket_name region s = (Return objects, s1)
        /\ Forall2 line_object (filter long_line (listing_lines stdout)) objects
  | Some bad =>
      list_s3_objects H bucket_name region s
      = (Raise (ValueError (size_field bad)), s1)
      /\ exists before after,
          listing_lines stdout = before ++ bad :: after
          /\ forallb well_sized before = true
          /\ long_line bad = true
          /\ PyStr.int (size_field bad) = None
  end.
Proof.
  intros Hrun.
  rewrite (list_s3_objects_unfold _ _ _ _ _ _ Hrun). cbn [PyStr.nonempty].
  destruct (find _ (listing_lines stdout)) as [bad |] eqn:Hfind.
  - split; [reflexivity |]. now apply find_first_not_well_sized.
  - exists (objects_of (listing_lines stdout)).
    split; [reflexivity |]. now apply objects_of_lines.
Qed.

(** C10: a listing line of five fields or more is the line of an object
    whose key has whitespace inside.  Whatever [list_s3_objects] does is
    one of three things: with text on the error stream it returns no
    object; with a line of four fields or more whose third field is no
    integer literal it raises; and otherwise it returns the objects of the
    lines of four fields or more, in order, where the object of every line
    of five fields or more has the fourth field alone as its key, a text
    with no whitespace in it.  The fields after the fourth are in no
    object, and nothing is printed about them. *)
Theorem list_s3_objects_key_is_fourth_field
        (bucket_name region stdout stderr : string) (s s1 : state World) :
  run_command H (list_cmd bucket_name region) s = (Return (stdout, stderr), s1) ->
  if PyStr.nonempty stderr
  then list_s3_objects H bucket_name region s
       = (Return [],
          mkState (world s1)
                  (trace s1 ++ [Printed ("Error listing objects: " ++ stderr)%string]))
  else
    match find (fun line => negb (well_sized line)) (listing_lines stdout) with
    | Some bad =>
        list_s3_objects H bucket_name region s
        = (Raise (ValueError (size_field bad)), s1)
    | None =>
        exists objects,
          list_s3_objects H bucket_name region s = (Return objects, s1)
          /\ Forall2 line_object (filter long_line (listing_lines stdout)) objects
          /\ forall (line d t sz k extra : string) (more : list string),
              In line (listing_lines stdout) ->
              PyStr.split line = d :: t :: sz :: k :: extra :: more ->
              exists n,
                PyStr.int sz = Some n
                /\ In (mkObj d t n k) objects
                /\ is_field k /\ is_field extra
    end.
Proof.
  intros Hrun. rewrite (list_s3_objects_unfold _ _ _ _ _ _ Hrun).
  destruct (PyStr.nonempty stderr); [reflexivity |].
  destruct (find _ (listing_lines stdout)) as [bad |] eqn:Hfind; [reflexivity |].
  exists (objects_of (listing_lines stdout)).
  pose proof (objects_of_lines _ Hfind) as Hall.
  split; [reflexivity |]. split; [exact Hall |].
  intros line d t sz k extra more Hin Hsplit.
  assert (Hlong : In line (filter long_line (listing_lines stdout))).
  { apply filter_In. split; [exact Hin |]. unfold long_line. now rewrite Hsplit. }
  destruct (Forall2_in_left _ _ _ _ Hall Hlong) as (obj & Hobj & Hline).
  unfold line_object in Hline. rewrite Hsplit in Hline.
  destruct Hline as (Hd & Ht & Hsz & Hk).
  exists (size obj). split; [exact Hsz |]. split.
  - destruct obj as [d' t' n' k']. cbn [date time size key] in Hd, Ht, Hk.
    now subst.
  - pose proof (split_fields line) as Hf. rewrite Hsplit in Hf.
    rewrite Forall_forall in Hf.
    split; apply Hf; cbn [In]; tauto.
Qed.

(** X2: every object [list_s3_objects] returns has a date, a time and a
    key that are not empty and contain no whitespace. *)
Theorem list_s3_objects_fields
        (bucket_name region : string) (s s1 : state World) (objects : list Obj) :
  list_s3_objects H bucket_name region s = (Return objects, s1) ->
  Forall (fun obj => is_field (date obj) /\ is_field (time obj) /\ is_field (key obj))
         objects.
Proof.
  unfold list_s3_objects, bind.
  destruct (run_command_returns H (list_cmd bucket_name region) s)
    as (o & e & w & ->).
  destruct (PyStr.nonempty e).
  - unfold print, emit, ret. intros [= <- _]. constructor.
  - unfold lift. rewrite parse_lines_outcome.
    destruct (find _ (listing_lines o)); [discriminate |].
    intros [= <- _]. apply objects_of_fields.
Qed.

(** X19: the size of every object [list_s3_objects] returns is an
    integer [int] has read, so of 4300 digits at most: it lies strictly
    between -10^4300 and 10^4300. *)
Theorem list_s3_objects_sizes_within_digit_limit
        (bucket_name region : string) (s s1 : state World) (objects : list Obj) :
  list_s3_objects H bucket_name region s = (Return objects, s1) ->
  Forall (fun obj => (- 10 ^ 4300 < size obj < 10 ^ 4300)%Z) objects.
Proof.
  destruct (run_command_returns H (list_cmd bucket_name region) s)
    as (o & e & w & Hrun).
  rewrite (list_s3_objects_unfold _ _ _ _ _ _ Hrun).
  destruct (PyStr.nonempty e).
  - intros [= <- _]. constructor.
  - destruct (find _ (listing_lines o)); [discriminate |].
    intros [= <- _]. apply objects_of_sizes.
Qed.

End Listing.

Lemma list_s3_objects_outcome_witness :
  (exists objects,
      list_s3_objects Stub.host "b" "us-east-1"
                      (Stub.start [Completed Stub.short_lines ""])
      = (Return objects,
         mkState [] [Ran (list_cmd "b" "us-east-1") (PyStr.strip Stub.short_lines) ""])
      /\ Forall2 line_object
                 (filter long_line (listing_lines (PyStr.strip Stub.short_lines)))
                 objects)
  /\ list_s3_objects Stub.host "b" "us-east-1" Stub.bad_size_listing
     = (Raise (ValueError "n/a"),
        mkState [] [Ran (list_cmd "b" "us-east-1") (PyStr.strip Stub.bad_size_lines) ""]).
Proof.
  split.
  - exact (list_s3_objects_outcome Stub.host "b" "us-east-1"
             (PyStr.strip Stub.short_lines)
             (Stub.start [Completed Stub.short_lines ""])
             (mkState [] [Ran (list_cmd "b" "us-east-1")
                              (PyStr.strip Stub.short_lines) ""])
             eq_refl).
  - exact (proj1 (list_s3_objects_outcome Stub.host "b" "us-east-1"
                    (PyStr.strip Stub.bad_size_lines) Stub.bad_size_listing
                    (mkState [] [Ran (list_cmd "b" "us-east-1")
                                     (PyStr.strip Stub.bad_size_lines) ""])
                    eq_refl)).
Defined.

Lemma list_s3_objects_key_is_fourth_field_witness :
  exists objects,
    list_s3_objects Stub.host "b" "us-east-1"
                    (Stub.start
                       [Completed "2025-03-27 15:48:38     12 my holiday photo.jpg" ""])
    = (Return objects,
       mkState [] [Ran (list_cmd "b" "us-east-1")
                       "2025-03-27 15:48:38     12 my holiday photo.jpg" ""])
    /\ Forall2 line_object
               (filter long_line
                       (listing_lines "2025-03-27 15:48:38     12 my holiday photo.jpg"))
               objects
    /\ forall (line d t sz k extra : string) (more : list string),
        In line (listing_lines "2025-03-27 15:48:38     12 my holiday photo.jpg") ->
        PyStr.split line = d :: t :: sz :: k :: extra :: more ->
        exists n,
          PyStr.int sz = Some n
          /\ In (mkObj d t n k) objects
          /\ is_field k /\ is_field extra.
Proof.
  exact (list_s3_objects_key_is_fourth_field Stub.host "b" "us-east-1"
           "2025-03-27 15:48:38     12 my holiday photo.jpg" ""
           (Stub.start [Completed "2025-03-27 15:48:38     12 my holiday photo.jpg" ""])
           (mkState [] [Ran (list_cmd "b" "us-east-1")
                            "2025-03-27 15:48:38     12 my holiday photo.jpg" ""])
           eq_refl).
Defined.

Lemma list_s3_objects_sizes_within_digit_limit_witness :
  Forall (fun obj => (- 10 ^ 4300 < size obj < 10 ^ 4300)%Z)
         [ mkObj "2025-03-27" "15:48:38" 500 "docs/a.txt";
           mkObj "2025-03-27" "15:48:40" 7 "docs/c.txt" ].
Proof.
  exact (list_s3_objects_sizes_within_digit_limit Stub.host "b" "us-east-1"
           (Stub.start [Completed Stub.short_lines ""])
           (mkState [] [Ran (list_cmd "b" "us-east-1") (PyStr.strip Stub.short_lines) ""])
           [ mkObj "2025-03-27" "15:48:38" 500 "docs/a.txt";
             mkObj "2025-03-27" "15:48:40" 7 "docs/c.txt" ] eq_refl).
Defined.

Lemma list_s3_objects_fields_witness :
  Forall (fun obj => is_field (date obj) /\ is_field (time obj) /\ is_field (key obj))
         [ mkObj "2025-03-27" "15:48:38" 12 "my" ].
Proof.
  exact (list_s3_objects_fields Stub.host "b" "us-east-1"
           (Stub.start [Completed "2025-03-27 15:48:38     12 my holiday photo.jpg" ""])
           (mkState [] [Ran (list_cmd "b" "us-east-1")
                            "2025-03-27 15:48:38     12 my holiday photo.jpg" ""])
           [ mkObj "2025-03-27" "15:48:38" 12 "my" ] eq_refl).
Defined.

(** ** The order of the folders and the totals per folder *)

Lemma filter_filter_and {A : Type} (p q : A -> bool) (l : list A) :
  filter p (filter q l) = filter (fun x => q x && p x) l.
Proof.
  induction l as [| x l IH]; cbn; [reflexivity |].
  destruct (q x); cbn; [destruct (p x) |]; now rewrite IH.
Qed.

Lemma existsb_eqb_In (k : string) (l : list string) :
  existsb (String.eqb k) l = true <-> In k l.
Proof.
  rewrite existsb_exists. split.
  - intros (x & Hx & Heq). apply String.eqb_eq in Heq. now subst.
  - intros Hin. exists k. split; [exact Hin | apply String.eqb_refl].
Qed.

Lemma keys_fold_setdefault_append (objects : list Obj) :
  forall g : dict (list Obj),
    keys (fold_left (fun grouped obj => setdefault_append (folder_of obj) obj grouped)
                    objects g)
    = keys g ++ filter (fun k => negb (existsb (String.eqb k) (keys g)))
                       (first_occurrences (map folder_of objects)).
Proof.
  induction objects as [| obj objects IH]; intros g;
    cbn [fold_left map first_occurrences filter].
  - now rewrite app_nil_r.
  - rewrite IH, keys_setdefault_append, filter_filter_and.
    destruct (dict_get (folder_of obj) g) eqn:Hget.
    + assert (Hin : existsb (String.eqb (folder_of obj)) (keys g) = true).
      { apply existsb_eqb_In. destruct (in_dec string_dec (folder_of obj) (keys g))
          as [Hin | Hnin]; [exact Hin |].
        apply dict_get_None in Hnin. congruence. }
      rewrite Hin. cbn [negb]. f_equal. apply filter_ext_in. intros k _.
      destruct (String.eqb_spec k (folder_of obj)) as [-> | Hne]; cbn [negb andb].
      * now rewrite Hin.
      * reflexivity.
    + assert (Hnin : existsb (String.eqb (folder_of obj)) (keys g) = false).
      { apply dict_get_None in Hget.
        destruct (existsb (String.eqb (folder_of obj)) (keys g)) eqn:E; [| reflexivity].
        apply existsb_eqb_In in E. contradiction. }
      rewrite Hnin. cbn [negb]. rewrite <- app_assoc. cbn [app]. do 2 f_equal.
      apply filter_ext. intros k. rewrite existsb_app. cbn [existsb].
      rewrite orb_false_r, negb_orb. apply andb_comm.
Qed.

Lemma keys_group_first_occurrences (objects : list Obj) :
  keys (group_objects_by_folder objects)
  = first_occurrences (map folder_of objects).
Proof.
  unfold group_objects_by_folder. rewrite keys_fold_setdefault_append.
  cbn [keys map app existsb negb].
  induction (first_occurrences (map folder_of objects)) as [| k l IH]; cbn;
    [reflexivity | now rewrite IH].
Qed.

(** X3: the keys of the grouping are the top-level folders of the
    objects in the order in which each first appears in the listing, and
    appending objects to a listing never reorders the folders already
    there. *)
Theorem group_objects_by_folder_key_order (objects more : list Obj) :
  keys (group_objects_by_folder objects)
  = first_occurrences (map folder_of objects)
  /\ exists added,
      keys (group_objects_by_folder (objects ++ more))
      = keys (group_objects_by_folder objects) ++ added.
Proof.
  split; [apply keys_group_first_occurrences |].
  unfold group_objects_by_folder. rewrite fold_left_app.
  rewrite (keys_fold_setdefault_append more). eauto.
Qed.

Lemma sum_sizes_app (xs ys : list Obj) :
  sum_sizes (xs ++ ys) = (sum_sizes xs + sum_sizes ys)%Z.
Proof.
  rewrite !sum_sizes_is_sum, map_app, fold_right_app.
  induction (map size xs) as [| z zs IH]; cbn; [lia | rewrite IH; lia].
Qed.

Lemma sum_sizes_Permutation (xs ys : list Obj) :
  Permutation xs ys -> sum_sizes xs = sum_sizes ys.
Proof.
  intros Hp. rewrite !sum_sizes_is_sum.
  induction Hp; cbn; lia.
Qed.

Lemma sum_sizes_concat (g : dict (list Obj)) :
  sum_sizes (concat (map snd g))
  = fold_right Z.add 0%Z (map (fun entry => sum_sizes (snd entry)) g).
Proof.
  induction g as [| [k xs] g IH]; cbn [map concat snd fold_right];
    [reflexivity | now rewrite sum_sizes_app, IH].
Qed.

(** ** The probes of one run *)

Lemma commands_app (t1 t2 : list event) :
  commands (t1 ++ t2) = commands t1 ++ commands t2.
Proof.
  induction t1 as [| ev t1 IH]; cbn; [reflexivity |].
  destruct ev; cbn; now rewrite IH.
Qed.

Lemma dict_set_new {A : Type} (k : string) (v : A) (d : dict A) :
  dict_get k d = None -> dict_set k v d = d ++ [(k, v)].
Proof.
  induction d as [| [k' v'] d IH]; cbn; [reflexivity |].
  destruct (String.eqb k' k); [discriminate |].
  intros Hget. now rewrite IH.
Qed.

Section ProbeRun.

Context {World : Type} (H : host World).

Lemma before_upload_trace (s s1 : state World) (test_file local_test_file : string) :
  before_upload H s = (test_file, local_test_file, s1) -> trace s1 = trace s.
Proof.
  unfold before_upload.
  destruct (random_choices H (world s)) as [name w1].
  destruct (NamedTemporaryFile H w1) as [local w2].
  now intros [= _ _ <-].
Qed.

(** The write probe, by the error stream of its upload. *)
Lemma check_write_access_by_upload
      (bucket_name folder region : string) (s s1 s2 : state World)
      (test_file local_test_file stdout stderr : string) :
  before_upload H s = (test_file, local_test_file, s1) ->
  run_command H (upload_cmd local_test_file bucket_name folder test_file region) s1
  = (Return (stdout, stderr), s2) ->
  exists s',
    check_write_access H bucket_name folder region s
    = (Return (negb (denied stderr)), s')
    /\ commands (trace s')
       = commands (trace s)
         ++ upload_cmd local_test_file bucket_name folder test_file region
            :: (if denied stderr then []
                else [delete_cmd bucket_name folder test_file region]).
Proof.
  intros Hbefore Hrun.
  rewrite (check_write_access_unfold H bucket_name folder region _ _ _ _ _ _ _
             Hbefore Hrun).
  destruct (run_command_returns H
              (upload_cmd local_test_file bucket_name folder test_file region) s1)
    as (o & e & w1 & Hrun1).
  rewrite Hrun in Hrun1. injection Hrun1 as <- <- ->.
  pose proof (before_upload_trace _ _ _ _ Hbefore) as Htr.
  destruct (denied stderr).
  - eexists. split; [reflexivity |].
    unfold removed. cbn [trace negb]. now rewrite commands_app, Htr.
  - unfold bind.
    destruct (run_command_returns H (delete_cmd bucket_name folder test_file region)
                (removed H local_test_file
                   (mkState w1 (trace s1 ++ [Ran (upload_cmd local_test_file bucket_name
                                                    folder test_file region) stdout stderr]))))
      as (dout & derr & w & Hdel).
    rewrite Hdel. eexists. split; [reflexivity |].
    unfold removed. cbn [trace negb].
    rewrite !commands_app, Htr, <- app_assoc. reflexivity.
Qed.

(** X5: the write probe answers false exactly when the error stream of
    the upload contains "AccessDenied" or "An error occurred"; it runs the
    upload, then the delete of the canary exactly when it answers true,
    and no other command. *)
Theorem check_write_access_answer_and_commands
        (bucket_name folder region : string) (s s1 s2 : state World)
        (test_file local_test_file stdout stderr : string) :
  before_upload H s = (test_file, local_test_file, s1) ->
  run_command H (upload_cmd local_test_file bucket_name folder test_file region) s1
  = (Return (stdout, stderr), s2) ->
  exists s',
    check_write_access H bucket_name folder region s
    = (Return (negb (PyStr.contains "AccessDenied" stderr
                     || PyStr.contains "An error occurred" stderr)), s')
    /\ commands (trace s')
       = commands (trace s)
         ++ upload_cmd local_test_file bucket_name folder test_file region
            :: (if PyStr.contains "AccessDenied" stderr
                   || PyStr.contains "An error occurred" stderr
                then []
                else [delete_cmd bucket_name folder test_file region]).
Proof. exact (check_write_access_by_upload bucket_name folder region s s1 s2
                test_file local_test_file stdout stderr). Qed.

(** The two probes with what they add to the trace. *)
Lemma check_read_access_events (bucket_name folder region : string)
      (s : state World) :
  exists stdout stderr w,
    check_read_access H bucket_name folder region s
    = (Return (negb (denied stderr)),
       mkState w (trace s ++ [Ran (read_cmd bucket_name folder region) stdout stderr])).
Proof.
  destruct (run_command_returns H (read_cmd bucket_name folder region) s)
    as (o & e & w & Hrun).
  exists o, e, w. exact (check_read_access_unfold H _ _ _ _ _ _ _ Hrun).
Qed.

Lemma check_write_access_events (bucket_name folder region : string)
      (s : state World) :
  exists test_file local_test_file stdout stderr deleted w,
    check_write_access H bucket_name folder region s
    = (Return (negb (denied stderr)),
       mkState w
         (trace s
          ++ Ran (upload_cmd local_test_file bucket_name folder test_file region)
                 stdout stderr
             :: (if negb (denied stderr)
                 then [Ran (delete_cmd bucket_name folder test_file region)
                           (fst deleted) (snd deleted)]
                 else []))).
Proof.
  destruct (before_upload H s) as [[test_file local] s1] eqn:Hbefore.
  destruct (run_command_returns H
              (upload_cmd local bucket_name folder test_file region) s1)
    as (o & e & w1 & Hrun).
  pose proof (before_upload_trace _ _ _ _ Hbefore) as Htr.
  rewrite (check_write_access_unfold H bucket_name folder region _ _ _ _ _ _ _
             Hbefore Hrun).
  destruct (denied e) eqn:Hd.
  - exists test_file, local, o, e, ("", ""), (os_remove H local w1).
    rewrite Hd. unfold removed. cbn [world trace negb]. now rewrite Htr.
  - unfold bind.
    destruct (run_command_returns H (delete_cmd bucket_name folder test_file region)
                (removed H local
                   (mkState w1 (trace s1 ++ [Ran (upload_cmd local bucket_name folder
                                                    test_file region) o e]))))
      as (dout & derr & w & Hdel).
    rewrite Hdel. exists test_file, local, o, e, (dout, derr), w.
    rewrite Hd. unfold ret, removed. cbn [world trace fst snd negb].
    now rewrite Htr, <- app_assoc.
Qed.

(** The probing loop: one row per folder, in order. *)
Lemma probe_folders_events (bucket_name region : string) (folders : list string) :
  forall (perms : dict Perm) (s : state World),
    NoDup (keys perms ++ folders) ->
    exists rows s',
      length rows = length folders
      /\ probe_folders H bucket_name region folders perms s
         = (Return (perms ++ map row_entry (combine folders rows)), s')
      /\ trace s'
         = trace s
           ++ concat (map (row_events bucket_name region) (combine folders rows)).
Proof.
  induction folders as [| folder rest IH]; intros perms s Hnd.
  - exists [], s. cbn. now rewrite !app_nil_r.
  - cbn [probe_folders]. unfold bind.
    destruct (check_read_access_events bucket_name (folder ++ "/") region s)
      as (ro & re & w1 & ->).
    destruct (check_write_access_events bucket_name (folder ++ "/") region
                (mkState w1 (trace s ++ [Ran (read_cmd bucket_name (folder ++ "/") region)
                                             ro re])))
      as (tf & local & uo & ue & d & w2 & ->).
    assert (Hnew : dict_get folder perms = None).
    { apply dict_get_None. intros Hin.
      apply NoDup_remove_2 in Hnd. apply Hnd, in_or_app. now left. }
    rewrite (dict_set_new _ _ _ Hnew).
    match goal with
    | |- context [probe_folders H _ _ rest ?p ?st] =>
        destruct (IH p st) as (rows & s' & Hlen & Hrun & Htr)
    end.
    { unfold keys. rewrite map_app. cbn [map fst]. rewrite <- app_assoc. exact Hnd. }
    exists (mkRow ro re local tf uo ue d :: rows), s'.
    split; [cbn; now rewrite Hlen |]. split.
    + rewrite Hrun. cbn [combine map]. unfold row_entry at 2, row_readable, row_writable.
      cbn [fst snd row_read_err row_upload_err].
      now rewrite <- app_assoc.
    + rewrite Htr. cbn [trace combine map concat].
      unfold row_events at 2, row_writable.
      cbn [fst snd row_read_out row_read_err row_local row_test_file row_upload_out
               row_upload_err row_delete].
      rewrite <- !app_assoc. reflexivity.
Qed.

End ProbeRun.

Lemma check_write_access_answer_and_commands_witness :
  exists s',
    check_write_access Stub.host "b" "docs/" "us-east-1"
                       (Stub.start [Completed "" Stub.no_bucket_msg])
    = (Return false, s')
    /\ commands (trace s')
       = [upload_cmd "/tmp/tmpq1w2e3r4" "b" "docs/" "k3Xp09Qz.txt" "us-east-1"].
Proof.
  exact (check_write_access_answer_and_commands
           Stub.host "b" "docs/" "us-east-1"
           (Stub.start [Completed "" Stub.no_bucket_msg])
           (Stub.start [Completed "" Stub.no_bucket_msg])
           (mkState []
              [Ran (upload_cmd "/tmp/tmpq1w2e3r4" "b" "docs/" "k3Xp09Qz.txt" "us-east-1")
                   "" Stub.no_bucket_msg])
           "k3Xp09Qz.txt" "/tmp/tmpq1w2e3r4" "" Stub.no_bucket_msg
           eq_refl eq_refl).
Defined.

(** ** What [run_command] hands back *)

Lemma lstrip_spec (s : string) :
  first_is_space (PyStr.lstrip s) = false
  /\ exists pre, all_space pre = true /\ s = (pre ++ PyStr.lstrip s)%string.
Proof.
  induction s as [| c s (IHf & pre & Hpre & Hs)]; cbn [PyStr.lstrip].
  - split; [reflexivity | now exists ""].
  - destruct (PyStr.isspace c) eqn:Hc.
    + split; [exact IHf |]. exists (String c pre). cbn. rewrite Hc, Hpre.
      split; [reflexivity | now rewrite <- Hs].
    + split; [cbn; exact Hc | now exists ""].
Qed.

Lemma all_space_app (a b : string) :
  all_space (a ++ b) = all_space a && all_space b.
Proof.
  induction a as [| c a IH]; cbn; [reflexivity |].
  now rewrite IH, andb_assoc.
Qed.

Lemma all_space_last (t : string) :
  t <> "" -> all_space t = true -> last_is_space t = true.
Proof.
  induction t as [| c t IH]; [contradiction |].
  intros _ Hall. cbn in Hall. apply andb_true_iff in Hall. destruct Hall as [Hc Ht].
  destruct t as [| d t]; [exact Hc |].
  change (last_is_space (String d t) = true). apply IH; [discriminate | exact Ht].
Qed.

Lemma rstrip_spec (s : string) :
  last_is_space (PyStr.rstrip s) = false
  /\ first_is_space (PyStr.rstrip s) = first_is_space s && negb (all_space s)
  /\ exists post, all_space post = true /\ s = (PyStr.rstrip s ++ post)%string.
Proof.
  induction s as [| c s (IHl & IHf & post & Hpost & Hs)]; cbn [PyStr.rstrip].
  - repeat split; try reflexivity. now exists "".
  - destruct (PyStr.rstrip s) as [| d r] eqn:Hr.
    + assert (Hall : all_space s = true) by (rewrite Hs; exact Hpost).
      cbn [all_space first_is_space]. rewrite Hall, andb_true_r.
      destruct (PyStr.isspace c) eqn:Hc; cbn.
      * repeat split; try reflexivity. exists (String c s). cbn. now rewrite Hc, Hall.
      * rewrite Hc. repeat split; try reflexivity. exists post.
        split; [exact Hpost |]. now rewrite Hs.
    + assert (Hnot : all_space s = false).
      { destruct (all_space s) eqn:E; [| reflexivity].
        rewrite Hs, all_space_app in E. apply andb_true_iff in E.
        destruct E as [E _]. apply all_space_last in E; [| discriminate]. congruence. }
      cbn [all_space first_is_space]. rewrite Hnot, andb_false_r. cbn [negb].
      rewrite andb_true_r. split; [exact IHl |]. split; [reflexivity |].
      exists post. split; [exact Hpost |]. cbn [append]. f_equal. exact Hs.
Qed.

Lemma strip_spec (s : string) :
  first_is_space (PyStr.strip s) = false
  /\ last_is_space (PyStr.strip s) = false
  /\ (exists pre post,
         all_space pre = true /\ all_space post = true
         /\ s = (pre ++ PyStr.strip s ++ post)%string)
  /\ (PyStr.strip s = "" <-> all_space s = true).
Proof.
  unfold PyStr.strip.
  destruct (lstrip_spec s) as (Hf & pre & Hpre & Hs).
  destruct (rstrip_spec (PyStr.lstrip s)) as (Hl & Hfr & post & Hpost & Hr).
  split; [rewrite Hfr, Hf; reflexivity |]. split; [exact Hl |].
  assert (Hdec : s = (pre ++ PyStr.rstrip (PyStr.lstrip s) ++ post)%string).
  { now rewrite <- Hr. }
  split; [now exists pre, post |].
  split.
  - intros He. rewrite Hdec, He, !all_space_app, Hpre, Hpost. reflexivity.
  - intros Hall. rewrite Hdec, !all_space_app in Hall.
    apply andb_true_iff in Hall. destruct Hall as [_ Hall].
    apply andb_true_iff in Hall. destruct Hall as [Hall _].
    destruct (PyStr.rstrip (PyStr.lstrip s)) as [| c r] eqn:E; [reflexivity |].
    apply all_space_last in Hall; [| discriminate]. congruence.
Qed.

Section Shell.

Context {World : Type} (H : host World).

(** X7: when the command completes, [run_command] returns its two
    streams with exactly the whitespace at both ends removed: what is
    returned neither starts nor ends with whitespace, the stream is the
    returned text between two runs of whitespace, and the returned error
    text is empty exactly when the error stream held nothing but
    whitespace.  When starting the command raises, it returns an empty
    output and the message of the exception, untouched. *)
Theorem run_command_strips_both_streams (command : string) (s : state World) :
  exists stdout stderr s',
    run_command H command s = (Return (stdout, stderr), s')
    /\ match fst (subprocess_run H command (world s)) with
       | Completed out err =>
           (first_is_space stdout = false /\ last_is_space stdout = false
            /\ exists pre post, all_space pre = true /\ all_space post = true
                                /\ out = (pre ++ stdout ++ post)%string)
           /\ (first_is_space stderr = false /\ last_is_space stderr = false
               /\ exists pre post, all_space pre = true /\ all_space post = true
                                   /\ err = (pre ++ stderr ++ post)%string)
           /\ (stderr = "" <-> all_space err = true)
       | Raised message => stdout = "" /\ stderr = message
       end.
Proof.
  unfold run_command.
  destruct (subprocess_run H command (world s)) as [[out err | message] w];
    cbn [fst snd]; eexists; eexists; eexists; (split; [reflexivity |]).
  - destruct (strip_spec out) as (Ho1 & Ho2 & Ho3 & _).
    destruct (strip_spec err) as (He1 & He2 & He3 & He4).
    repeat split; auto; apply He4.
  - split; reflexivity.
Qed.

End Shell.

(** ** [main] before the listing *)

Lemma commands_probe_events (bucket_name : string) (regions : list string) :
  forall outs : list (string * string),
    length outs = length regions ->
    commands (probe_events bucket_name regions outs)
    = map (detect_cmd bucket_name) regions.
Proof.
  unfold probe_events.
  induction regions as [| region regions IH]; intros [| out outs] Hlen;
    try discriminate; cbn [combine map commands fst]; [reflexivity |].
  injection Hlen as Hlen. now rewrite IH.
Qed.

Lemma candidate_regions_nonempty :
  Forall (fun region => PyStr.nonempty region = true) CANDIDATE_REGIONS.
Proof. unfold CANDIDATE_REGIONS. repeat constructor. Qed.

Section Main.

Context {World : Type} (H : host World).

Lemma after_prompts_trace (s s1 : state World) (bucket_name typed : string) :
  after_prompts H s = (bucket_name, typed, s1) -> trace s1 = trace s.
Proof.
  unfold after_prompts.
  destruct (input H _ (world s)) as [bucket_line w1].
  destruct (input H _ w1) as [region_line w2].
  now intros [= _ _ <-].
Qed.

(** [main] after its two prompts. *)
Lemma main_unfold (s s1 : state World) (bucket_name typed : string) :
  after_prompts H s = (bucket_name, typed, s1) ->
  main H s
  = if PyStr.nonempty typed then main_with_region H bucket_name typed s1
    else (detected <- auto_detect_region H bucket_name ;;
          match detected with
          | Some region' =>
              if PyStr.nonempty region'
              then main_with_region H bucket_name region'
              else print "Failed to detect region. Exiting." ;; ret None
          | None => print "Failed to detect region. Exiting." ;; ret None
          end) (announced s1).
Proof.
  unfold after_prompts, main, call. unfold bind at 1 2.
  destruct (input H "Enter the S3 bucket name: " (world s)) as [bucket_line w1].
  cbn [world trace].
  destruct (input H "Enter the AWS region (or leave blank to auto-detect): " w1)
    as [region_line w2].
  intros [= <- <- <-].
  destruct (PyStr.nonempty (PyStr.strip region_line)); reflexivity.
Qed.

(** X8: when the region prompt is left blank and no candidate region is
    accepted, [main] prints "Failed to detect region. Exiting." and
    returns without a report; the commands it has run are the thirty
    region probes, in the order of the candidate list, and no listing,
    upload or delete. *)
Theorem main_gives_up_when_no_region_answers
        (bucket_name : string) (s s1 s2 : state World) :
  after_prompts H s = (bucket_name, "", s1) ->
  auto_detect_region H bucket_name (announced s1) = (Return None, s2) ->
  main H s
  = (Return None,
     mkState (world s2) (trace s2 ++ [Printed "Failed to detect region. Exiting."]))
  /\ commands (trace s2 ++ [Printed "Failed to detect region. Exiting."])
     = commands (trace s) ++ map (detect_cmd bucket_name) CANDIDATE_REGIONS.
Proof.
  intros Hprompts Hdetect. split.
  - rewrite (main_unfold _ _ _ _ Hprompts). cbn [PyStr.nonempty].
    unfold bind at 1. rewrite Hdetect. reflexivity.
  - destruct (detect_in_first H CANDIDATE_REGIONS bucket_name (announced s1))
      as [(region & pre & post & outs & o & e & w & Hrun & _)
         | (outs & w & Hrun & Hlen & _)];
      fold (auto_detect_region H bucket_name (announced s1)) in Hrun;
      rewrite Hdetect in Hrun; [discriminate |].
    injection Hrun as ->. cbn [trace announced].
    rewrite (after_prompts_trace _ _ _ _ Hprompts).
    rewrite !commands_app, (commands_probe_events _ _ _ Hlen).
    cbn [commands]. now rewrite !app_nil_r.
Qed.

(** X9: [main] goes on with the bucket name as typed, stripped, and
    with the region typed, stripped, when that is not blank, in which case
    it runs no region probe and does not check the region against the
    candidate list; with a blank region it goes on with the region
    [auto_detect_region] returns, which is one of the candidates. *)
Theorem main_hands_over_bucket_and_region
        (bucket_name typed : string) (s s1 : state World) :
  after_prompts H s = (bucket_name, typed, s1) ->
  (typed <> "" -> main H s = main_with_region H bucket_name typed s1)
  /\ (typed = "" ->
      forall region s2,
        auto_detect_region H bucket_name (announced s1) = (Return (Some region), s2) ->
        In region CANDIDATE_REGIONS
        /\ main H s = main_with_region H bucket_name region s2).
Proof.
  intros Hprompts. rewrite (main_unfold _ _ _ _ Hprompts). split.
  - intros Hne. destruct typed; [contradiction | reflexivity].
  - intros -> region s2 Hdetect. cbn [PyStr.nonempty].
    assert (Hin : In region CANDIDATE_REGIONS).
    { destruct (detect_in_first H CANDIDATE_REGIONS bucket_name (announced s1))
        as [(region' & pre & post & outs & o & e & w & Hrun & Hsplit & _)
           | (outs & w & Hrun & _)];
        fold (auto_detect_region H bucket_name (announced s1)) in Hrun;
        rewrite Hdetect in Hrun; [| discriminate].
      injection Hrun as -> _. rewrite Hsplit. apply in_or_app. right. now left. }
    split; [exact Hin |].
    unfold bind at 1. rewrite Hdetect.
    pose proof candidate_regions_nonempty as Hall.
    rewrite Forall_forall in Hall. now rewrite (Hall region Hin).
Qed.

End Main.

Lemma main_gives_up_when_no_region_answers_witness :
  main Stub.host Stub.nowhere
  = (Return None,
     mkState (world (snd (auto_detect_region Stub.host "" (announced Stub.nowhere))))
       (trace (snd (auto_detect_region Stub.host "" (announced Stub.nowhere)))
        ++ [Printed "Failed to detect region. Exiting."]))
  /\ commands (trace (snd (auto_detect_region Stub.host "" (announced Stub.nowhere)))
               ++ [Printed "Failed to detect region. Exiting."])
     = commands (trace Stub.nowhere) ++ map (detect_cmd "") CANDIDATE_REGIONS.
Proof.
  apply (main_gives_up_when_no_region_answers Stub.host "" Stub.nowhere Stub.nowhere
           (snd (auto_detect_region Stub.host "" (announced Stub.nowhere))));
    [reflexivity | vm_compute; reflexivity].
Defined.

Lemma main_hands_over_bucket_and_region_witness :
  main (Typed.host "  my-bucket " ("eu-west-1" ++ nl)) Stub.scenario
  = main_with_region (Typed.host "  my-bucket " ("eu-west-1" ++ nl))
                     "my-bucket" "eu-west-1" Stub.scenario.
Proof.
  refine (proj1 (main_hands_over_bucket_and_region
                   (Typed.host "  my-bucket " ("eu-west-1" ++ nl))
                   "my-bucket" "eu-west-1" Stub.scenario Stub.scenario eq_refl) _).
  discriminate.
Defined.

Example main_hands_over_detected_region :
  fst (main Stub.host
         (Stub.start [Completed "" Stub.no_bucket_msg; Completed Stub.one_line "";
                      Completed Stub.one_line ""]))
  = fst (main_with_region Stub.host "" "us-east-2"
           (Stub.start [Completed Stub.one_line ""])).
Proof. vm_compute. reflexivity. Qed.

(** ** The sizes as displayed *)

Lemma div_half_even_nearest (n d : Z) :
  (0 < d)%Z ->
  (Z.abs (2 * (n - Render.div_half_even n d * d)) <= d)%Z
  /\ (n / d <= Render.div_half_even n d <= n / d + 1)%Z.
Proof.
  intros Hd. unfold Render.div_half_even.
  pose proof (Z.div_mod n d ltac:(lia)) as Hdm.
  pose proof (Z.mod_pos_bound n d Hd) as Hr.
  destruct (Z.compare_spec (2 * (n mod d)) d) as [He | Hl | Hg].
  - destruct (Z.even (n / d)); split; lia.
  - split; lia.
  - split; lia.
Qed.

Lemma nearest_double_small (n : Z) :
  (0 < n < 2 ^ 53)%Z -> Render.nearest_double n = n.
Proof.
  intros [Hpos Hlt]. unfold Render.nearest_double.
  assert (Hlog : (Z.log2 n < 53)%Z) by (apply Z.log2_lt_pow2; lia).
  destruct (Z.leb_spec (Z.log2 n - 52) 0); [reflexivity | lia].
Qed.

Lemma ratio_text_small (size k : Z) :
  (0 < size < 2 ^ 53)%Z -> (0 <= k <= 40)%Z ->
  Render.ratio_text size k
  = inr (Render.two_decimals (Render.div_half_even (100 * size) (2 ^ k))).
Proof.
  intros Hsize Hk. unfold Render.ratio_text.
  rewrite (nearest_double_small size Hsize).
  assert (Hbig : (2 ^ 53 <= 2 ^ (1024 + k))%Z) by (apply Z.pow_le_mono_r; lia).
  destruct (Z.leb_spec (2 ^ (1024 + k)) size); [lia | reflexivity].
Qed.

(** The branch [format_size] takes for a size in the range of a unit. *)
Lemma format_size_branch (size k : Z) (unit : string) :
  In (k, unit) [(10, "KB"); (20, "MB"); (30, "GB"); (40, "TB")]%Z ->
  (2 ^ k <= size < 2 ^ (k + 10))%Z ->
  Render.format_size size
  = inr (Render.two_decimals (Render.div_half_even (100 * size) (2 ^ k))
         ++ " " ++ unit)%string.
Proof.
  intros Hin Hrange. unfold Render.format_size.
  assert (Hsmall : (0 < size < 2 ^ 53)%Z).
  { cbn [In] in Hin.
    destruct Hin as [[= <- _] | [[= <- _] | [[= <- _] | [[= <- _] | []]]]];
      cbn in Hrange |- *; lia. }
  cbn [In] in Hin.
  destruct Hin as [[= <- <-] | [[= <- <-] | [[= <- <-] | [[= <- <-] | []]]]];
    change (2 ^ (10 + 10))%Z with (2 ^ 20)%Z in Hrange;
    change (2 ^ (20 + 10))%Z with (2 ^ 30)%Z in Hrange;
    change (2 ^ (30 + 10))%Z with (2 ^ 40)%Z in Hrange;
    repeat match goal with
           | |- context [(?a <=? size)%Z] => destruct (Z.leb_spec a size); try lia
           end;
    rewrite ratio_text_small by (try exact Hsmall; lia); reflexivity.
Qed.

(** X10: for a size in the range of a unit (from 2^10 for KB, 2^20 for
    MB, 2^30 for GB, 2^40 for TB, up to 1024 times that), [format_size]
    shows the number of hundredths of the unit nearest to the size,
    followed by the unit; the number shown is between 1.00 and 1024.00,
    and is off by at most half a hundredth of the unit. *)
Theorem format_size_two_decimals (size k : Z) (unit : string) :
  In (k, unit) [(10, "KB"); (20, "MB"); (30, "GB"); (40, "TB")]%Z ->
  (2 ^ k <= size < 2 ^ (k + 10))%Z ->
  exists h : Z,
    Render.format_size size = inr (Render.two_decimals h ++ " " ++ unit)%string
    /\ (100 <= h <= 102400)%Z
    /\ (Z.abs (2 * (100 * size - h * 2 ^ k)) <= 2 ^ k)%Z.
Proof.
  intros Hin Hrange.
  exists (Render.div_half_even (100 * size) (2 ^ k)).
  split; [now apply format_size_branch |].
  assert (Hk : (0 <= k)%Z).
  { cbn [In] in Hin.
    destruct Hin as [[= <- _] | [[= <- _] | [[= <- _] | [[= <- _] | []]]]]; lia. }
  assert (Hd : (0 < 2 ^ k)%Z) by (apply Z.pow_pos_nonneg; lia).
  destruct (div_half_even_nearest (100 * size) (2 ^ k) Hd) as (Hnear & Hlo & Hhi).
  split; [| exact Hnear].
  rewrite Z.pow_add_r in Hrange by lia. change (2 ^ 10)%Z with 1024%Z in Hrange.
  assert (Hq1 : (100 <= 100 * size / 2 ^ k)%Z).
  { apply Z.div_le_lower_bound; lia. }
  assert (Hq2 : (100 * size / 2 ^ k < 102400)%Z).
  { apply Z.div_lt_upper_bound; lia. }
  lia.
Qed.

Lemma format_size_two_decimals_witness :
  exists h : Z,
    Render.format_size 5000000 = inr (Render.two_decimals h ++ " " ++ "MB")%string
    /\ (100 <= h <= 102400)%Z
    /\ (Z.abs (2 * (100 * 5000000 - h * 2 ^ 20)) <= 2 ^ 20)%Z.
Proof.
  apply (format_size_two_decimals 5000000 20 "MB").
  - right. left. reflexivity.
  - cbn. lia.
Defined.

(** X11: a size less than half a hundredth of a unit below 1024 units
    is shown as 1024.00 of that unit, not as 1.00 of the next. *)
Theorem format_size_shows_1024 (size k : Z) (unit : string) :
  In (k, unit) [(10, "KB"); (20, "MB"); (30, "GB")]%Z ->
  (200 * 2 ^ (k + 10) - 2 ^ k <= 200 * size)%Z ->
  (size < 2 ^ (k + 10))%Z ->
  Render.format_size size = inr ("1024.00 " ++ unit)%string.
Proof.
  intros Hin Hnear Hlt.
  assert (Hk : (0 <= k)%Z).
  { cbn [In] in Hin. destruct Hin as [[= <- _] | [[= <- _] | [[= <- _] | []]]]; lia. }
  assert (Hd : (0 < 2 ^ k)%Z) by (apply Z.pow_pos_nonneg; lia).
  rewrite Z.pow_add_r in Hnear, Hlt by lia.
  change (2 ^ 10)%Z with 1024%Z in Hnear, Hlt.
  rewrite (format_size_branch size k unit).
  - assert (Hq : (100 * size / 2 ^ k = 102399)%Z).
    { symmetry. apply (Z.div_unique _ _ _ (100 * size - 102399 * 2 ^ k)); lia. }
    assert (Hh : Render.div_half_even (100 * size) (2 ^ k) = 102400%Z).
    { unfold Render.div_half_even.
      pose proof (Z.div_mod (100 * size) (2 ^ k) ltac:(lia)) as Hdm.
      rewrite Hq in *.
      destruct (Z.compare_spec (2 * ((100 * size) mod 2 ^ k)) (2 ^ k));
        [reflexivity | lia | reflexivity]. }
    rewrite Hh. reflexivity.
  - cbn [In] in Hin |- *. tauto.
  - rewrite Z.pow_add_r by lia. change (2 ^ 10)%Z with 1024%Z. lia.
Qed.

Lemma format_size_shows_1024_witness :
  Render.format_size 1048575 = inr "1024.00 KB".
Proof.
  apply (format_size_shows_1024 1048575 10 "KB").
  - left. reflexivity.
  - cbn. lia.
  - cbn. lia.
Defined.

(** The rounding to a double reaches 2^1064 exactly from 2^1064 - 2^1010 on. *)
Lemma nearest_double_overflow (size : Z) :
  (2 ^ 40 <= size)%Z ->
  (2 ^ 1064 <= Render.nearest_double size)%Z
  <-> (2 ^ 1064 - 2 ^ 1010 <= size)%Z.
Proof.
  intros Hsize. change (2 ^ 40)%Z with 1099511627776%Z in Hsize.
  assert (Hpos : (0 < size)%Z) by lia.
  destruct (Z.log2_spec size Hpos) as [Hlo Hhi].
  assert (E1 : (2 ^ 1064 = 2 ^ 54 * 2 ^ 1010)%Z) by (rewrite <- Z.pow_add_r by lia; reflexivity).
  assert (E2 : (2 ^ 1063 = 2 ^ 53 * 2 ^ 1010)%Z) by (rewrite <- Z.pow_add_r by lia; reflexivity).
  assert (E3 : (2 ^ 1011 = 2 * 2 ^ 1010)%Z) by (rewrite <- (Z.pow_succ_r 2 1010) by lia; reflexivity).
  assert (HB : (0 < 2 ^ 1010)%Z) by (apply Z.pow_pos_nonneg; lia).
  rewrite E1. set (B := (2 ^ 1010)%Z) in *.
  change (2 ^ 54)%Z with 18014398509481984%Z in *.
  change (2 ^ 53)%Z with 9007199254740992%Z in *.
  unfold Render.nearest_double. set (L := Z.log2 size) in *.
  destruct (Z.leb_spec (L - 52) 0) as [Hsmall | Hbig].
  - assert (Hle : (2 ^ Z.succ L <= 2 ^ 53)%Z) by (apply Z.pow_le_mono_r; lia).
    change (2 ^ 53)%Z with 9007199254740992%Z in Hle. split; intros; lia.
  - set (P := (2 ^ (L - 52))%Z) in *.
    assert (HP : (0 < P)%Z) by (apply Z.pow_pos_nonneg; lia).
    assert (HL : (2 ^ L = 4503599627370496 * P)%Z).
    { unfold P. change 4503599627370496%Z with (2 ^ 52)%Z.
      rewrite <- Z.pow_add_r by lia. f_equal. lia. }
    assert (HL1 : (2 ^ Z.succ L = 9007199254740992 * P)%Z).
    { rewrite Z.pow_succ_r by lia. lia. }
    pose proof (Z.div_mod size P ltac:(lia)) as Hdm.
    pose proof (Z.mod_pos_bound size P HP) as Hr.
    assert (Hq1 : (4503599627370496 <= size / P)%Z) by (apply Z.div_le_lower_bound; lia).
    assert (Hq2 : (size / P < 9007199254740992)%Z) by (apply Z.div_lt_upper_bound; lia).
    destruct (div_half_even_nearest size P HP) as (_ & Hh1 & Hh2).
    destruct (Z.lt_trichotomy L 1063) as [Hlt | [Heq | Hgt]].
    + assert (Hle : (2 ^ Z.succ L <= 2 ^ 1063)%Z) by (apply Z.pow_le_mono_r; lia).
      rewrite E2 in Hle.
      split; intros; nia.
    + assert (HPB : P = (2 * B)%Z).
      { unfold P. rewrite Heq. change (1063 - 52)%Z with 1011%Z. exact E3. }
      clearbody P. subst P.
      unfold Render.div_half_even in *.
      destruct (Z.compare_spec (2 * (size mod (2 * B))) (2 * B)) as [Ht | Hl | Hg].
      * destruct (Z.even (size / (2 * B))) eqn:Hev.
        -- assert (size / (2 * B) <> 9007199254740991)%Z.
           { intros Hq. rewrite Hq in Hev. discriminate. }
           split; intros; nia.
        -- split; intros; nia.
      * split; intros; nia.
      * split; intros; nia.
    + assert (Hle : (2 ^ 1064 <= 2 ^ L)%Z) by (apply Z.pow_le_mono_r; lia).
      rewrite E1 in Hle. change (2 ^ 54)%Z with 18014398509481984%Z in Hle.
      fold B in Hle.
      split; intros; nia.
Qed.

Lemma format_size_fails_iff (size : Z) :
  Render.format_size size = inl Render.OverflowError
  <-> (2 ^ 1064 - 2 ^ 1010 <= size)%Z.
Proof.
  assert (HT : (2 ^ 40 <= 2 ^ 1064 - 2 ^ 1010)%Z).
  { assert (E : (2 ^ 1064 = 2 ^ 54 * 2 ^ 1010)%Z)
      by (rewrite <- Z.pow_add_r by lia; reflexivity).
    assert (HB : (0 < 2 ^ 1010)%Z) by (apply Z.pow_pos_nonneg; lia).
    rewrite E. set (B := (2 ^ 1010)%Z) in *.
    change (2 ^ 54)%Z with 18014398509481984%Z.
    change (2 ^ 40)%Z with 1099511627776%Z. lia. }
  unfold Render.format_size.
  destruct (Z.leb_spec (2 ^ 40) size) as [Hbig | Hsmall].
  - rewrite <- (nearest_double_overflow size Hbig).
    unfold Render.with_unit, Render.ratio_text.
    change (1024 + 40)%Z with 1064%Z.
    destruct (Z.leb_spec (2 ^ 1064) (Render.nearest_double size)).
    + tauto.
    + split; [discriminate | lia].
  - assert (Hno : forall k unit,
               (0 <= k <= 40)%Z -> (2 ^ 10 <= size)%Z ->
               Render.with_unit (Render.ratio_text size k) unit
               <> inl Render.OverflowError).
    { intros k unit Hk Hsize. rewrite ratio_text_small; [discriminate | | exact Hk].
      change (2 ^ 10)%Z with 1024%Z in Hsize.
      change (2 ^ 40)%Z with 1099511627776%Z in Hsmall.
      change (2 ^ 53)%Z with 9007199254740992%Z. lia. }
    assert (H30 : (2 ^ 10 <= 2 ^ 30)%Z) by (apply Z.pow_le_mono_r; lia).
    assert (H20 : (2 ^ 10 <= 2 ^ 20)%Z) by (apply Z.pow_le_mono_r; lia).
    split; [| lia].
    repeat match goal with
           | |- context [(?a <=? size)%Z] => destruct (Z.leb_spec a size)
           end;
      intros Hf;
      first [ exfalso; revert Hf; apply Hno; lia
            | unfold Render.with_unit, Render.str in Hf;
              destruct (Render.digit_limit <=? Z.abs size)%Z; discriminate ].
Qed.

Lemma digit_limit_large : (2 ^ 53 <= Render.digit_limit)%Z.
Proof.
  unfold Render.digit_limit. change (Z.of_nat PyStr.max_str_digits) with 4300%Z.
  transitivity (10 ^ 53)%Z; [| apply Z.pow_le_mono_r; lia].
  apply Z.pow_le_mono_l. lia.
Qed.

Lemma format_size_digit_limit_iff (size : Z) :
  Render.format_size size = inl Render.DigitLimitError
  <-> (size <= - Render.digit_limit)%Z.
Proof.
  pose proof digit_limit_large as Hbig.
  change (2 ^ 53)%Z with 9007199254740992%Z in Hbig.
  assert (Hratio : forall k unit,
             Render.with_unit (Render.ratio_text size k) unit
             <> inl Render.DigitLimitError).
  { intros k unit. unfold Render.with_unit, Render.ratio_text.
    destruct (2 ^ (1024 + k) <=? Render.nearest_double size)%Z; discriminate. }
  unfold Render.format_size.
  destruct (Z.leb_spec (2 ^ 40) size) as [H40 | H40];
    [change (2 ^ 40)%Z with 1099511627776%Z in H40;
     split; [intros Hf; now apply Hratio in Hf | lia] |].
  destruct (Z.leb_spec (2 ^ 30) size) as [H30 | H30];
    [change (2 ^ 30)%Z with 1073741824%Z in H30;
     split; [intros Hf; now apply Hratio in Hf | lia] |].
  destruct (Z.leb_spec (2 ^ 20) size) as [H20 | H20];
    [change (2 ^ 20)%Z with 1048576%Z in H20;
     split; [intros Hf; now apply Hratio in Hf | lia] |].
  destruct (Z.leb_spec (2 ^ 10) size) as [H10 | H10];
    [change (2 ^ 10)%Z with 1024%Z in H10;
     split; [intros Hf; now apply Hratio in Hf | lia] |].
  change (2 ^ 10)%Z with 1024%Z in H10.
  unfold Render.with_unit, Render.str.
  destruct (Z.leb_spec Render.digit_limit (Z.abs size)) as [Hd | Hd].
  - split; [lia | reflexivity].
  - split; [discriminate | lia].
Qed.

Lemma format_size_no_KeyError (size : Z) (k : string) :
  Render.format_size size <> inl (Render.KeyError k).
Proof.
  unfold Render.format_size, Render.with_unit, Render.ratio_text, Render.str.
  repeat match goal with
         | |- context [(?a <=? ?b)%Z] => destruct (Z.leb_spec a b)
         end; discriminate.
Qed.

Lemma format_size_returns (size : Z) :
  displayable size -> exists text, Render.format_size size = inr text.
Proof.
  intros [Hlo Hhi]. destruct (Render.format_size size) as [[k | |] | text] eqn:E.
  - now destruct (format_size_no_KeyError size k).
  - apply format_size_fails_iff in E. lia.
  - apply format_size_digit_limit_iff in E. lia.
  - now exists text.
Qed.

Lemma displayable_small (size : Z) :
  (- 2 ^ 53 < size < 2 ^ 53)%Z -> displayable size.
Proof.
  intros Hs. pose proof digit_limit_large as Hbig.
  assert (HT : (2 ^ 53 <= 2 ^ 1064 - 2 ^ 1010)%Z).
  { assert (E : (2 ^ 1064 = 2 ^ 54 * 2 ^ 1010)%Z)
      by (rewrite <- Z.pow_add_r by lia; reflexivity).
    assert (HB : (0 < 2 ^ 1010)%Z) by (apply Z.pow_pos_nonneg; lia).
    rewrite E. set (B := (2 ^ 1010)%Z) in *.
    change (2 ^ 54)%Z with 18014398509481984%Z.
    change (2 ^ 53)%Z with 9007199254740992%Z. lia. }
  unfold displayable. lia.
Qed.

(** X12: [format_size] raises [OverflowError] exactly for the sizes from
    2^1064 - 2^1010 on, where the division by 2^40 no longer fits a
    double; it raises the [ValueError] of the digit limit exactly for the
    sizes down from -10^4300, which it cannot write; for every size
    between the two, zero and negative ones included, it returns a text;
    and it raises nothing else. *)
Theorem format_size_overflow (size : Z) :
  (Render.format_size size = inl Render.OverflowError
   <-> (2 ^ 1064 - 2 ^ 1010 <= size)%Z)
  /\ (Render.format_size size = inl Render.DigitLimitError
      <-> (size <= - 10 ^ 4300)%Z)
  /\ ((- 10 ^ 4300 < size < 2 ^ 1064 - 2 ^ 1010)%Z ->
      exists text, Render.format_size size = inr text)
  /\ (forall k, Render.format_size size <> inl (Render.KeyError k)).
Proof.
  split; [apply format_size_fails_iff |].
  split; [apply format_size_digit_limit_iff |].
  split; [apply format_size_returns | apply format_size_no_KeyError].
Qed.

Lemma format_size_overflow_witness :
  exists text, Render.format_size (-5) = inr text.
Proof.
  apply (proj1 (proj2 (proj2 (format_size_overflow (-5))))).
  apply (displayable_small (-5)). cbn. lia.
Defined.

(** ** The order of the console tables *)

Lemma leb_iff (a b : string) :
  String.leb a b = true <-> a = b \/ String_as_OT.lt a b.
Proof.
  unfold String.leb. destruct (String.compare a b) eqn:E.
  - apply String_as_OT.cmp_eq in E. tauto.
  - apply String_as_OT.cmp_lt in E. tauto.
  - split; [discriminate |]. intros [Heq | Hlt].
    + apply String_as_OT.cmp_eq in Heq. unfold String_as_OT.cmp in Heq. congruence.
    + apply String_as_OT.cmp_lt in Hlt. unfold String_as_OT.cmp in Hlt. congruence.
Qed.

Lemma leb_trans (a b c : string) :
  String.leb a b = true -> String.leb b c = true -> String.leb a c = true.
Proof.
  rewrite !leb_iff. intros [-> | Hab] [-> | Hbc]; auto.
  right. exact (String_as_OT.lt_trans _ _ _ Hab Hbc).
Qed.

Lemma insert_Permutation (k : string) (l : list string) :
  Permutation (Render.insert k l) (k :: l).
Proof.
  induction l as [| x l IH]; cbn; [reflexivity |].
  destruct (String.leb k x); [reflexivity |].
  rewrite IH. apply perm_swap.
Qed.

Lemma insert_sorted (k : string) (l : list string) :
  StronglySorted (fun a b => String.leb a b = true) l ->
  StronglySorted (fun a b => String.leb a b = true) (Render.insert k l).
Proof.
  induction l as [| x l IH]; intros Hs; cbn.
  - repeat constructor.
  - apply StronglySorted_inv in Hs. destruct Hs as [Hs Hx].
    destruct (String.leb k x) eqn:Hkx.
    + constructor; [constructor; assumption |].
      constructor; [exact Hkx |].
      rewrite Forall_forall in Hx |- *. intros y Hy.
      exact (leb_trans _ _ _ Hkx (Hx y Hy)).
    + constructor; [now apply IH |].
      rewrite Forall_forall in Hx |- *. intros y Hy.
      apply (Permutation_in _ (insert_Permutation k l)) in Hy.
      destruct Hy as [<- | Hy]; [| now apply Hx].
      destruct (String.leb_total x k) as [Hxk | Hkx']; [exact Hxk | congruence].
Qed.

Lemma sorted_spec (l : list string) :
  Permutation (Render.sorted l) l
  /\ StronglySorted (fun a b => String.leb a b = true) (Render.sorted l).
Proof.
  unfold Render.sorted. induction l as [| k l (IHp & IHs)]; cbn [fold_right].
  - split; constructor.
  - split; [| now apply insert_sorted].
    rewrite insert_Permutation. now constructor.
Qed.

Lemma insert_by_size_Permutation (obj : Obj) (l : list Obj) :
  Permutation (Render.insert_by_size obj l) (obj :: l).
Proof.
  induction l as [| x l IH]; cbn; [reflexivity |].
  destruct (size x <=? size obj)%Z; [reflexivity |].
  rewrite IH. apply perm_swap.
Qed.

Lemma insert_by_size_sorted (obj : Obj) (l : list Obj) :
  StronglySorted (fun a b => (size b <= size a)%Z) l ->
  StronglySorted (fun a b => (size b <= size a)%Z) (Render.insert_by_size obj l).
Proof.
  induction l as [| x l IH]; intros Hs; cbn.
  - repeat constructor.
  - apply StronglySorted_inv in Hs. destruct Hs as [Hs Hx].
    destruct (Z.leb_spec (size x) (size obj)) as [Hle | Hgt].
    + constructor; [constructor; assumption |].
      constructor; [exact Hle |].
      rewrite Forall_forall in Hx |- *. intros y Hy. specialize (Hx y Hy). lia.
    + constructor; [now apply IH |].
      rewrite Forall_forall in Hx |- *. intros y Hy.
      apply (Permutation_in _ (insert_by_size_Permutation obj l)) in Hy.
      destruct Hy as [<- | Hy]; [lia | now apply Hx].
Qed.

(** Inserting a file leaves the files of every size in their order, the
    new file ahead of those of its own size. *)
Lemma insert_by_size_stable (obj : Obj) (l : list Obj) (n : Z) :
  filter (fun f => (size f =? n)%Z) (Render.insert_by_size obj l)
  = filter (fun f => (size f =? n)%Z) (obj :: l).
Proof.
  induction l as [| x l IH]; cbn [Render.insert_by_size]; [reflexivity |].
  destruct (Z.leb_spec (size x) (size obj)) as [Hle | Hgt]; [reflexivity |].
  cbn [filter] in IH |- *. rewrite IH.
  destruct (Z.eqb_spec (size obj) n) as [Ho | Ho]; [| reflexivity].
  destruct (Z.eqb_spec (size x) n) as [Hx | Hx]; [lia | reflexivity].
Qed.

Lemma sorted_by_size_spec (files : list Obj) :
  Permutation (Render.sorted_by_size files) files
  /\ StronglySorted (fun a b => (size b <= size a)%Z) (Render.sorted_by_size files)
  /\ forall n, filter (fun f => (size f =? n)%Z) (Render.sorted_by_size files)
               = filter (fun f => (size f =? n)%Z) files.
Proof.
  unfold Render.sorted_by_size.
  induction files as [| obj files (IHp & IHs & IHf)]; cbn [fold_right].
  - repeat split; constructor.
  - split; [rewrite insert_by_size_Permutation; now constructor |].
    split; [now apply insert_by_size_sorted |].
    intros n. rewrite insert_by_size_stable. cbn [filter]. now rewrite IHf.
Qed.

Lemma for_each_lines {A : Type} (body : A -> Render.Out unit) (line : A -> string)
      (l : list A) :
  (forall x, In x l -> body x = ([line x], inr tt)) ->
  Render.for_each l body = (map line l, inr tt).
Proof.
  induction l as [| x l IH]; intros Hbody; cbn [Render.for_each map].
  - reflexivity.
  - rewrite (Hbody x (or_introl eq_refl)). unfold Render.and_then.
    rewrite IH; [reflexivity |]. intros y Hy. apply Hbody. now right.
Qed.

Lemma for_each_cons {A : Type} (body : A -> Render.Out unit) (x : A) (l : list A) :
  Render.for_each (x :: l) body
  = Render.and_then (body x) (fun _ => Render.for_each l body).
Proof. reflexivity. Qed.

Lemma for_each_ext {A : Type} (body body' : A -> Render.Out unit) (l : list A) :
  (forall x, body x = body' x) ->
  Render.for_each l body = Render.for_each l body'.
Proof.
  intros Hext. induction l as [| x l IH]; cbn [Render.for_each]; [reflexivity |].
  now rewrite Hext, IH.
Qed.

Lemma dict_get_map_values {A B : Type} (g : A -> B) (k : string) (d : dict A) :
  dict_get k (map (fun entry => (fst entry, g (snd entry))) d)
  = option_map g (dict_get k d).
Proof.
  induction d as [| [k' v] d IH]; cbn; [reflexivity |].
  destruct (String.eqb k' k); [reflexivity | exact IH].
Qed.

(** The perm found under [folder], for a folder of the dictionary. *)
Lemma dict_get_of_key {A : Type} (k : string) (d : dict A) :
  In k (keys d) -> exists v, dict_get k d = Some v.
Proof.
  intros Hin. destruct (dict_get k d) as [v |] eqn:E; [now exists v |].
  apply dict_get_None in E. contradiction.
Qed.

Lemma print_folder_permissions_table (perms : dict Perm) :
  exists rows : list (string * Perm),
    Render.print_folder_permissions perms
    = ([ (nl ++ "Permissions on bucket")%string;
         "---------------------";
         "Folder                                   Permission     ";
         "------------------------------------------------------------" ]
       ++ map (fun row => Render.permission_row (fst row) (snd row)) rows,
       inr tt)
    /\ Permutation (map fst rows) (keys perms)
    /\ StronglySorted (fun a b => String.leb a b = true) (map fst rows)
    /\ Forall (fun row => dict_get (fst row) perms = Some (snd row)) rows.
Proof.
  destruct (sorted_spec (keys perms)) as (Hperm & Hsorted).
  assert (Hrows : forall ks, (forall k, In k ks -> In k (keys perms)) ->
            exists rows : list (string * Perm),
              map fst rows = ks
              /\ Forall (fun row => dict_get (fst row) perms = Some (snd row)) rows
              /\ Render.for_each ks
                   (fun folder =>
                      Render.and_then (Render.lookup folder perms)
                        (fun perm => Render.say (Render.permission_row folder perm)))
                 = (map (fun row => Render.permission_row (fst row) (snd row)) rows,
                    inr tt)).
  { induction ks as [| k ks IH]; intros Hin.
    - exists []. repeat split; constructor.
    - destruct (dict_get_of_key k perms (Hin k (or_introl eq_refl))) as (v & Hv).
      destruct (IH (fun k' Hk' => Hin k' (or_intror Hk'))) as (rows & Hks & Hall & Hrun).
      exists ((k, v) :: rows). split; [cbn; now rewrite Hks |].
      split; [constructor; assumption |].
      rewrite for_each_cons, Hrun. unfold Render.lookup. rewrite Hv.
      reflexivity. }
  destruct (Hrows (Render.sorted (keys perms))) as (rows & Hks & Hall & Hrun).
  { intros k Hk. exact (Permutation_in _ Hperm Hk). }
  exists rows. rewrite Hks. repeat split; try assumption.
  unfold Render.print_folder_permissions. rewrite Hrun. reflexivity.
Qed.

(** X13: [print_folder_permissions] never fails; after its four header
    lines it prints one row per folder of the dictionary, in ascending
    order of the folder names whatever the order of the dictionary, each
    row made from the folder and the permissions stored under it. *)
Theorem print_folder_permissions_rows (perms : dict Perm) :
  exists rows : list (string * Perm),
    Render.print_folder_permissions perms
    = ([ (nl ++ "Permissions on bucket")%string;
         "---------------------";
         "Folder                                   Permission     ";
         "------------------------------------------------------------" ]
       ++ map (fun row => Render.permission_row (fst row) (snd row)) rows,
       inr tt)
    /\ Permutation (map fst rows) (keys perms)
    /\ StronglySorted (fun a b => String.leb a b = true) (map fst rows)
    /\ Forall (fun row => dict_get (fst row) perms = Some (snd row)) rows.
Proof. exact (print_folder_permissions_table perms). Qed.

(** X14: the table of [print_folder_permissions] does not show the read
    flags: two dictionaries with the same folders and the same write
    flags print the same table, so a folder that could not be read is
    shown as "Read" like one that could. *)
Theorem print_folder_permissions_ignores_read (perms perms' : dict Perm) :
  map (fun entry => (fst entry, write (snd entry))) perms
  = map (fun entry => (fst entry, write (snd entry))) perms' ->
  Render.print_folder_permissions perms = Render.print_folder_permissions perms'.
Proof.
  intros Hsame.
  assert (Hkeys : keys perms = keys perms').
  { unfold keys. pose proof (f_equal (map fst) Hsame) as Hk.
    rewrite !map_map in Hk. cbn [fst] in Hk. exact Hk. }
  unfold Render.print_folder_permissions. rewrite Hkeys.
  rewrite (for_each_ext
             (fun folder =>
                Render.and_then (Render.lookup folder perms)
                  (fun perm => Render.say (Render.permission_row folder perm)))
             (fun folder =>
                Render.and_then (Render.lookup folder perms')
                  (fun perm => Render.say (Render.permission_row folder perm))));
    [reflexivity |].
  intros folder. unfold Render.lookup.
  pose proof (dict_get_map_values write folder perms) as Hg.
  pose proof (dict_get_map_values write folder perms') as Hg'.
  rewrite Hsame, Hg' in Hg.
  destruct (dict_get folder perms) as [[rd wr] |],
           (dict_get folder perms') as [[rd' wr'] |]; cbn in Hg; try discriminate.
  - injection Hg as <-. reflexivity.
  - reflexivity.
Qed.

Lemma print_folder_permissions_ignores_read_witness :
  Render.print_folder_permissions
    [("docs", mkPerm false false); ("logs", mkPerm false true)]
  = Render.print_folder_permissions
      [("docs", mkPerm true false); ("logs", mkPerm true true)].
Proof.
  apply (print_folder_permissions_ignores_read
           [("docs", mkPerm false false); ("logs", mkPerm false true)]
           [("docs", mkPerm true false); ("logs", mkPerm true true)]).
  reflexivity.
Defined.

Example print_folder_permissions_unreadable :
  Render.print_folder_permissions [("docs", mkPerm false false)]
  = ([ (nl ++ "Permissions on bucket")%string;
       "---------------------";
       "Folder                                   Permission     ";
       "------------------------------------------------------------";
       ("docs                                     " ++ Render.COLOR_GREEN
        ++ "Read           " ++ Render.COLOR_RESET)%string ],
     inr tt).
Proof. reflexivity. Qed.

Lemma print_files_lines (files : list Obj) :
  Forall (fun file => displayable (size file)) files ->
  exists lines,
    Render.for_each files Render.print_file = (lines, inr tt)
    /\ Forall2 file_line files lines.
Proof.
  induction files as [| file files IH]; intros Hall.
  - exists []. split; [reflexivity | constructor].
  - inversion Hall as [| ? ? Hfile Hrest]; subst.
    destruct (IH Hrest) as (lines & Hrun & Hlines).
    destruct (format_size_returns (size file) Hfile) as (text & Htext).
    eexists (_ :: lines). split.
    + rewrite for_each_cons, Hrun. unfold Render.print_file. rewrite Htext.
      reflexivity.
    + constructor; [| exact Hlines]. exists text. split; [exact Htext | reflexivity].
Qed.

Lemma print_folder_section (grouped : dict (list Obj)) (folder : string)
      (files : list Obj) :
  dict_get folder grouped = Some files ->
  Forall (fun file => displayable (size file)) files ->
  exists lines,
    Render.print_folder grouped folder = (section_lines (folder, lines), inr tt)
    /\ Forall2 file_line (Render.sorted_by_size files) lines.
Proof.
  intros Hget Hall.
  destruct (sorted_by_size_spec files) as (Hperm & _).
  destruct (print_files_lines (Render.sorted_by_size files)) as (lines & Hrun & Hlines).
  { exact (Permutation_Forall (Permutation_sym Hperm) Hall). }
  exists lines. split; [| exact Hlines].
  unfold Render.print_folder, Render.lookup. rewrite Hget.
  unfold Render.and_then at 3. unfold Render.done. rewrite Hrun. reflexivity.
Qed.

(** X15: in the section of a folder, after the folder's name and a line
    of dashes, [print_grouped_files] lists every file of the folder once,
    the largest first, files of equal size in the order of the listing,
    each on one line with the text [format_size] gives for its size;
    this for sizes between -10^4300 and 2^1064 - 2^1010, where that text
    exists. *)
Theorem print_folder_lists_largest_first
        (grouped : dict (list Obj)) (folder : string) (files : list Obj) :
  dict_get folder grouped = Some files ->
  Forall (fun file => (- 10 ^ 4300 < size file < 2 ^ 1064 - 2 ^ 1010)%Z) files ->
  exists ordered lines,
    Render.print_folder grouped folder = (section_lines (folder, lines), inr tt)
    /\ Forall2 file_line ordered lines
    /\ Permutation ordered files
    /\ StronglySorted (fun a b => (size b <= size a)%Z) ordered
    /\ forall n, filter (fun f => (size f =? n)%Z) ordered
                 = filter (fun f => (size f =? n)%Z) files.
Proof.
  intros Hget Hall.
  destruct (print_folder_section grouped folder files Hget Hall) as (lines & Hrun & Hlines).
  destruct (sorted_by_size_spec files) as (Hperm & Hsorted & Hstable).
  exists (Render.sorted_by_size files), lines. repeat split; assumption.
Qed.

Lemma print_grouped_files_table (grouped : dict (list Obj)) :
  Forall (fun entry =>
            Forall (fun file => displayable (size file)) (snd entry))
         grouped ->
  exists sections : list (string * list string),
    Render.print_grouped_files grouped
    = ([ (nl ++ "Available Bucket files")%string;
         "-------------------------------" ]
       ++ concat (map section_lines sections), inr tt)
    /\ Permutation (map fst sections) (keys grouped)
    /\ StronglySorted (fun a b => String.leb a b = true) (map fst sections)
    /\ Forall (fun section =>
                 exists files,
                   dict_get (fst section) grouped = Some files
                   /\ Forall2 file_line (Render.sorted_by_size files) (snd section))
              sections.
Proof.
  intros Hall.
  destruct (sorted_spec (keys grouped)) as (Hperm & Hsorted).
  assert (Hsec : forall ks, (forall k, In k ks -> In k (keys grouped)) ->
            exists sections : list (string * list string),
              map fst sections = ks
              /\ Forall (fun section =>
                           exists files,
                             dict_get (fst section) grouped = Some files
                             /\ Forall2 file_line (Render.sorted_by_size files)
                                        (snd section)) sections
              /\ Render.for_each ks (Render.print_folder grouped)
                 = (concat (map section_lines sections), inr tt)).
  { induction ks as [| k ks IH]; intros Hin.
    - exists []. repeat split; constructor.
    - destruct (dict_get_of_key k grouped (Hin k (or_introl eq_refl))) as (files & Hget).
      assert (Hfiles : Forall (fun file => displayable (size file)) files).
      { rewrite Forall_forall in Hall.
        exact (Hall (k, files) (dict_get_In k files grouped Hget)). }
      destruct (print_folder_section grouped k files Hget Hfiles)
        as (lines & Hrun & Hlines).
      destruct (IH (fun k' Hk' => Hin k' (or_intror Hk'))) as (sections & Hks & Hs & Hrest).
      exists ((k, lines) :: sections). split; [cbn; now rewrite Hks |].
      split; [constructor; [now exists files | exact Hs] |].
      rewrite for_each_cons, Hrun, Hrest. reflexivity. }
  destruct (Hsec (Render.sorted (keys grouped))) as (sections & Hks & Hs & Hrun).
  { intros k Hk. exact (Permutation_in _ Hperm Hk). }
  exists sections. rewrite Hks. repeat split; try assumption.
  unfold Render.print_grouped_files. rewrite Hrun. reflexivity.
Qed.

(** X16: [print_grouped_files], for sizes between -10^4300 and
    2^1064 - 2^1010, never fails; after its two header lines it prints one
    section per folder of
    the grouping, in ascending order of the folder names, each holding the
    lines of the folder's files, largest first. *)
Theorem print_grouped_files_sections (grouped : dict (list Obj)) :
  Forall (fun entry =>
            Forall (fun file => (- 10 ^ 4300 < size file < 2 ^ 1064 - 2 ^ 1010)%Z) (snd entry))
         grouped ->
  exists sections : list (string * list string),
    Render.print_grouped_files grouped
    = ([ (nl ++ "Available Bucket files")%string;
         "-------------------------------" ]
       ++ concat (map section_lines sections), inr tt)
    /\ Permutation (map fst sections) (keys grouped)
    /\ StronglySorted (fun a b => String.leb a b = true) (map fst sections)
    /\ Forall (fun section =>
                 exists files,
                   dict_get (fst section) grouped = Some files
                   /\ Forall2 file_line (Render.sorted_by_size files) (snd section))
              sections.
Proof. exact (print_grouped_files_table grouped). Qed.

Lemma print_folder_lists_largest_first_witness :
  exists ordered lines,
    Render.print_folder Stub.grouped_scenario "docs"
    = (section_lines ("docs", lines), inr tt)
    /\ Forall2 file_line ordered lines
    /\ Permutation ordered [Stub.docs_a; Stub.docs_z; Stub.docs_b]
    /\ StronglySorted (fun a b => (size b <= size a)%Z) ordered
    /\ forall n, filter (fun f => (size f =? n)%Z) ordered
                 = filter (fun f => (size f =? n)%Z)
                          [Stub.docs_a; Stub.docs_z; Stub.docs_b].
Proof.
  apply (print_folder_lists_largest_first Stub.grouped_scenario "docs"
           [Stub.docs_a; Stub.docs_z; Stub.docs_b]).
  - reflexivity.
  - repeat constructor.
Defined.

Example print_folder_docs :
  fst (Render.print_folder Stub.grouped_scenario "docs")
  = section_lines
      ("docs",
       [ ("    " ++ Render.COLOR_GREEN ++ "   900 bytes - docs/b.txt"
          ++ Render.COLOR_RESET)%string;
         ("    " ++ Render.COLOR_GREEN ++ "   500 bytes - docs/a.txt"
          ++ Render.COLOR_RESET)%string;
         ("    " ++ Render.COLOR_GREEN ++ "   500 bytes - docs/z.txt"
          ++ Render.COLOR_RESET)%string ]).
Proof. reflexivity. Qed.

Lemma print_grouped_files_sections_witness :
  exists sections : list (string * list string),
    Render.print_grouped_files Stub.grouped_scenario
    = ([ (nl ++ "Available Bucket files")%string;
         "-------------------------------" ]
       ++ concat (map section_lines sections), inr tt)
    /\ Permutation (map fst sections) ["docs"; "public"; "logs"]
    /\ StronglySorted (fun a b => String.leb a b = true) (map fst sections)
    /\ Forall (fun section =>
                 exists files,
                   dict_get (fst section) Stub.grouped_scenario = Some files
                   /\ Forall2 file_line (Render.sorted_by_size files) (snd section))
              sections.
Proof.
  apply (print_grouped_files_sections Stub.grouped_scenario).
  repeat constructor.
Defined.

(** The lower bound is needed: a size of -10^4300, below every size of
    the overflow, has no text, and the section of its folder stops after
    the two lines that open it. *)
Example print_folder_stops_at_the_digit_limit :
  Render.print_folder
       [("docs", [mkObj "2025-03-27" "15:48:38" (- 10 ^ 4300) "docs/a.txt"])] "docs"
     = (section_lines ("docs", []), inl Render.DigitLimitError)
  /\ Render.print_grouped_files
       [("docs", [mkObj "2025-03-27" "15:48:38" (- 10 ^ 4300) "docs/a.txt"])]
     = ([ (nl ++ "Available Bucket files")%string;
          "-------------------------------" ]
        ++ section_lines ("docs", []), inl Render.DigitLimitError).
Proof. split; vm_compute; reflexivity. Qed.

(** ** A malformed size and the run; the folder of a key *)

Section Abort.

Context {World : Type} (H : host World).

(** X17: when the listing comes back with nothing on the error stream
    and one of its lines has four fields or more without an integer
    literal as the third, [main] ends with [ValueError] for the first such
    line right after the listing command: no probe is run, nothing more is
    printed and no report is made, whatever the other lines hold. *)
Theorem main_with_region_aborts_on_malformed_size
        (bucket_name region timestamp stdout line : string)
        (s s1 s2 : state World) :
  after_timestamp H s = (timestamp, s1) ->
  run_command H (list_cmd bucket_name region) s1 = (Return (stdout, ""), s2) ->
  find (fun l => negb (well_sized l)) (listing_lines stdout) = Some line ->
  main_with_region H bucket_name region s
  = (Raise (ValueError (size_field line)), s2)
  /\ commands (trace s2) = commands (trace s) ++ [list_cmd bucket_name region].
Proof.
  intros Hts Hrun Hbad. split.
  - rewrite main_with_region_unfold, Hts. unfold bind at 1.
    unfold list_s3_objects, bind. rewrite Hrun. cbn [PyStr.nonempty].
    unfold lift. now rewrite parse_lines_outcome, Hbad.
  - destruct (run_command_returns H (list_cmd bucket_name region) s1)
      as (o & e & w & Hrun').
    rewrite Hrun in Hrun'. injection Hrun' as _ _ ->.
    unfold after_timestamp in Hts. destruct (now H (world s)) as [ts w0].
    injection Hts as _ <-. cbn [trace].
    rewrite !commands_app. cbn [commands]. now rewrite app_nil_r.
Qed.

End Abort.

Lemma main_with_region_aborts_on_malformed_size_witness :
  main_with_region Stub.host "b" "us-east-1" Stub.bad_size_listing
  = (Raise (ValueError "n/a"),
     snd (run_command Stub.host (list_cmd "b" "us-east-1")
            (snd (after_timestamp Stub.host Stub.bad_size_listing))))
  /\ commands (trace (snd (run_command Stub.host (list_cmd "b" "us-east-1")
                            (snd (after_timestamp Stub.host Stub.bad_size_listing)))))
     = commands (trace Stub.bad_size_listing) ++ [list_cmd "b" "us-east-1"].
Proof.
  apply (main_with_region_aborts_on_malformed_size
           Stub.host "b" "us-east-1" Stub.stamp (PyStr.strip Stub.bad_size_lines)
           "2025-03-27 15:48:39        n/a docs/b.txt"
           Stub.bad_size_listing
           (snd (after_timestamp Stub.host Stub.bad_size_listing)));
    reflexivity.
Defined.

Lemma folder_of_key_split (k : string) :
  exists rest : string,
    k = (folder_of_key k ++ rest)%string
    /\ (rest = "" \/ exists r, rest = String "/" r)
    /\ forall pre post : string, folder_of_key k <> (pre ++ String "/" post)%string.
Proof.
  unfold folder_of_key, PyStr.split_on.
  destruct (split_on_from_head "/" k "") as (head & rest & Hnth & Hs & Hrest & Hno).
  cbn [append] in Hnth. rewrite Hnth. now exists rest.
Qed.

(** X18: the top-level folder of a key is the key itself exactly when
    the key has no '/', so an object at the root of the bucket is a folder
    of its own; it is the empty name exactly when the key is empty or
    starts with '/'; and a folder name is its own folder. *)
Theorem folder_of_key_cases (k : string) :
  (folder_of_key k = k
   <-> forall pre post : string, k <> (pre ++ String "/" post)%string)
  /\ (folder_of_key k = "" <-> k = "" \/ exists r, k = String "/" r)
  /\ folder_of_key (folder_of_key k) = folder_of_key k.
Proof.
  assert (Hown : forall key' : string,
             (forall pre post : string, key' <> (pre ++ String "/" post)%string) ->
             folder_of_key key' = key').
  { intros key' Hno.
    destruct (folder_of_key_split key') as (rest & Hk & [-> | (r & ->)] & _).
    - rewrite append_empty_r in Hk. now symmetry.
    - exfalso. exact (Hno _ _ Hk). }
  destruct (folder_of_key_split k) as (rest & Hk & Hrest & Hno).
  split; [| split].
  - split; [| apply Hown].
    intros Heq. now rewrite <- Heq.
  - split.
    + intros He. rewrite He in Hk. cbn [append] in Hk. rewrite Hk.
      destruct Hrest as [-> | (r & ->)]; [now left | right; now exists r].
    + intros [-> | (r & ->)]; reflexivity.
  - now apply Hown.
Qed.

(** ** From the probes to the report *)

Lemma for_each_silent {A : Type} (body : A -> Render.Out unit) (l : list A) :
  (forall x, In x l -> body x = ([], inr tt)) ->
  Render.for_each l body = ([], inr tt).
Proof.
  induction l as [| x l IH]; intros Hbody; [reflexivity |].
  rewrite for_each_cons, (Hbody x (or_introl eq_refl)). unfold Render.and_then.
  rewrite IH; [reflexivity |]. intros y Hy. apply Hbody. now right.
Qed.

(** Building the page raises nothing when every size has a text. *)
Lemma html_content_silent (total : Z) (perms : dict Perm) (grouped : dict (list Obj)) :
  displayable total ->
  Forall (fun entry => Forall (fun file => displayable (size file)) (snd entry))
         grouped ->
  Render.html_content total perms grouped = ([], inr tt).
Proof.
  intros Htotal Hall. unfold Render.html_content.
  destruct (format_size_returns total Htotal) as (text & ->).
  rewrite (for_each_silent
             (fun folder =>
                Render.and_then (Render.lookup folder perms)
                  (fun _ => Render.done tt))).
  - rewrite for_each_silent; [reflexivity |].
    intros folder Hin.
    apply (Permutation_in _ (proj1 (sorted_spec (keys grouped)))) in Hin.
    destruct (dict_get_of_key folder grouped Hin) as (files & Hget).
    unfold Render.lookup. rewrite Hget.
    assert (Hfiles : Forall (fun file => displayable (size file)) files).
    { rewrite Forall_forall in Hall.
      exact (Hall (folder, files) (dict_get_In folder files grouped Hget)). }
    unfold Render.and_then at 1, Render.done.
    rewrite for_each_silent; [reflexivity |].
    intros file Hfile.
    apply (Permutation_in _ (proj1 (sorted_by_size_spec files))) in Hfile.
    rewrite Forall_forall in Hfiles.
    destruct (format_size_returns (size file) (Hfiles file Hfile)) as (t & ->).
    reflexivity.
  - intros folder Hin.
    apply (Permutation_in _ (proj1 (sorted_spec (keys perms)))) in Hin.
    destruct (dict_get_of_key folder perms Hin) as (perm & Hget).
    unfold Render.lookup. now rewrite Hget.
Qed.

Lemma commands_Printed (lines : list string) : commands (map Printed lines) = [].
Proof. induction lines as [| l lines IH]; [reflexivity | exact IH]. Qed.

(** After the probes [main] runs no command. *)
Lemma after_probes_commands (report : Report) :
  commands (fst (after_probes report)) = [].
Proof.
  unfold after_probes.
  destruct (snd (Render.print_folder_permissions (folder_permissions report)));
    cbn [fst]; [apply commands_Printed |].
  destruct (Render.format_size (total_size report)); cbn [fst].
  - now rewrite commands_app, commands_Printed.
  - destruct (snd (Render.print_grouped_files (groups report))); cbn [fst].
    + rewrite commands_app, commands_Printed. cbn [commands app].
      apply commands_Printed.
    + destruct (snd (Render.html_content _ _ _)); cbn [fst];
        rewrite !commands_app, !commands_Printed; cbn [commands app];
        rewrite ?commands_app, ?commands_Printed; reflexivity.
Qed.

(** When [main] gets to its report, it is the report it set out with,
    and the two totals have been printed. *)
Lemma after_probes_report (report made : Report) :
  snd (after_probes report) = Return (Some made) ->
  made = report
  /\ exists text,
      Render.format_size (total_size report) = inr text
      /\ In (Printed (nl ++ "Total Files: "
                      ++ Render.str_int (Z.of_nat (total_files report))))
            (fst (after_probes report))
      /\ In (Printed ("Total Size: " ++ text)) (fst (after_probes report)).
Proof.
  unfold after_probes.
  destruct (snd (Render.print_folder_permissions (folder_permissions report)));
    cbn [snd]; [discriminate |].
  destruct (Render.format_size (total_size report)) as [e | text];
    cbn [snd]; [discriminate |].
  destruct (snd (Render.print_grouped_files (groups report)));
    cbn [snd]; [discriminate |].
  destruct (snd (Render.html_content _ _ _)); cbn [snd fst]; [discriminate |].
  intros [= <-]. split; [reflexivity |]. exists text. split; [reflexivity |].
  split; apply in_or_app; left; apply in_or_app; right; cbn [In]; tauto.
Qed.

(** With sizes that all have a text, [main] gets to its report. *)
Lemma after_probes_returns (report : Report) :
  displayable (total_size report) ->
  Forall (fun entry => Forall (fun file => displayable (size file)) (snd entry))
         (groups report) ->
  snd (after_probes report) = Return (Some report).
Proof.
  intros Htotal Hall. unfold after_probes.
  destruct (print_folder_permissions_table (folder_permissions report))
    as (rows & -> & _).
  cbn [snd].
  destruct (format_size_returns _ Htotal) as (text & ->).
  destruct (print_grouped_files_table (groups report) Hall) as (sections & -> & _).
  cbn [snd].
  rewrite (html_content_silent _ (folder_permissions report) _ Htotal Hall).
  reflexivity.
Qed.

(** The objects of a grouping are objects of the listing. *)
Lemma grouped_objects_displayable (objects : list Obj) :
  Forall (fun obj => displayable (size obj)) objects ->
  Forall (fun entry => Forall (fun file => displayable (size file)) (snd entry))
         (group_objects_by_folder objects).
Proof.
  intros Hall.
  destruct (group_objects_by_folder_grouping objects) as (_ & _ & Hperm).
  apply Forall_forall. intros [k files] Hin. apply Forall_forall. intros file Hfile.
  rewrite Forall_forall in Hall. apply Hall.
  apply (Permutation_in _ Hperm). apply in_concat. exists files.
  split; [| exact Hfile]. change files with (snd (k, files)). now apply in_map.
Qed.

Section Finish.

Context {World : Type} (H : host World).

(** [main_with_region] once the folders are probed. *)
Lemma main_with_region_after_probes
      (bucket_name region timestamp : string) (s s1 s2 s3 : state World)
      (objects : list Obj) (perms : dict Perm) :
  after_timestamp H s = (timestamp, s1) ->
  list_s3_objects H bucket_name region s1 = (Return objects, s2) ->
  objects <> [] ->
  probe_folders H bucket_name region (keys (group_objects_by_folder objects)) [] s2
  = (Return perms, s3) ->
  let report := mkReport bucket_name region timestamp (length objects)
                         (sum_sizes objects) perms
                         (group_objects_by_folder objects) in
  main_with_region H bucket_name region s
  = (snd (after_probes report),
     mkState (world s3) (trace s3 ++ fst (after_probes report))).
Proof.
  intros Hts Hlist Hne Hprobe. cbv zeta.
  rewrite main_with_region_unfold, Hts. unfold bind at 1. rewrite Hlist.
  destruct objects as [| obj objects]; [contradiction |].
  cbv zeta. unfold bind at 1. rewrite Hprobe.
  unfold after_probes. cbn [folder_permissions total_files total_size groups].
  unfold bind at 1. unfold shown at 1.
  destruct (Render.print_folder_permissions perms) as [table [e | u]]; cbn [fst snd].
  - reflexivity.
  - unfold bind at 1. unfold print at 1, emit at 1. cbn [world trace].
    unfold bind at 1. unfold shown at 1. unfold Render.lift at 1. cbn [fst snd map].
    destruct (Render.format_size (sum_sizes (obj :: objects))) as [e | text].
    + rewrite app_nil_r, <- app_assoc. reflexivity.
    + unfold bind at 1. unfold print at 1, emit at 1. cbn [world trace].
      unfold bind at 1. unfold shown at 1.
      destruct (Render.print_grouped_files (group_objects_by_folder (obj :: objects)))
        as [files [e | u']]; cbn [fst snd world trace].
      * rewrite app_nil_r, <- !app_assoc. reflexivity.
      * unfold bind at 1. unfold generate_html_report, bind at 1.
        unfold shown at 1. cbn [folder_permissions total_size groups].
        destruct (Render.html_content (sum_sizes (obj :: objects)) perms
                    (group_objects_by_folder (obj :: objects)))
          as [page [e | u'']]; cbn [fst snd world trace].
        -- rewrite app_nil_r, <- !app_assoc. reflexivity.
        -- unfold bind, print, emit, ret. cbn [world trace].
           rewrite app_nil_r, <- !app_assoc. reflexivity.
Qed.

(** Every report [main_with_region] returns, by the listing it is made from. *)
Lemma main_with_region_cases (bucket_name region : string) (s : state World)
      (report : Report) (s' : state World) :
  main_with_region H bucket_name region s = (Return (Some report), s') ->
  exists timestamp s1 s2 s3 objects perms,
    after_timestamp H s = (timestamp, s1)
    /\ list_s3_objects H bucket_name region s1 = (Return objects, s2)
    /\ objects <> []
    /\ probe_folders H bucket_name region
                     (keys (group_objects_by_folder objects)) [] s2
       = (Return perms, s3)
    /\ keys perms = keys (group_objects_by_folder objects)
    /\ report = mkReport bucket_name region timestamp (length objects)
                         (sum_sizes objects) perms (group_objects_by_folder objects)
    /\ snd (after_probes report) = Return (Some report)
    /\ s' = mkState (world s3) (trace s3 ++ fst (after_probes report)).
Proof.
  intros Hrun.
  destruct (after_timestamp H s) as [timestamp s1] eqn:Hts.
  destruct (list_s3_objects H bucket_name region s1) as [[objects | e] s2] eqn:Hlist.
  - destruct objects as [| obj objects].
    + rewrite (main_with_region_empty H _ _ _ _ _ _ Hts Hlist) in Hrun. discriminate.
    + destruct (probe_folders_keys H bucket_name region
                  (keys (group_objects_by_folder (obj :: objects))) [] s2)
        as (perms & s3 & Hprobe & Hkeys).
      { exact (proj1 (group_objects_by_folder_grouping (obj :: objects))). }
      pose proof (main_with_region_after_probes bucket_name region timestamp
                    s s1 s2 s3 (obj :: objects) perms Hts Hlist
                    ltac:(discriminate) Hprobe) as Hmain.
      cbv zeta in Hmain. rewrite Hmain in Hrun. injection Hrun as Hres Hs'.
      destruct (after_probes_report _ _ Hres) as (-> & _).
      exists timestamp, s1, s2, s3, (obj :: objects), perms.
      repeat split; auto. discriminate.
  - rewrite main_with_region_unfold, Hts in Hrun. unfold bind at 1 in Hrun.
    rewrite Hlist in Hrun. discriminate.
Qed.

(** A listing with objects whose sizes all have a text, and their sum
    too, ends in a report. *)
Lemma main_with_region_returns
      (bucket_name region timestamp : string) (s s1 s2 : state World)
      (objects : list Obj) :
  after_timestamp H s = (timestamp, s1) ->
  list_s3_objects H bucket_name region s1 = (Return objects, s2) ->
  objects <> [] ->
  displayable (sum_sizes objects) ->
  Forall (fun obj => displayable (size obj)) objects ->
  exists report s',
    main_with_region H bucket_name region s = (Return (Some report), s').
Proof.
  intros Hts Hlist Hne Htotal Hall.
  destruct (probe_folders_keys H bucket_name region
              (keys (group_objects_by_folder objects)) [] s2)
    as (perms & s3 & Hprobe & _).
  { exact (proj1 (group_objects_by_folder_grouping objects)). }
  pose proof (main_with_region_after_probes bucket_name region timestamp
                s s1 s2 s3 objects perms Hts Hlist Hne Hprobe) as Hmain.
  cbv zeta in Hmain. rewrite Hmain.
  rewrite after_probes_returns.
  - eexists. eexists. reflexivity.
  - exact Htotal.
  - cbn [groups]. now apply grouped_objects_displayable.
Qed.

End Finish.

Section Reports.

Context {World : Type} (H : host World).

(** C7: for every sequence of objects the listing returns, a report the
    run produces has as grouping [group_objects_by_folder] of those
    objects, as keys of its permissions the keys of the grouping, in the
    same order and without repetition, and these keys are the top-level
    folders of the listed objects; whenever the sequence is not empty the
    permissions are probed for exactly the keys of the grouping; and the
    run produces the report whenever, besides, the sizes and their sum are
    sizes [format_size] has a text for. *)
Theorem report_folder_views_agree
        (bucket_name region timestamp : string) (s s1 s2 : state World)
        (objects : list Obj) :
  after_timestamp H s = (timestamp, s1) ->
  list_s3_objects H bucket_name region s1 = (Return objects, s2) ->
  (forall report s',
      main_with_region H bucket_name region s = (Return (Some report), s') ->
      groups report = group_objects_by_folder objects
      /\ keys (folder_permissions report) = keys (groups report)
      /\ NoDup (keys (groups report))
      /\ (forall folder,
             In folder (keys (groups report)) <-> In folder (map folder_of objects))
      /\ (forall folder,
             In folder (keys (folder_permissions report))
             <-> In folder (map folder_of objects)))
  /\ (objects <> [] ->
      exists perms s3,
        probe_folders H bucket_name region
                      (keys (group_objects_by_folder objects)) [] s2
        = (Return perms, s3)
        /\ keys perms = keys (group_objects_by_folder objects))
  /\ (objects <> [] ->
      (- 10 ^ 4300 < sum_sizes objects < 2 ^ 1064 - 2 ^ 1010)%Z ->
      Forall (fun obj => (- 10 ^ 4300 < size obj < 2 ^ 1064 - 2 ^ 1010)%Z) objects ->
      exists report s',
        main_with_region H bucket_name region s = (Return (Some report), s')).
Proof.
  intros Hts Hlist. split; [| split].
  - intros report s' Hrun.
    destruct (main_with_region_cases H _ _ _ _ _ Hrun)
      as (ts' & s1' & s2' & s3 & objects' & perms
          & Hts' & Hlist' & _ & _ & Hkeys & -> & _).
    rewrite Hts in Hts'. injection Hts' as <- <-.
    rewrite Hlist in Hlist'. injection Hlist' as <- <-.
    cbn [groups folder_permissions].
    split; [reflexivity |]. split; [exact Hkeys |].
    split; [exact (proj1 (group_objects_by_folder_grouping objects)) |].
    split; intros folder.
    + apply keys_group_objects_by_folder.
    + rewrite Hkeys. apply keys_group_objects_by_folder.
  - intros _.
    destruct (probe_folders_keys H bucket_name region
                (keys (group_objects_by_folder objects)) [] s2)
      as (perms & s3 & Hprobe & Hkeys).
    { exact (proj1 (group_objects_by_folder_grouping objects)). }
    now exists perms, s3.
  - intros Hne Htotal Hall.
    exact (main_with_region_returns H bucket_name region timestamp s s1 s2 objects
             Hts Hlist Hne Htotal Hall).
Qed.

(** X4: in every report [main] produces, the total size is the sum over
    the folders of the sizes of the folder's objects: the totals and the
    per-folder listing of one report never disagree. *)
Theorem report_total_size_agrees_with_groups
        (bucket_name region : string) (s s' : state World) (report : Report) :
  main_with_region H bucket_name region s = (Return (Some report), s') ->
  total_size report
  = fold_right Z.add 0%Z
      (map (fun entry => sum_sizes (snd entry)) (groups report)).
Proof.
  intros Hrun.
  destruct (main_with_region_cases H _ _ _ _ _ Hrun)
    as (ts & s1 & s2 & s3 & objects & perms & _ & _ & _ & _ & _ & -> & _).
  cbn [total_size groups]. rewrite <- sum_sizes_concat.
  apply sum_sizes_Permutation, Permutation_sym.
  exact (proj2 (proj2 (group_objects_by_folder_grouping objects))).
Qed.

(** X6: after a listing that returned objects, [main] probes the
    top-level folders in the order of their first appearance in the
    listing; for each folder it runs the read probe, then the upload of
    the write probe whatever the read probe answered, then the delete
    exactly when the upload was not refused, and afterwards no command at
    all, whether or not it gets to its report; in a report it returns, the
    permissions of a folder are read: the error stream of the folder's
    listing had neither "AccessDenied" nor "An error occurred", and write:
    that of the folder's upload had neither. *)
Theorem main_probes_each_folder_in_turn
        (bucket_name region timestamp : string) (s s1 s2 : state World)
        (objects : list Obj) :
  after_timestamp H s = (timestamp, s1) ->
  list_s3_objects H bucket_name region s1 = (Return objects, s2) ->
  objects <> [] ->
  exists rows,
    let probes := combine (first_occurrences (map folder_of objects)) rows in
    length rows = length (first_occurrences (map folder_of objects))
    /\ (exists rest,
           trace (snd (main_with_region H bucket_name region s))
           = trace s2 ++ concat (map (row_events bucket_name region) probes) ++ rest
           /\ commands rest = [])
    /\ (forall report s',
           main_with_region H bucket_name region s = (Return (Some report), s') ->
           folder_permissions report
           = map (fun probe =>
                    (fst probe,
                     mkPerm (negb (PyStr.contains "AccessDenied" (row_read_err (snd probe))
                                   || PyStr.contains "An error occurred"
                                                     (row_read_err (snd probe))))
                            (negb (PyStr.contains "AccessDenied"
                                                  (row_upload_err (snd probe))
                                   || PyStr.contains "An error occurred"
                                                     (row_upload_err (snd probe))))))
                 probes).
Proof.
  intros Hts Hlist Hne. cbv zeta.
  destruct (probe_folders_events H bucket_name region
              (keys (group_objects_by_folder objects)) [] s2)
    as (rows & s3 & Hlen & Hprobe & Htrace).
  { exact (proj1 (group_objects_by_folder_grouping objects)). }
  rewrite keys_group_first_occurrences in Hlen, Htrace.
  cbn [app] in Hprobe.
  pose proof (main_with_region_after_probes H bucket_name region timestamp
                s s1 s2 s3 objects _ Hts Hlist Hne Hprobe) as Hmain.
  cbv zeta in Hmain.
  exists rows. split; [exact Hlen |]. split.
  - rewrite Hmain. cbn [snd trace]. rewrite Htrace, <- app_assoc.
    eexists. split; [reflexivity | apply after_probes_commands].
  - intros report s' Hrun. rewrite Hmain in Hrun. injection Hrun as Hres _.
    destruct (after_probes_report _ _ Hres) as (-> & _).
    cbn [folder_permissions]. now rewrite keys_group_first_occurrences.
Qed.

End Reports.

(** C9: for every sequence of objects the total size of lines 302-303 is
    the sum of the sizes, hence 0 for the empty sequence, and the total
    count the number of objects.  A report [main] produces carries these
    totals of the listed objects and they are the totals it has printed;
    it produces them whenever the listing is not empty and the sizes and
    their sum are sizes [format_size] has a text for; when the sum has no
    text it prints the count and raises; and for an empty listing it
    returns without a total. *)
Theorem totals_are_derived_from_objects (objects : list Obj) :
  sum_sizes objects = fold_right Z.add 0%Z (map size objects)
  /\ (forall (World : Type) (H : host World)
             (bucket_name region timestamp : string) (s s1 s2 : state World),
         after_timestamp H s = (timestamp, s1) ->
         list_s3_objects H bucket_name region s1 = (Return objects, s2) ->
         (forall report s',
             main_with_region H bucket_name region s = (Return (Some report), s') ->
             total_size report = fold_right Z.add 0%Z (map size objects)
             /\ total_files report = length objects
             /\ In (Printed (nl ++ "Total Files: "
                             ++ Render.str_int (Z.of_nat (length objects))))
                   (trace s')
             /\ exists text,
                 Render.format_size (fold_right Z.add 0%Z (map size objects))
                 = inr text
                 /\ In (Printed ("Total Size: " ++ text)) (trace s'))
         /\ (objects <> [] ->
             (- 10 ^ 4300 < sum_sizes objects < 2 ^ 1064 - 2 ^ 1010)%Z ->
             Forall (fun obj => (- 10 ^ 4300 < size obj < 2 ^ 1064 - 2 ^ 1010)%Z)
                    objects ->
             exists report s',
               main_with_region H bucket_name region s = (Return (Some report), s'))
         /\ (objects <> [] ->
             forall e,
               Render.format_size (sum_sizes objects) = inl e ->
               exists s',
                 main_with_region H bucket_name region s = (Raise (Rendering e), s')
                 /\ last (trace s') (Printed "")
                    = Printed (nl ++ "Total Files: "
                               ++ Render.str_int (Z.of_nat (length objects))))
         /\ (objects = [] ->
             main_with_region H bucket_name region s
             = (Return None,
                mkState (world s2)
                        (trace s2 ++ [Printed "No objects found in bucket."])))).
Proof.
  split; [apply sum_sizes_is_sum |].
  intros World H bucket_name region timestamp s s1 s2 Hts Hlist.
  split; [| split; [| split]].
  - intros report s' Hrun.
    destruct (main_with_region_cases H _ _ _ _ _ Hrun)
      as (ts' & s1' & s2' & s3 & objects' & perms
          & Hts' & Hlist' & _ & _ & _ & Hrep & Hres & ->).
    rewrite Hts in Hts'. injection Hts' as <- <-.
    rewrite Hlist in Hlist'. injection Hlist' as <- <-.
    destruct (after_probes_report _ _ Hres) as (_ & text & Htext & Hcount & Hsize).
    rewrite Hrep in Htext, Hcount, Hsize |- *.
    cbn [total_size total_files] in Htext, Hcount, Hsize |- *.
    rewrite <- sum_sizes_is_sum.
    split; [reflexivity |]. split; [reflexivity |]. cbn [trace]. split.
    + apply in_or_app. right. exact Hcount.
    + exists text. split; [exact Htext |]. apply in_or_app. right. exact Hsize.
  - intros Hne Htotal Hall.
    exact (main_with_region_returns H bucket_name region timestamp s s1 s2 objects
             Hts Hlist Hne Htotal Hall).
  - intros Hne e He.
    destruct (probe_folders_keys H bucket_name region
                (keys (group_objects_by_folder objects)) [] s2)
      as (perms & s3 & Hprobe & _).
    { exact (proj1 (group_objects_by_folder_grouping objects)). }
    pose proof (main_with_region_after_probes H bucket_name region timestamp
                  s s1 s2 s3 objects perms Hts Hlist Hne Hprobe) as Hmain.
    cbv zeta in Hmain. rewrite Hmain. unfold after_probes.
    cbn [folder_permissions total_size total_files groups].
    destruct (print_folder_permissions_table perms) as (rows & -> & _).
    cbn [snd fst]. rewrite He. cbn [snd fst].
    eexists. split; [reflexivity |]. cbn [trace].
    rewrite !app_assoc. apply last_last.
  - intros ->. exact (main_with_region_empty H _ _ _ _ _ _ Hts Hlist).
Qed.

Lemma report_folder_views_agree_witness :
  exists report s',
    main_with_region Stub.host "b" "us-east-1" Stub.scenario
    = (Return (Some report), s')
    /\ groups report
       = group_objects_by_folder [Stub.docs_a; Stub.public_readme; Stub.logs_x]
    /\ keys (folder_permissions report) = keys (groups report)
    /\ NoDup (keys (groups report)).
Proof.
  destruct (report_folder_views_agree
              Stub.host "b" "us-east-1" Stub.stamp Stub.scenario
              (snd (after_timestamp Stub.host Stub.scenario))
              (snd (list_s3_objects Stub.host "b" "us-east-1"
                      (snd (after_timestamp Stub.host Stub.scenario))))
              [Stub.docs_a; Stub.public_readme; Stub.logs_x]
              eq_refl eq_refl)
    as (Hviews & _ & Hreport).
  destruct Hreport as (report & s' & Hmain).
  - discriminate.
  - split; vm_compute; reflexivity.
  - repeat constructor.
  - destruct (Hviews report s' Hmain) as (Hgroups & Hkeys & Hnd & _).
    exists report, s'. repeat split; assumption.
Defined.

Lemma totals_are_derived_from_objects_witness :
  exists report s',
    main_with_region Stub.host "b" "us-east-1" Stub.scenario
    = (Return (Some report), s')
    /\ total_size report = 5000500%Z
    /\ total_files report = 3%nat
    /\ In (Printed (nl ++ "Total Files: 3")) (trace s')
    /\ In (Printed "Total Size: 4.77 MB") (trace s').
Proof.
  destruct (totals_are_derived_from_objects
              [Stub.docs_a; Stub.public_readme; Stub.logs_x])
    as (_ & Hrun).
  destruct (Hrun Stub.World Stub.host "b" "us-east-1" Stub.stamp Stub.scenario
              (snd (after_timestamp Stub.host Stub.scenario))
              (snd (list_s3_objects Stub.host "b" "us-east-1"
                      (snd (after_timestamp Stub.host Stub.scenario))))
              eq_refl eq_refl)
    as (Htotals & Hreport & _).
  destruct Hreport as (report & s' & Hmain).
  - discriminate.
  - split; vm_compute; reflexivity.
  - repeat constructor.
  - destruct (Htotals report s' Hmain) as (Hsize & Hfiles & Hcount & text & Htext & Hline).
    exists report, s'. split; [exact Hmain |]. split; [exact Hsize |].
    split; [exact Hfiles |]. split; [exact Hcount |].
    vm_compute in Htext. injection Htext as <-. exact Hline.
Defined.

Lemma report_total_size_agrees_with_groups_witness :
  5000500%Z
  = fold_right Z.add 0%Z
      (map (fun entry => sum_sizes (snd entry))
           [ ("docs", [Stub.docs_a]); ("public", [Stub.public_readme]);
             ("logs", [Stub.logs_x]) ]).
Proof.
  refine (report_total_size_agrees_with_groups Stub.host "b" "us-east-1"
            Stub.scenario
            (snd (main_with_region Stub.host "b" "us-east-1" Stub.scenario))
            (mkReport "b" "us-east-1" Stub.stamp 3 5000500
                      [ ("docs", mkPerm true false);
                        ("public", mkPerm true false);
                        ("logs", mkPerm true true) ]
                      [ ("docs", [Stub.docs_a]);
                        ("public", [Stub.public_readme]);
                        ("logs", [Stub.logs_x]) ])
            _).
  vm_compute. reflexivity.
Defined.

Lemma main_probes_each_folder_in_turn_witness :
  exists rows,
    let probes := combine ["docs"; "public"; "logs"] rows in
    length rows = 3%nat
    /\ (exists rest,
           trace (snd (main_with_region Stub.host "b" "us-east-1" Stub.scenario))
           = trace (snd (list_s3_objects Stub.host "b" "us-east-1"
                           (snd (after_timestamp Stub.host Stub.scenario))))
             ++ concat (map (row_events "b" "us-east-1") probes) ++ rest
           /\ commands rest = [])
    /\ (forall report s',
           main_with_region Stub.host "b" "us-east-1" Stub.scenario
           = (Return (Some report), s') ->
           folder_permissions report
           = map (fun probe =>
                    (fst probe,
                     mkPerm (negb (PyStr.contains "AccessDenied" (row_read_err (snd probe))
                                   || PyStr.contains "An error occurred"
                                                     (row_read_err (snd probe))))
                            (negb (PyStr.contains "AccessDenied"
                                                  (row_upload_err (snd probe))
                                   || PyStr.contains "An error occurred"
                                                     (row_upload_err (snd probe))))))
                 probes).
Proof.
  apply (main_probes_each_folder_in_turn
           Stub.host "b" "us-east-1" Stub.stamp Stub.scenario
           (snd (after_timestamp Stub.host Stub.scenario))
           (snd (list_s3_objects Stub.host "b" "us-east-1"
                   (snd (after_timestamp Stub.host Stub.scenario))))
           [Stub.docs_a; Stub.public_readme; Stub.logs_x]);
    [reflexivity | reflexivity | discriminate].
Defined.

(** A listing whose only object has a size too large for [format_size]:
    the folders are probed, the table of permissions and the count are
    printed, and [main] ends with [OverflowError]. *)
Example main_raises_on_a_huge_total :
  let listing := ("2025-03-27 15:48:38 1" ++ Render.times 321 "0" ++ " docs/a.txt")%string in
  fst (main_with_region Stub.host "b" "us-east-1" (Stub.start [Completed listing ""]))
  = Raise (Rendering Render.OverflowError)
  /\ commands (trace (snd (main_with_region Stub.host "b" "us-east-1"
                             (Stub.start [Completed listing ""]))))
     = [ list_cmd "b" "us-east-1";
         read_cmd "b" "docs/" "us-east-1";
         upload_cmd "/tmp/tmpq1w2e3r4" "b" "docs/" "k3Xp09Qz.txt" "us-east-1";
         delete_cmd "b" "docs/" "k3Xp09Qz.txt" "us-east-1" ].
Proof. cbv zeta. split; vm_compute; reflexivity. Qed.
